(** * Config revisioning and environment deployment of the agenta backend

    A shallow embedding of
    - [agenta_backend/services/db_manager.py] (the data-access layer),
    - [agenta_backend/routers/configs_router.py] (save / get / revert),
    - [agenta_backend/services/evaluators_service.py] (evaluator dispatch),
    over an explicit document store.  Every collection is the list of its
    documents in insertion order; a Python coroutine becomes a function
    from the store to the store after the call together with either the
    raised exception or the returned value.  Writes made before an
    exception is raised stay in the store, as in the source, which has no
    transaction around its steps.  Objects read from the store live for one
    request only: a coroutine works on its own copies and what later
    requests see is what was written back with [create] or [save]. *)

From Stdlib Require Import ZArith NArith List Bool.
From stdpp Require Import base tactics option list strings gmap sorting pretty.

Set Warnings "-register-all".
Local Open Scope string_scope.
Local Open Scope list_scope.
Local Open Scope Z_scope.

(** ** Values *)

(** A document identifier ([beanie.PydanticObjectId]).  [str(oid)] and
    [ObjectId(s)] are inverse to each other on well-formed identifiers, so
    requests carry the identifier itself. *)
Definition ObjectId : Type := N.

Definition str_ObjectId (oid : ObjectId) : string := pretty oid.

(** JSON-like parameter values ([Dict[str, Any]] holds a tree of these). *)
Inductive json : Type :=
  | JNull
  | JBool (b : bool)
  | JInt (z : Z)
  | JFloat (mantissa exponent10 : Z)
  | JStr (s : string)
  | JList (l : list json)
  | JDict (l : list (string * json)).

(** A Python [dict] keyed by strings: equality ignores insertion order. *)
Abbreviation parameters_t := (gmap string json).

(** [parameters == {}] *)
Definition is_empty_dict (parameters : parameters_t) : bool :=
  Nat.eqb (size parameters) 0.

(** Python exceptions, with the text [str(e)] yields. *)
Inductive exn : Type :=
  | HTTPException (status_code : Z) (detail : string)
  | ValueError (msg : string)
  | RuntimeError (msg : string)
  | AttributeError (msg : string)
  | UnboundLocalError (msg : string)
  | TypeError (msg : string)
  | Exception (msg : string).

Definition str_exn (e : exn) : string :=
  match e with
  | HTTPException _ detail => detail
  | ValueError msg | RuntimeError msg | AttributeError msg
  | UnboundLocalError msg | TypeError msg | Exception msg => msg
  end.

Definition is_HTTPException (e : exn) : bool :=
  match e with HTTPException _ _ => true | _ => false end.

(** ** Documents ([agenta_backend.models.db_models]) *)

(** The model classes are declared in [models/db_models.py], which is not
    among the source files.  Each record below lists the fields the
    data-access layer passes to the class or reads from it, under the names
    it uses.  A [Link] to another document is stored as the identifier it
    refers to; [created_at] and [updated_at] stamps are left out. *)

(** Modelled from the spec: a user; [uid] is the external user identifier. *)
Module UserDB.
Record t : Type := Build
  { id : ObjectId; uid : string; organizations : list ObjectId }.
Definition set_id (i : ObjectId) (u : t) : t := Build i (uid u) (organizations u).
Definition set_organizations (os : list ObjectId) (u : t) : t :=
  Build (id u) (uid u) os.
End UserDB.

(** Modelled from the spec: an organisation and the identifier string of its
    owner. *)
Module OrganizationDB.
Record t : Type := Build { id : ObjectId; type : string; owner : string }.
Definition set_id (i : ObjectId) (o : t) : t := Build i (type o) (owner o).
End OrganizationDB.

(** Modelled from the spec: an application. *)
Module AppDB.
Record t : Type := Build
  { id : ObjectId; app_name : string; organization : ObjectId; user : ObjectId }.
Definition set_id (i : ObjectId) (a : t) : t :=
  Build i (app_name a) (organization a) (user a).
End AppDB.

(** Modelled from the spec: the infrastructure record of an application. *)
Module DeploymentDB.
Record t : Type := Build { id : ObjectId; app : ObjectId }.
Definition set_id (i : ObjectId) (d : t) : t := Build i (app d).
End DeploymentDB.

(** Modelled from the spec: a base, the unit named configs are created under. *)
Module VariantBaseDB.
Record t : Type := Build
  { id : ObjectId; app : ObjectId; organization : ObjectId; user : ObjectId;
    base_name : string; image : ObjectId }.
Definition set_id (i : ObjectId) (b : t) : t :=
  Build i (app b) (organization b) (user b) (base_name b) (image b).
End VariantBaseDB.

(** Modelled from the spec: a config, a name with its parameters; embedded,
    never stored on its own. *)
Module ConfigDB.
Record t : Type := Build { config_name : string; parameters : parameters_t }.
Definition set_parameters (p : parameters_t) (c : t) : t := Build (config_name c) p.
End ConfigDB.

(** Modelled from the spec: a variant; [revision] is its current revision
    number and [config] its current config. *)
Module AppVariantDB.
Record t : Type := Build
  { id : ObjectId; app : ObjectId; variant_name : string; image : ObjectId;
    user : ObjectId; modified_by : ObjectId; revision : Z;
    organization : ObjectId; parameters : parameters_t;
    previous_variant_name : option string; base_name : string;
    base : ObjectId; config_name : string; config : ConfigDB.t;
    is_deleted : bool }.
Definition set_id (i : ObjectId) (v : t) : t :=
  Build i (app v) (variant_name v) (image v) (user v) (modified_by v)
    (revision v) (organization v) (parameters v) (previous_variant_name v)
    (base_name v) (base v) (config_name v) (config v) (is_deleted v).
Definition set_config (c : ConfigDB.t) (v : t) : t :=
  Build (id v) (app v) (variant_name v) (image v) (user v) (modified_by v)
    (revision v) (organization v) (parameters v) (previous_variant_name v)
    (base_name v) (base v) (config_name v) c (is_deleted v).
Definition set_revision (r : Z) (v : t) : t :=
  Build (id v) (app v) (variant_name v) (image v) (user v) (modified_by v)
    r (organization v) (parameters v) (previous_variant_name v)
    (base_name v) (base v) (config_name v) (config v) (is_deleted v).
Definition set_modified_by (u : ObjectId) (v : t) : t :=
  Build (id v) (app v) (variant_name v) (image v) (user v) u
    (revision v) (organization v) (parameters v) (previous_variant_name v)
    (base_name v) (base v) (config_name v) (config v) (is_deleted v).
End AppVariantDB.

(** Modelled from the spec: a variant revision, the snapshot of a variant
    config at one revision number. *)
Module AppVariantRevisionsDB.
Record t : Type := Build
  { id : ObjectId; variant : ObjectId; revision : Z; modified_by : ObjectId;
    base : ObjectId; config : ConfigDB.t }.
Definition set_id (i : ObjectId) (r : t) : t :=
  Build i (variant r) (revision r) (modified_by r) (base r) (config r).
End AppVariantRevisionsDB.

(** Modelled from the spec: an environment; [revision] is its revision
    counter and [deployed_app_variant_revision] its live pointer. *)
Module AppEnvironmentDB.
Record t : Type := Build
  { id : ObjectId; app : ObjectId; name : string; user : ObjectId;
    revision : Z; organization : ObjectId;
    deployed_app_variant : option ObjectId;
    deployed_app_variant_revision : option ObjectId;
    deployment : option ObjectId }.
Definition set_id (i : ObjectId) (e : t) : t :=
  Build i (app e) (name e) (user e) (revision e) (organization e)
    (deployed_app_variant e) (deployed_app_variant_revision e) (deployment e).
Definition set_revision (r : Z) (e : t) : t :=
  Build (id e) (app e) (name e) (user e) r (organization e)
    (deployed_app_variant e) (deployed_app_variant_revision e) (deployment e).
Definition set_deployed_app_variant (v : option ObjectId) (e : t) : t :=
  Build (id e) (app e) (name e) (user e) (revision e) (organization e)
    v (deployed_app_variant_revision e) (deployment e).
Definition set_deployed_app_variant_revision (r : option ObjectId) (e : t) : t :=
  Build (id e) (app e) (name e) (user e) (revision e) (organization e)
    (deployed_app_variant e) r (deployment e).
Definition set_deployment (d : option ObjectId) (e : t) : t :=
  Build (id e) (app e) (name e) (user e) (revision e) (organization e)
    (deployed_app_variant e) (deployed_app_variant_revision e) d.
End AppEnvironmentDB.

(** Modelled from the spec: an environment revision, the audit record of one
    deploy. *)
Module AppEnvironmentRevisionDB.
Record t : Type := Build
  { id : ObjectId; environment : ObjectId; revision : Z;
    modified_by : ObjectId;
    deployed_app_variant_revision : option ObjectId;
    deployment : option ObjectId }.
Definition set_id (i : ObjectId) (r : t) : t :=
  Build i (environment r) (revision r) (modified_by r)
    (deployed_app_variant_revision r) (deployment r).
Definition set_deployed_app_variant_revision (v : option ObjectId) (r : t) : t :=
  Build (id r) (environment r) (revision r) (modified_by r) v (deployment r).
Definition set_deployment (d : option ObjectId) (r : t) : t :=
  Build (id r) (environment r) (revision r) (modified_by r)
    (deployed_app_variant_revision r) d.
End AppEnvironmentRevisionDB.

(** ** The document store *)

Record db : Type := Build_db
  { users : list UserDB.t;
    organizations : list OrganizationDB.t;
    apps : list AppDB.t;
    deployments : list DeploymentDB.t;
    bases : list VariantBaseDB.t;
    app_variants : list AppVariantDB.t;
    app_variant_revisions : list AppVariantRevisionsDB.t;
    environments : list AppEnvironmentDB.t;
    environment_revisions : list AppEnvironmentRevisionDB.t;
    next_id : ObjectId }.

Definition set_next_id (n : ObjectId) (s : db) : db :=
  Build_db (users s) (organizations s) (apps s) (deployments s) (bases s)
    (app_variants s) (app_variant_revisions s) (environments s)
    (environment_revisions s) n.

(** What [beanie.Document] gives every model class: its identifier and the
    collection it is stored in. *)
Class Document (A : Type) : Type :=
  { doc_id : A → ObjectId;
    doc_set_id : ObjectId → A → A;
    collection : db → list A;
    set_collection : list A → db → db }.

#[export] Instance UserDB_Document : Document UserDB.t :=
  {| doc_id := UserDB.id; doc_set_id := UserDB.set_id; collection := users;
     set_collection l s :=
       Build_db l (organizations s) (apps s) (deployments s) (bases s)
         (app_variants s) (app_variant_revisions s) (environments s)
         (environment_revisions s) (next_id s) |}.

#[export] Instance OrganizationDB_Document : Document OrganizationDB.t :=
  {| doc_id := OrganizationDB.id; doc_set_id := OrganizationDB.set_id;
     collection := organizations;
     set_collection l s :=
       Build_db (users s) l (apps s) (deployments s) (bases s)
         (app_variants s) (app_variant_revisions s) (environments s)
         (environment_revisions s) (next_id s) |}.

#[export] Instance AppDB_Document : Document AppDB.t :=
  {| doc_id := AppDB.id; doc_set_id := AppDB.set_id; collection := apps;
     set_collection l s :=
       Build_db (users s) (organizations s) l (deployments s) (bases s)
         (app_variants s) (app_variant_revisions s) (environments s)
         (environment_revisions s) (next_id s) |}.

#[export] Instance DeploymentDB_Document : Document DeploymentDB.t :=
  {| doc_id := DeploymentDB.id; doc_set_id := DeploymentDB.set_id;
     collection := deployments;
     set_collection l s :=
       Build_db (users s) (organizations s) (apps s) l (bases s)
         (app_variants s) (app_variant_revisions s) (environments s)
         (environment_revisions s) (next_id s) |}.

#[export] Instance VariantBaseDB_Document : Document VariantBaseDB.t :=
  {| doc_id := VariantBaseDB.id; doc_set_id := VariantBaseDB.set_id;
     collection := bases;
     set_collection l s :=
       Build_db (users s) (organizations s) (apps s) (deployments s) l
         (app_variants s) (app_variant_revisions s) (environments s)
         (environment_revisions s) (next_id s) |}.

#[export] Instance AppVariantDB_Document : Document AppVariantDB.t :=
  {| doc_id := AppVariantDB.id; doc_set_id := AppVariantDB.set_id;
     collection := app_variants;
     set_collection l s :=
       Build_db (users s) (organizations s) (apps s) (deployments s) (bases s)
         l (app_variant_revisions s) (environments s)
         (environment_revisions s) (next_id s) |}.

#[export] Instance AppVariantRevisionsDB_Document : Document AppVariantRevisionsDB.t :=
  {| doc_id := AppVariantRevisionsDB.id;
     doc_set_id := AppVariantRevisionsDB.set_id;
     collection := app_variant_revisions;
     set_collection l s :=
       Build_db (users s) (organizations s) (apps s) (deployments s) (bases s)
         (app_variants s) l (environments s)
         (environment_revisions s) (next_id s) |}.

#[export] Instance AppEnvironmentDB_Document : Document AppEnvironmentDB.t :=
  {| doc_id := AppEnvironmentDB.id; doc_set_id := AppEnvironmentDB.set_id;
     collection := environments;
     set_collection l s :=
       Build_db (users s) (organizations s) (apps s) (deployments s) (bases s)
         (app_variants s) (app_variant_revisions s) l
         (environment_revisions s) (next_id s) |}.

#[export] Instance AppEnvironmentRevisionDB_Document :
  Document AppEnvironmentRevisionDB.t :=
  {| doc_id := AppEnvironmentRevisionDB.id;
     doc_set_id := AppEnvironmentRevisionDB.set_id;
     collection := environment_revisions;
     set_collection l s :=
       Build_db (users s) (organizations s) (apps s) (deployments s) (bases s)
         (app_variants s) (app_variant_revisions s) (environments s)
         l (next_id s) |}.

(** ** Coroutines over the store *)

Definition M (A : Type) : Type := db → db * (exn + A).

Definition ret {A} (a : A) : M A := λ s, (s, inr a).
Definition raise {A} (e : exn) : M A := λ s, (s, inl e).
Definition bind {A B} (m : M A) (k : A → M B) : M B :=
  λ s, match m s with
       | (s', inr a) => k a s'
       | (s', inl e) => (s', inl e)
       end.

Notation "'let*' x ':=' m 'in' k" := (bind m (λ x, k))
  (at level 10, x pattern, m at level 100, k at level 200).
Notation "m ';;' k" := (bind m (λ _, k))
  (at level 100, k at level 200, right associativity).

(** [try: m except Exception as e: h e] *)
Definition try_except {A} (m : M A) (h : exn → M A) : M A :=
  λ s, match m s with
       | (s', inl e) => h e s'
       | r => r
       end.

(** ** [beanie.Document] operations *)

Section Beanie.
Context {A : Type} `{Document A}.

(** [await Doc.find(p).to_list()], in natural (insertion) order. *)
Definition find (p : A → bool) : M (list A) :=
  λ s, (s, inr (filter (λ d, Is_true (p d)) (collection s))).

(** [await Doc.find_one(p)] *)
Definition find_one (p : A → bool) : M (option A) :=
  λ s, (s, inr (List.find p (collection s))).

Definition has_id (oid : ObjectId) (d : A) : bool := N.eqb (doc_id d) oid.

(** [await doc.create()]: the store assigns a fresh identifier. *)
Definition create (d : A) : M A :=
  λ s, let d' := doc_set_id (next_id s) d in
       (set_next_id (N.succ (next_id s))
          (set_collection (collection s ++ [d']) s), inr d').

(** [await doc.save()] on a document read from the store: the stored
    document with that identifier is replaced; one that is not stored
    yet is inserted. *)
Definition replace_doc (d : A) (l : list A) : list A :=
  if existsb (has_id (doc_id d)) l
  then map (λ x, if has_id (doc_id d) x then d else x) l
  else l ++ [d].

Definition save (d : A) : M unit :=
  λ s, (set_collection (replace_doc d (collection s)) s, inr tt).

(** What a [Link] field holds after a read with [fetch_links=True]: the
    linked document when it is in the store, otherwise the link is left
    in place, and reading a document attribute from it raises. *)
Definition fetch_link (ref : ObjectId) (s : db) : option A :=
  List.find (has_id ref) (collection s).
End Beanie.

(** [link.id] on a fetched link field. *)
Definition linked_id {A} `{Document A} (fetched : option A) : M ObjectId :=
  match fetched with
  | Some d => ret (doc_id d)
  | None => raise (AttributeError "'Link' object has no attribute 'id'")
  end.

Definition get_db : M db := λ s, (s, inr s).

(** [doc.link.id] where [doc] was read with [fetch_links=True]. *)
Definition fetched_id (A : Type) `{Document A} (ref : ObjectId) : M ObjectId :=
  let* s := get_db in linked_id (fetch_link (A:=A) ref s).

(** ** External collaborators *)

(** The [**user_org_data] dictionary threaded through the calls. *)
Record user_org_data : Type :=
  { uid : string; organization_ids : list ObjectId }.

(** Code the modelled files import but do not define: the deployment mode
    from the process environment, the selector that turns the request's user
    into [user_org_data], and the organisation access check.  The last two
    read the store and do not write it. *)
Class Collaborators : Type :=
  { FEATURE_FLAG : string;
    get_user_and_org_id : string → db → exn + user_org_data;
    check_user_org_access : user_org_data → string → bool → db → bool }.

(** ** [services/db_manager.py] *)

Section DbManager.
Context `{Collaborators}.

Definition fetch_app_by_id (app_id : ObjectId) : M (option AppDB.t) :=
  find_one (has_id app_id).

Definition fetch_app_variant_by_id (app_variant_id : ObjectId)
  : M (option AppVariantDB.t) :=
  find_one (has_id app_variant_id).

Definition fetch_app_variant_revision_by_variant
    (app_variant_id : ObjectId) (revision : Z) : M AppVariantRevisionsDB.t :=
  let* app_variant_revision :=
    find_one (λ r, N.eqb (AppVariantRevisionsDB.variant r) app_variant_id
                   && Z.eqb (AppVariantRevisionsDB.revision r) revision) in
  match app_variant_revision with
  | None =>
      raise (Exception ("app variant revision  for app_variant "
               +:+ str_ObjectId app_variant_id +:+ " and revision "
               +:+ pretty revision +:+ " not found"))
  | Some r => ret r
  end.

Definition get_deployment_by_appid (app_id : ObjectId)
  : M (option DeploymentDB.t) :=
  find_one (λ d, N.eqb (DeploymentDB.app d) app_id).

(** [.sort("variant_name")]: ascending, by comparison of the strings. *)
Definition variant_name_le (a b : AppVariantDB.t) : Prop :=
  String.leb (AppVariantDB.variant_name a) (AppVariantDB.variant_name b) = true.

#[export] Instance variant_name_le_dec a b : Decision (variant_name_le a b).
Proof. unfold variant_name_le. apply _. Defined.

Definition list_variants_for_base (base : VariantBaseDB.t)
  : M (list AppVariantDB.t) :=
  let* app_variants_db :=
    find (λ v, N.eqb (AppVariantDB.base v) (VariantBaseDB.id base)) in
  ret (merge_sort variant_name_le app_variants_db).

Definition get_user (user_uid : string) : M UserDB.t :=
  let* user := find_one (λ u, String.eqb (UserDB.uid u) user_uid) in
  match user with
  | None =>
      if negb (String.eqb FEATURE_FLAG "cloud" || String.eqb FEATURE_FLAG "ee")
      then
        let* user_db := create (UserDB.Build 0%N "0" []) in
        let* org :=
          create (OrganizationDB.Build 0%N "default"
                    (str_ObjectId (UserDB.id user_db))) in
        let user_db :=
          UserDB.set_organizations
            (UserDB.organizations user_db ++ [OrganizationDB.id org]) user_db in
        save user_db ;;
        ret user_db
      else raise (Exception "Please login or signup")
  | Some user => ret user
  end.

Definition find_previous_variant_from_base_id (base_id : ObjectId)
  : M (option AppVariantDB.t) :=
  let* previous_variants :=
    find (λ v, N.eqb (AppVariantDB.base v) base_id) in
  match previous_variants with
  | [] => ret None
  | previous_variant :: _ => ret (Some previous_variant)
  end.

Definition add_variant_from_base_and_config
    (base_db : VariantBaseDB.t) (new_config_name : string)
    (parameters : parameters_t) (uod : user_org_data) : M AppVariantDB.t :=
  let new_variant_name :=
    VariantBaseDB.base_name base_db +:+ "." +:+ new_config_name in
  let* previous_app_variant_db :=
    find_previous_variant_from_base_id (VariantBaseDB.id base_db) in
  match previous_app_variant_db with
  | None =>
      raise (HTTPException 500 "Previous app variant not found")
  | Some previous_app_variant_db =>
      let* app_variant_for_base := list_variants_for_base base_db in
      let already_exists :=
        existsb (λ av, String.eqb (AppVariantDB.config_name av) new_config_name)
          app_variant_for_base in
      if already_exists
      then raise (ValueError "App variant with the same name already exists")
      else
        let* user_db := get_user (uid uod) in
        let config_db := ConfigDB.Build new_config_name parameters in
        let* db_app_variant :=
          create
            {| AppVariantDB.id := 0%N;
               AppVariantDB.app := AppVariantDB.app previous_app_variant_db;
               AppVariantDB.variant_name := new_variant_name;
               AppVariantDB.image := VariantBaseDB.image base_db;
               AppVariantDB.user := UserDB.id user_db;
               AppVariantDB.modified_by := UserDB.id user_db;
               AppVariantDB.revision := 1;
               AppVariantDB.organization :=
                 AppVariantDB.organization previous_app_variant_db;
               AppVariantDB.parameters := parameters;
               AppVariantDB.previous_variant_name :=
                 Some (AppVariantDB.variant_name previous_app_variant_db);
               AppVariantDB.base_name := VariantBaseDB.base_name base_db;
               AppVariantDB.base := VariantBaseDB.id base_db;
               AppVariantDB.config_name := new_config_name;
               AppVariantDB.config := config_db;
               AppVariantDB.is_deleted := false |} in
        let* _ :=
          create
            {| AppVariantRevisionsDB.id := 0%N;
               AppVariantRevisionsDB.variant := AppVariantDB.id db_app_variant;
               AppVariantRevisionsDB.revision := 1;
               AppVariantRevisionsDB.modified_by := UserDB.id user_db;
               AppVariantRevisionsDB.base := VariantBaseDB.id base_db;
               AppVariantRevisionsDB.config := config_db |} in
        ret db_app_variant
  end.

(** The only caller passes both keyword arguments, so [if kwargs:] holds. *)
Definition create_environment_revision
    (environment : AppEnvironmentDB.t) (user : UserDB.t)
    (deployed_app_variant_revision deployment : option ObjectId) : M unit :=
  let environment_revision :=
    {| AppEnvironmentRevisionDB.id := 0%N;
       AppEnvironmentRevisionDB.environment := AppEnvironmentDB.id environment;
       AppEnvironmentRevisionDB.revision := AppEnvironmentDB.revision environment;
       AppEnvironmentRevisionDB.modified_by := UserDB.id user;
       AppEnvironmentRevisionDB.deployed_app_variant_revision := None;
       AppEnvironmentRevisionDB.deployment := None |} in
  let environment_revision :=
    match deployed_app_variant_revision with
    | Some r =>
        AppEnvironmentRevisionDB.set_deployed_app_variant_revision (Some r)
          environment_revision
    | None => environment_revision
    end in
  let environment_revision :=
    match deployment with
    | Some d =>
        AppEnvironmentRevisionDB.set_deployment (Some d) environment_revision
    | None => environment_revision
    end in
  create environment_revision ;; ret tt.

Definition deploy_to_environment
    (environment_name : string) (variant_id : ObjectId) (uod : user_org_data)
  : M unit :=
  let* app_variant_db := fetch_app_variant_by_id variant_id in
  match app_variant_db with
  | None =>
      (* [app_variant_db.revision] is read before the [is None] test *)
      raise (AttributeError "'NoneType' object has no attribute 'revision'")
  | Some app_variant_db =>
      let* app_variant_revision_db :=
        fetch_app_variant_revision_by_variant variant_id
          (AppVariantDB.revision app_variant_db) in
      let* app_id := fetched_id AppDB.t (AppVariantDB.app app_variant_db) in
      let* environment_db :=
        find_one (λ e, N.eqb (AppEnvironmentDB.app e) app_id
                       && String.eqb (AppEnvironmentDB.name e) environment_name) in
      match environment_db with
      | None =>
          raise (ValueError ("Environment " +:+ environment_name +:+ " not found"))
      | Some environment_db =>
          let* deployment := get_deployment_by_appid app_id in
          let environment_db :=
            AppEnvironmentDB.set_revision
              (AppEnvironmentDB.revision environment_db + 1) environment_db in
          let environment_db :=
            AppEnvironmentDB.set_deployed_app_variant
              (Some (AppVariantDB.id app_variant_db)) environment_db in
          let environment_db :=
            AppEnvironmentDB.set_deployed_app_variant_revision
              (Some (AppVariantRevisionsDB.id app_variant_revision_db))
              environment_db in
          match deployment with
          | None =>
              raise (AttributeError "'NoneType' object has no attribute 'id'")
          | Some deployment =>
              let environment_db :=
                AppEnvironmentDB.set_deployment
                  (Some (DeploymentDB.id deployment)) environment_db in
              let* user := get_user (uid uod) in
              create_environment_revision environment_db user
                (Some (AppVariantRevisionsDB.id app_variant_revision_db))
                (Some (DeploymentDB.id deployment)) ;;
              save environment_db
          end
      end
  end.

Definition fetch_app_environment_revision (revision_id : ObjectId)
  : M (option AppEnvironmentRevisionDB.t) :=
  find_one (has_id revision_id).

(** [app_environment] is the [environment] link of an environment revision
    read with [fetch_links=True]: [None] stands for a link left unfetched. *)
Definition update_app_environment_deployed_variant_revision
    (app_environment : option AppEnvironmentDB.t)
    (deployed_variant_revision : ObjectId) : M unit :=
  let* app_variant_revision :=
    find_one (A:=AppVariantRevisionsDB.t) (has_id deployed_variant_revision) in
  match app_variant_revision with
  | None =>
      raise (Exception ("App variant revision "
               +:+ str_ObjectId deployed_variant_revision +:+ " not found"))
  | Some app_variant_revision =>
      match app_environment with
      | None => raise (AttributeError "'Link' object has no attribute 'save'")
      | Some app_environment =>
          save (AppEnvironmentDB.set_deployed_app_variant_revision
                  (Some (AppVariantRevisionsDB.id app_variant_revision))
                  app_environment)
      end
  end.

Definition list_environments (app_id : ObjectId) : M (list AppEnvironmentDB.t) :=
  let* app_instance := fetch_app_by_id app_id in
  match app_instance with
  | None => raise (ValueError "App not found")
  | Some _ => find (λ e, N.eqb (AppEnvironmentDB.app e) app_id)
  end.

Definition create_environment (name : string) (app_db : AppDB.t)
  : M AppEnvironmentDB.t :=
  create
    {| AppEnvironmentDB.id := 0%N;
       AppEnvironmentDB.app := AppDB.id app_db;
       AppEnvironmentDB.name := name;
       AppEnvironmentDB.user := AppDB.user app_db;
       AppEnvironmentDB.revision := 0;
       AppEnvironmentDB.organization := AppDB.organization app_db;
       AppEnvironmentDB.deployed_app_variant := None;
       AppEnvironmentDB.deployed_app_variant_revision := None;
       AppEnvironmentDB.deployment := None |}.

Fixpoint initialize_environments_loop (names : list string) (app_db : AppDB.t)
    (environments : list AppEnvironmentDB.t) : M (list AppEnvironmentDB.t) :=
  match names with
  | [] => ret environments
  | env_name :: names =>
      let* env := create_environment env_name app_db in
      initialize_environments_loop names app_db (environments ++ [env])
  end.

Definition initialize_environments (app_db : AppDB.t)
  : M (list AppEnvironmentDB.t) :=
  initialize_environments_loop ["development"; "staging"; "production"] app_db [].

Definition update_variant_parameters
    (app_variant_db : AppVariantDB.t) (parameters : parameters_t)
    (uod : user_org_data) : M unit :=
  try_except
    (let* user := get_user (uid uod) in
     let config_db :=
       ConfigDB.set_parameters parameters (AppVariantDB.config app_variant_db) in
     let app_variant_db := AppVariantDB.set_config config_db app_variant_db in
     let app_variant_db :=
       AppVariantDB.set_revision (AppVariantDB.revision app_variant_db + 1)
         app_variant_db in
     let app_variant_db :=
       AppVariantDB.set_modified_by (UserDB.id user) app_variant_db in
     save app_variant_db ;;
     (* [variant_revision.save()] on a document built here: an insert *)
     let* _ :=
       create
         {| AppVariantRevisionsDB.id := 0%N;
            AppVariantRevisionsDB.variant := AppVariantDB.id app_variant_db;
            AppVariantRevisionsDB.revision := AppVariantDB.revision app_variant_db;
            AppVariantRevisionsDB.modified_by := UserDB.id user;
            AppVariantRevisionsDB.base := AppVariantDB.base app_variant_db;
            AppVariantRevisionsDB.config := config_db |} in
     ret tt)
    (λ _, raise (ValueError "Issue updating variant parameters")).

Definition fetch_base_and_check_access
    (base_id : ObjectId) (uod : user_org_data) (check_owner : bool)
  : M VariantBaseDB.t :=
  let* base := find_one (A:=VariantBaseDB.t) (has_id base_id) in
  match base with
  | None => raise (HTTPException 404 "Base not found")
  | Some base =>
      let* organization_id :=
        fetched_id OrganizationDB.t (VariantBaseDB.organization base) in
      let* s := get_db in
      if check_user_org_access uod (str_ObjectId organization_id) check_owner s
      then ret base
      else raise (HTTPException 403
                    ("You do not have access to this base: "
                     +:+ str_ObjectId base_id))
  end.
End DbManager.

(** ** [services/app_manager.py] *)

Module app_manager.
Section AppManager.
Context `{Collaborators}.

(** Modelled from the spec: [app_manager.update_variant_parameters] is
    called by the router and is not among the source files.  The spec
    (4.4, save_config, step 2) has the matched variant updated in place;
    the wrapper takes the variant's identifier, so it reads the variant
    with that identifier and hands it to
    [db_manager.update_variant_parameters]. *)
Definition update_variant_parameters
    (app_variant_id : ObjectId) (parameters : parameters_t)
    (uod : user_org_data) : M unit :=
  let* app_variant_db := fetch_app_variant_by_id app_variant_id in
  match app_variant_db with
  | None =>
      raise (ValueError ("Failed to update app variant "
               +:+ str_ObjectId app_variant_id +:+ ": Not found in DB."))
  | Some app_variant_db =>
      update_variant_parameters app_variant_db parameters uod
  end.
End AppManager.
End app_manager.

(** ** [routers/configs_router.py] *)

(** Modelled from the spec: the request body of save config (section 6);
    the class is declared in [models/api/api_models.py]. *)
Record SaveConfigPayload : Type :=
  { base_id : ObjectId; config_name : string;
    parameters : parameters_t; overwrite : bool }.

(** Modelled from the spec: the answer of get config (section 6), with the
    two constant fields the router still fills in. *)
Record GetConfigResponse : Type :=
  { config_id : string; response_config_name : string;
    current_version : string; response_parameters : parameters_t }.

(** Truth value of an [Optional[str]]: [None] and the empty string are false. *)
Definition truthy (o : option string) : bool :=
  match o with
  | Some s => negb (String.eqb s "")
  | None => false
  end.

Definition conflict_detail : string :=
  "Config name already exists. Please use a different name or set overwrite to True.".

Section ConfigsRouter.
Context `{Collaborators}.

(** [except HTTPException: raise] and
    [except Exception as e: raise HTTPException(status_code=500, detail=str(e))] *)
Definition router_errors {A} (m : M A) : M A :=
  try_except m
    (λ e, if is_HTTPException e then raise e
          else raise (HTTPException 500 (str_exn e))).

Definition selector (user_id : string) : M user_org_data :=
  λ s, (s, get_user_and_org_id user_id s).

(** The loop that picks the first variant of the base with the config name. *)
Definition variant_with_config_name (variants_db : list AppVariantDB.t)
    (config_name : string) : option AppVariantDB.t :=
  List.find (λ v, String.eqb (AppVariantDB.config_name v) config_name) variants_db.

Definition save_config (payload : SaveConfigPayload) (user_id : string) : M unit :=
  router_errors
    (let* uod := selector user_id in
     let* base_db := fetch_base_and_check_access (base_id payload) uod false in
     let* variants_db := list_variants_for_base base_db in
     let variant_to_overwrite :=
       variant_with_config_name variants_db (config_name payload) in
     match variant_to_overwrite with
     | Some variant_to_overwrite =>
         if overwrite payload
            || is_empty_dict
                 (ConfigDB.parameters (AppVariantDB.config variant_to_overwrite))
         then
           app_manager.update_variant_parameters
             (AppVariantDB.id variant_to_overwrite) (parameters payload) uod
         else raise (HTTPException 200 conflict_detail)
     | None =>
         add_variant_from_base_and_config base_db (config_name payload)
           (parameters payload) uod ;;
         ret tt
     end).

(** The loop over the environments of the app.  The outer [option] is
    whether the local [found_variant_revision] got bound at all; a bound
    value is [None], or the link's target paired with the document the
    link was fetched to, when there is one. *)
Definition find_deployed_revision (s : db)
    (app_environments : list AppEnvironmentDB.t) (environment_name : string)
  : option (option (ObjectId * option AppVariantRevisionsDB.t)) :=
  match List.find (λ e, String.eqb (AppEnvironmentDB.name e) environment_name)
          app_environments with
  | Some app_environment =>
      Some (match AppEnvironmentDB.deployed_app_variant_revision app_environment with
            | Some ref => Some (ref, fetch_link ref s)
            | None => None
            end)
  | None => None
  end.

Definition get_config (user_id : string) (base_id : ObjectId)
    (config_name environment_name : option string) : M GetConfigResponse :=
  router_errors
    (let* uod := selector user_id in
     let* base_db := fetch_base_and_check_access base_id uod false in
     let* config :=
       if truthy environment_name then
         let environment_name := default "" environment_name in
         let* app_id := fetched_id AppDB.t (VariantBaseDB.app base_db) in
         let* app_environments := list_environments app_id in
         let* s := get_db in
         match find_deployed_revision s app_environments environment_name with
         | None =>
             raise (UnboundLocalError
               "local variable 'found_variant_revision' referenced before assignment")
         | Some None =>
             raise (HTTPException 400
                      ("Environment name " +:+ environment_name
                       +:+ " not found for base " +:+ str_ObjectId base_id))
         | Some (Some (_, None)) =>
             raise (AttributeError "'Link' object has no attribute 'base'")
         | Some (Some (_, Some found_variant_revision)) =>
             let* revision_base_id :=
               fetched_id VariantBaseDB.t
                 (AppVariantRevisionsDB.base found_variant_revision) in
             if negb (N.eqb revision_base_id base_id)
             then raise (HTTPException 400
                           ("Environment " +:+ environment_name
                            +:+ " does not deploy base " +:+ str_ObjectId base_id))
             else ret (AppVariantRevisionsDB.config found_variant_revision)
         end
       else if truthy config_name then
         let config_name := default "" config_name in
         let* variants_db := list_variants_for_base base_db in
         match variant_with_config_name variants_db config_name with
         | None =>
             raise (HTTPException 400
                      ("Config name " +:+ config_name
                       +:+ " not found for base " +:+ str_ObjectId base_id))
         | Some found_variant => ret (AppVariantDB.config found_variant)
         end
       else
         raise (UnboundLocalError
                  "local variable 'config' referenced before assignment") in
     ret {| config_id := "0";
            response_config_name := ConfigDB.config_name config;
            current_version := "0";
            response_parameters := ConfigDB.parameters config |}).

Definition revert_deployment_revision (deployment_revision_id : ObjectId)
  : M string :=
  let* environment_revision :=
    fetch_app_environment_revision deployment_revision_id in
  match environment_revision with
  | None =>
      raise (HTTPException 404
               ("No environment revision found for deployment revision "
                +:+ str_ObjectId deployment_revision_id))
  | Some environment_revision =>
      match AppEnvironmentRevisionDB.deployed_app_variant_revision
              environment_revision with
      | None =>
          raise (HTTPException 404
                   ("No deployed app variant found for deployment revision: "
                    +:+ str_ObjectId deployment_revision_id))
      | Some deployed_app_variant_revision =>
          let* s := get_db in
          update_app_environment_deployed_variant_revision
            (fetch_link
               (AppEnvironmentRevisionDB.environment environment_revision) s)
            deployed_app_variant_revision ;;
          ret "Environment was reverted to deployment revision successful"
      end
  end.
End ConfigsRouter.

(** ** More of [beanie.Document] *)

Section BeanieDelete.
Context {A : Type} `{Document A}.

(** [await doc.delete()]: the stored document with that identifier goes. *)
Definition delete (d : A) : M unit :=
  λ s, (set_collection
          (List.filter (λ x, negb (has_id (doc_id d) x)) (collection s)) s,
        inr tt).
End BeanieDelete.

(** [for x in xs: await body(x)] *)
Fixpoint for_each {A} (body : A → M unit) (xs : list A) : M unit :=
  match xs with
  | [] => ret tt
  | x :: xs => body x ;; for_each body xs
  end.

(** [assert cond, msg] failing.  [AssertionError] is a subclass of
    [Exception]; no code here tells the two apart. *)
Definition AssertionError (msg : string) : exn := Exception msg.

(** ** More of [services/db_manager.py] *)

Section DbManagerLifecycle.
Context `{Collaborators}.

(** The arguments that are documents are passed as read from the store;
    [image] is the identifier of an image, a class that is not modelled.
    The two fields the call leaves out get the defaults of the class. *)
Definition create_new_app_variant
    (app : AppDB.t) (organization : OrganizationDB.t) (user : UserDB.t)
    (variant_name : string) (image : ObjectId) (base : VariantBaseDB.t)
    (config : ConfigDB.t) (base_name config_name : string)
    (parameters : parameters_t) : M AppVariantDB.t :=
  if negb (is_empty_dict parameters)
  then raise (AssertionError
         "Parameters should be empty when calling create_new_app_variant (otherwise revision should not be set to 0)")
  else
    let* variant :=
      create
        {| AppVariantDB.id := 0%N;
           AppVariantDB.app := AppDB.id app;
           AppVariantDB.variant_name := variant_name;
           AppVariantDB.image := image;
           AppVariantDB.user := UserDB.id user;
           AppVariantDB.modified_by := UserDB.id user;
           AppVariantDB.revision := 0;
           AppVariantDB.organization := OrganizationDB.id organization;
           AppVariantDB.parameters := parameters;
           AppVariantDB.previous_variant_name := None;
           AppVariantDB.base_name := base_name;
           AppVariantDB.base := VariantBaseDB.id base;
           AppVariantDB.config_name := config_name;
           AppVariantDB.config := config;
           AppVariantDB.is_deleted := false |} in
    let* _ :=
      create
        {| AppVariantRevisionsDB.id := 0%N;
           AppVariantRevisionsDB.variant := AppVariantDB.id variant;
           AppVariantRevisionsDB.revision := 0;
           AppVariantRevisionsDB.modified_by := UserDB.id user;
           AppVariantRevisionsDB.base := VariantBaseDB.id base;
           AppVariantRevisionsDB.config := config |} in
    ret variant.

Definition fetch_app_variant_revision_by_id (variant_revision_id : ObjectId)
  : M (option AppVariantRevisionsDB.t) :=
  find_one (has_id variant_revision_id).

Definition fetch_environment_revisions_for_environment
    (environment : AppEnvironmentDB.t) : M (list AppEnvironmentRevisionDB.t) :=
  find (λ r, N.eqb (AppEnvironmentRevisionDB.environment r)
               (AppEnvironmentDB.id environment)).

Definition list_app_variant_revisions_by_variant (app_variant : AppVariantDB.t)
  : M (list AppVariantRevisionsDB.t) :=
  find (λ r, N.eqb (AppVariantRevisionsDB.variant r) (AppVariantDB.id app_variant)).

(** [app_variant] is a variant read with [fetch_links=True], as
    [fetch_app_variant_by_id] reads it. *)
Definition list_environments_by_variant (app_variant : AppVariantDB.t)
  : M (list AppEnvironmentDB.t) :=
  let* app_id := fetched_id AppDB.t (AppVariantDB.app app_variant) in
  find (λ e, N.eqb (AppEnvironmentDB.app e) app_id).

Definition remove_app_variant_from_db (app_variant_db : AppVariantDB.t) : M unit :=
  let* environments := list_environments_by_variant app_variant_db in
  for_each
    (λ environment,
       save (AppEnvironmentDB.set_deployed_app_variant None environment))
    environments ;;
  let* app_variant_revisions :=
    list_app_variant_revisions_by_variant app_variant_db in
  for_each delete app_variant_revisions ;;
  delete app_variant_db.

(** [raise HTTPException] names the class: raising it calls the class
    without arguments, and that call is what fails. *)
Definition raise_HTTPException_class {A} : M A :=
  raise (TypeError "__init__() missing 1 required positional argument: 'status_code'").

Definition fetch_app_and_check_access
    (app_id : ObjectId) (uod : user_org_data) (check_owner : bool) : M AppDB.t :=
  let* app := find_one (A:=AppDB.t) (has_id app_id) in
  match app with
  | None => raise_HTTPException_class
  | Some app =>
      let* organization_id :=
        fetched_id OrganizationDB.t (AppDB.organization app) in
      let* s := get_db in
      if check_user_org_access uod (str_ObjectId organization_id) check_owner s
      then ret app
      else raise (HTTPException 403
                    ("You do not have access to this app: "
                     +:+ str_ObjectId app_id))
  end.

Definition fetch_app_variant_and_check_access
    (app_variant_id : ObjectId) (uod : user_org_data) (check_owner : bool)
  : M AppVariantDB.t :=
  let* app_variant := find_one (A:=AppVariantDB.t) (has_id app_variant_id) in
  match app_variant with
  | None => raise_HTTPException_class
  | Some app_variant =>
      let* organization_id :=
        fetched_id OrganizationDB.t (AppVariantDB.organization app_variant) in
      let* s := get_db in
      if check_user_org_access uod (str_ObjectId organization_id) check_owner s
      then ret app_variant
      else raise (HTTPException 403
                    ("You do not have access to this app variant: "
                     +:+ str_ObjectId app_variant_id))
  end.
End DbManagerLifecycle.

(** ** More of [routers/configs_router.py] *)

(** The keyword arguments [get_config_deployment_revision] builds its answer
    from: the two fields of the stored config and, as [current_version],
    the number of the environment revision. *)
Record DeployedConfig : Type :=
  { deployed_config_name : string; deployed_parameters : parameters_t;
    deployed_current_version : Z }.

Section ConfigsRouterDeployment.
Context `{Collaborators}.

(** The router passes [str(environment_revision.deployed_app_variant_revision)]
    on; for [None] that is the text "None", which [ObjectId] refuses. *)
Definition get_config_deployment_revision (deployment_revision_id : ObjectId)
  : M DeployedConfig :=
  let* environment_revision :=
    fetch_app_environment_revision deployment_revision_id in
  match environment_revision with
  | None =>
      raise (HTTPException 404
               ("No environment revision found for "
                +:+ str_ObjectId deployment_revision_id))
  | Some environment_revision =>
      match AppEnvironmentRevisionDB.deployed_app_variant_revision
              environment_revision with
      | None =>
          raise (Exception
            "'None' is not a valid ObjectId, it must be a 12-byte input or a 24-character hex string")
      | Some variant_revision_id =>
          let* variant_revision :=
            fetch_app_variant_revision_by_id variant_revision_id in
          match variant_revision with
          | None =>
              raise (HTTPException 404
                       ("No configuration found for deployment revision "
                        +:+ str_ObjectId deployment_revision_id))
          | Some variant_revision =>
              ret {| deployed_config_name :=
                       ConfigDB.config_name
                         (AppVariantRevisionsDB.config variant_revision);
                     deployed_parameters :=
                       ConfigDB.parameters
                         (AppVariantRevisionsDB.config variant_revision);
                     deployed_current_version :=
                       AppEnvironmentRevisionDB.revision environment_revision |}
          end
      end
  end.
End ConfigsRouterDeployment.

(** ** [services/evaluators_service.py] *)

Module Evaluators.

Inductive value : Type :=
  | VBool (b : bool)
  | VNumber (score : json)
  | VText (s : string).

Record Error : Type := { message : string; stacktrace : option string }.

Record Result : Type :=
  { type : string; value_of : option value; error : option Error }.

(** The six positional arguments every scoring function takes:
    [inputs, output, correct_answer, app_params, settings_values,
    lm_providers_keys]. *)
Definition scorer : Type :=
  parameters_t → string → string → parameters_t → parameters_t →
  parameters_t → Result.

(** Scoring functions whose body is a call out of the process (regular
    expression engine, float arithmetic, HTTP, sandbox, language model).
    Each one catches every exception itself and returns a [Result]. *)
Class ScoringBackends : Type :=
  { auto_similarity_match : scorer;
    auto_regex_test : scorer;
    field_match_test : scorer;
    auto_webhook_test : scorer;
    auto_custom_code_run : scorer;
    auto_ai_critique : scorer }.

Definition auto_exact_match : scorer :=
  λ inputs output correct_answer app_params settings_values lm_providers_keys,
    let exact_match := String.eqb output correct_answer in
    {| type := "bool"; value_of := Some (VBool exact_match); error := None |}.

(** What a name of the module is bound to, as far as [evaluate] can tell
    the objects apart: [None]; a function of six positional parameters;
    any other object, which is true in a condition and raises [TypeError]
    with the given text when called with six positional arguments. *)
Inductive pyobject : Type :=
  | PyNone
  | PyScorer (f : scorer)
  | PyOther (call_error : string).

Section Dispatch.
Context `{ScoringBackends}.

Definition not_callable (ty : string) : pyobject :=
  PyOther ("'" +:+ ty +:+ "' object is not callable").

Definition no_positional (init : string) : pyobject :=
  PyOther (init +:+ " takes 1 positional argument but 7 were given").

(** [globals()] of the module: the names Python binds in every module,
    then the imports and definitions of the file in their order. *)
Definition module_globals : list (string * pyobject) :=
  [ ("__name__", not_callable "str");
    ("__doc__", PyNone);
    ("__package__", not_callable "str");
    ("__loader__", not_callable "SourceFileLoader");
    ("__spec__", not_callable "ModuleSpec");
    ("__file__", not_callable "str");
    ("__cached__", not_callable "str");
    ("__builtins__", not_callable "dict");
    ("re", not_callable "module");
    ("json", not_callable "module");
    ("httpx", not_callable "module");
    ("Any", PyOther "Any cannot be instantiated");
    ("Dict", PyOther "Type Dict cannot be instantiated; use dict() instead");
    ("Tuple", PyOther "Type Tuple cannot be instantiated; use tuple() instead");
    ("sandbox", not_callable "module");
    ("Error", no_positional "__init__()");
    ("Result", no_positional "__init__()");
    ("OpenAI", no_positional "__init__()");
    ("LLMChain", no_positional "__init__()");
    ("PromptTemplate", no_positional "__init__()");
    ("logging", not_callable "module");
    ("logger", not_callable "Logger");
    ("auto_exact_match", PyScorer auto_exact_match);
    ("auto_similarity_match", PyScorer auto_similarity_match);
    ("auto_regex_test", PyScorer auto_regex_test);
    ("field_match_test", PyScorer field_match_test);
    ("auto_webhook_test", PyScorer auto_webhook_test);
    ("auto_custom_code_run", PyScorer auto_custom_code_run);
    ("auto_ai_critique", PyScorer auto_ai_critique);
    ("evaluate",
     PyOther "evaluate() missing 1 required positional argument: 'lm_providers_keys'") ].

(** [globals().get(key, None)] *)
Definition globals_get (key : string) : pyobject :=
  match List.find (λ kv, String.eqb (fst kv) key) module_globals with
  | Some (_, o) => o
  | None => PyNone
  end.

Definition evaluate (evaluator_key : string)
    (inputs : parameters_t) (output correct_answer : string)
    (app_params settings_values lm_providers_keys : parameters_t)
  : exn + Result :=
  match globals_get evaluator_key with
  | PyNone =>
      inl (ValueError ("Evaluation method '" +:+ evaluator_key +:+ "' not found."))
  | PyScorer evaluation_function =>
      inr (evaluation_function inputs output correct_answer app_params
             settings_values lm_providers_keys)
  | PyOther exc =>
      inl (RuntimeError ("Error occurred while running " +:+ evaluator_key
                         +:+ " evaluation. Exception: " +:+ exc))
  end.

(** The dispatcher as the specification words it: an explicit table of
    exactly the seven named scoring functions, and the not-found error
    for every other key. *)
Definition scoring_table : list (string * scorer) :=
  [ ("auto_exact_match", auto_exact_match);
    ("auto_similarity_match", auto_similarity_match);
    ("auto_regex_test", auto_regex_test);
    ("field_match_test", field_match_test);
    ("auto_webhook_test", auto_webhook_test);
    ("auto_custom_code_run", auto_custom_code_run);
    ("auto_ai_critique", auto_ai_critique) ].

Definition table_lookup (key : string) : option scorer :=
  snd <$> List.find (λ kv, String.eqb (fst kv) key) scoring_table.

Definition evaluate_by_table (evaluator_key : string)
    (inputs : parameters_t) (output correct_answer : string)
    (app_params settings_values lm_providers_keys : parameters_t)
  : exn + Result :=
  match table_lookup evaluator_key with
  | Some evaluation_function =>
      inr (evaluation_function inputs output correct_answer app_params
             settings_values lm_providers_keys)
  | None =>
      inl (ValueError ("Evaluation method '" +:+ evaluator_key +:+ "' not found."))
  end.

(** The names of the module that are bound to an object other than a
    scoring function or [None]. *)
Definition other_module_names : list string :=
  omap (λ kv, match snd kv with PyOther _ => Some (fst kv) | _ => None end)
    module_globals.
End Dispatch.
End Evaluators.

(** ** A concrete store *)

(** A single-tenant deployment whose selector maps every request user to the
    default user and whose access check grants everything. *)
Definition demo_collaborators : Collaborators :=
  {| FEATURE_FLAG := "oss";
     get_user_and_org_id := λ _ _, inr {| uid := "0"; organization_ids := [2%N] |};
     check_user_org_access := λ _ _ _ _, true |}.

(** The same deployment in cloud mode, where an unknown user is an error. *)
Definition cloud_collaborators : Collaborators :=
  {| FEATURE_FLAG := "cloud";
     get_user_and_org_id := λ u _, inr {| uid := u; organization_ids := [2%N] |};
     check_user_org_access := λ _ _ _ _, true |}.

Definition temperature (mantissa : Z) : parameters_t :=
  {[ "temperature" := JFloat mantissa (-1) ]}.

Definition demo_environment (oid : ObjectId) (name : string) : AppEnvironmentDB.t :=
  AppEnvironmentDB.Build oid 3%N name 1%N 0 2%N None None None.

Definition demo_base_variant : AppVariantDB.t :=
  {| AppVariantDB.id := 7%N; AppVariantDB.app := 3%N;
     AppVariantDB.variant_name := "app.default"; AppVariantDB.image := 6%N;
     AppVariantDB.user := 1%N; AppVariantDB.modified_by := 1%N;
     AppVariantDB.revision := 0; AppVariantDB.organization := 2%N;
     AppVariantDB.parameters := ∅; AppVariantDB.previous_variant_name := None;
     AppVariantDB.base_name := "app"; AppVariantDB.base := 5%N;
     AppVariantDB.config_name := "default";
     AppVariantDB.config := ConfigDB.Build "default" ∅;
     AppVariantDB.is_deleted := false |}.

(** An app with its deployment record, one base, the base's first variant at
    revision 0 with empty parameters, and the three environments created with
    the app. *)
Definition demo_db : db :=
  {| users := [UserDB.Build 1%N "0" [2%N]];
     organizations := [OrganizationDB.Build 2%N "default" "1"];
     apps := [AppDB.Build 3%N "demo" 2%N 1%N];
     deployments := [DeploymentDB.Build 4%N 3%N];
     bases := [VariantBaseDB.Build 5%N 3%N 2%N 1%N "app" 6%N];
     app_variants := [demo_base_variant];
     app_variant_revisions :=
       [AppVariantRevisionsDB.Build 8%N 7%N 0 1%N 5%N (ConfigDB.Build "default" ∅)];
     environments :=
       [demo_environment 9%N "development"; demo_environment 10%N "staging";
        demo_environment 11%N "production"];
     environment_revisions := [];
     next_id := 12%N |}.

(** The same store before the base got its first variant. *)
Definition bare_base_db : db :=
  {| users := users demo_db; organizations := organizations demo_db;
     apps := apps demo_db; deployments := deployments demo_db;
     bases := bases demo_db; app_variants := [];
     app_variant_revisions := []; environments := environments demo_db;
     environment_revisions := []; next_id := 12%N |}.

Definition demo_payload (mantissa : Z) (overwrite : bool) : SaveConfigPayload :=
  {| base_id := 5%N; config_name := "prod";
     parameters := temperature mantissa; overwrite := overwrite |}.


Definition demo_uod : user_org_data := {| uid := "0"; organization_ids := [2%N] |}.

(** The scenario of the specification, step by step. *)
Definition after (m : M unit) (s : db) : db := fst (m s).

Definition demo_db1 : db :=
  after (save_config (H:=demo_collaborators) (demo_payload 5 false) "u") demo_db.
Definition demo_db3 : db :=
  after (save_config (H:=demo_collaborators) (demo_payload 9 true) "u") demo_db1.
Definition demo_db4 : db :=
  after (deploy_to_environment (H:=demo_collaborators) "production" 12%N demo_uod)
    demo_db3.
Definition demo_db5 : db :=
  after (save_config (H:=demo_collaborators) (demo_payload 10 true) "u") demo_db4.

(** A second deploy of the variant, now at revision 3, and then the revert
    to the environment revision the first deploy wrote. *)
Definition demo_db6 : db :=
  after (deploy_to_environment (H:=demo_collaborators) "production" 12%N demo_uod)
    demo_db5.
Definition demo_db7 : db := fst (revert_deployment_revision 15%N demo_db6).

Definition demo_user : UserDB.t := UserDB.Build 1%N "0" [2%N].
Definition demo_app : AppDB.t := AppDB.Build 3%N "demo" 2%N 1%N.
Definition demo_base : VariantBaseDB.t :=
  VariantBaseDB.Build 5%N 3%N 2%N 1%N "app" 6%N.

(** The variant [app.prod] at a given revision number and temperature. *)
Definition demo_prod_variant (revision : Z) (mantissa : Z) : AppVariantDB.t :=
  {| AppVariantDB.id := 12%N; AppVariantDB.app := 3%N;
     AppVariantDB.variant_name := "app.prod"; AppVariantDB.image := 6%N;
     AppVariantDB.user := 1%N; AppVariantDB.modified_by := 1%N;
     AppVariantDB.revision := revision; AppVariantDB.organization := 2%N;
     AppVariantDB.parameters := temperature 5;
     AppVariantDB.previous_variant_name := Some "app.default";
     AppVariantDB.base_name := "app"; AppVariantDB.base := 5%N;
     AppVariantDB.config_name := "prod";
     AppVariantDB.config := ConfigDB.Build "prod" (temperature mantissa);
     AppVariantDB.is_deleted := false |}.

Definition demo_prod_revision (oid : ObjectId) (revision : Z) (mantissa : Z)
  : AppVariantRevisionsDB.t :=
  AppVariantRevisionsDB.Build oid 12%N revision 1%N 5%N
    (ConfigDB.Build "prod" (temperature mantissa)).

Definition demo_production (revision : Z) (pointer : ObjectId) : AppEnvironmentDB.t :=
  AppEnvironmentDB.Build 11%N 3%N "production" 1%N revision 2%N
    (Some 12%N) (Some pointer) (Some 4%N).

Definition demo_scorers : Evaluators.ScoringBackends :=
  let unavailable : Evaluators.scorer :=
    λ _ _ _ _ _ _,
      {| Evaluators.type := "error"; Evaluators.value_of := None;
         Evaluators.error :=
           Some {| Evaluators.message := "backend unavailable";
                   Evaluators.stacktrace := None |} |} in
  {| Evaluators.auto_similarity_match := unavailable;
     Evaluators.auto_regex_test := unavailable;
     Evaluators.field_match_test := unavailable;
     Evaluators.auto_webhook_test := unavailable;
     Evaluators.auto_custom_code_run := unavailable;
     Evaluators.auto_ai_critique := unavailable |}.

Definition demo_organization : OrganizationDB.t :=
  OrganizationDB.Build 2%N "default" "1".

(** The variant [app.prod] deployed to production right after it was
    created, at revision 1. *)
Definition demo_db2 : db :=
  after (deploy_to_environment (H:=demo_collaborators) "production" 12%N demo_uod)
    demo_db1.

(** The environment revision the deploy of revision 2 wrote. *)
Definition demo_record : AppEnvironmentRevisionDB.t :=
  AppEnvironmentRevisionDB.Build 15%N 11%N 1 1%N (Some 14%N) (Some 4%N).

(** The store after the deploy of revision 2, with a second base of the
    same app. *)
Definition demo_other_base : VariantBaseDB.t :=
  VariantBaseDB.Build 20%N 3%N 2%N 1%N "other" 6%N.

Definition demo_two_bases : db :=
  set_collection (bases demo_db4 ++ [demo_other_base]) demo_db4.

(** ** Observations on a store *)

(** The variants [list_variants_for_base] returns. *)
Definition variants_for_base (s : db) (base : VariantBaseDB.t) : list AppVariantDB.t :=
  merge_sort variant_name_le
    (filter (λ v, Is_true (N.eqb (AppVariantDB.base v) (VariantBaseDB.id base)))
       (app_variants s)).

(** The document a stored identifier refers to. *)
Definition lookup {A} `{Document A} (oid : ObjectId) (s : db) : option A :=
  List.find (has_id oid) (collection s).

(** Everything but the users, the organisations and the identifier counter
    is the same in both stores. *)
Definition same_documents (s s' : db) : Prop :=
  apps s' = apps s ∧ deployments s' = deployments s ∧ bases s' = bases s ∧
  app_variants s' = app_variants s ∧
  app_variant_revisions s' = app_variant_revisions s ∧
  environments s' = environments s ∧
  environment_revisions s' = environment_revisions s.

(** Variant revisions were appended at most: the ones of [s] are all in
    [s'], unchanged and in place, and apps, bases, deployments, environments
    and environment revisions are the same. *)
Definition revisions_kept (s s' : db) : Prop :=
  apps s' = apps s ∧ deployments s' = deployments s ∧ bases s' = bases s ∧
  environments s' = environments s ∧
  environment_revisions s' = environment_revisions s ∧
  ∃ extra, app_variant_revisions s' = app_variant_revisions s ++ extra.

(** The log of variant revisions only grew: what was written is still
    there, in place and unchanged. *)
Definition revision_log_kept (s s' : db) : Prop :=
  ∃ extra, app_variant_revisions s' = app_variant_revisions s ++ extra.

(** A coroutine all of whose runs, failed or not, relate the store before
    to the store after by [R]. *)
Definition preserves (R : db → db → Prop) {A} (m : M A) : Prop :=
  ∀ s s' r, m s = (s', r) → R s s'.

(** The in-place update of a variant: new parameters, next revision number,
    new modifier. *)
Definition updated_variant (v : AppVariantDB.t) (parameters : parameters_t)
    (user : UserDB.t) : AppVariantDB.t :=
  AppVariantDB.set_modified_by (UserDB.id user)
    (AppVariantDB.set_revision (AppVariantDB.revision v + 1)
       (AppVariantDB.set_config
          (ConfigDB.set_parameters parameters (AppVariantDB.config v)) v)).

(** The environment [deploy_to_environment] writes: counter plus one,
    the variant, its current revision and the app's deployment recorded. *)
Definition deployed_environment (env : AppEnvironmentDB.t) (v : AppVariantDB.t)
    (rev : AppVariantRevisionsDB.t) (d : DeploymentDB.t) : AppEnvironmentDB.t :=
  AppEnvironmentDB.set_deployment (Some (DeploymentDB.id d))
    (AppEnvironmentDB.set_deployed_app_variant_revision
       (Some (AppVariantRevisionsDB.id rev))
       (AppEnvironmentDB.set_deployed_app_variant (Some (AppVariantDB.id v))
          (AppEnvironmentDB.set_revision (AppEnvironmentDB.revision env + 1) env))).

(** The revision log of the variants is in order: identifiers are unique
    and below the counter; the revisions of a variant are numbered up to
    the variant's current number without a gap; and the variant's current
    config is the config of its latest revision. *)
Record revision_log_wf (s : db) : Prop :=
  { wf_variant_ids : NoDup (map AppVariantDB.id (app_variants s));
    wf_variant_fresh :
      ∀ v, In v (app_variants s) → (AppVariantDB.id v < next_id s)%N;
    wf_revision_ids : NoDup (map AppVariantRevisionsDB.id (app_variant_revisions s));
    wf_revision_fresh :
      ∀ r, In r (app_variant_revisions s) →
        (AppVariantRevisionsDB.id r < next_id s)%N ∧
        (AppVariantRevisionsDB.variant r < next_id s)%N;
    wf_bounded :
      ∀ v r, In v (app_variants s) → In r (app_variant_revisions s) →
        AppVariantRevisionsDB.variant r = AppVariantDB.id v →
        AppVariantRevisionsDB.revision r ≤ AppVariantDB.revision v;
    wf_current :
      ∀ v, In v (app_variants s) →
        ∃ r, In r (app_variant_revisions s) ∧
             AppVariantRevisionsDB.variant r = AppVariantDB.id v ∧
             AppVariantRevisionsDB.revision r = AppVariantDB.revision v;
    wf_snapshot :
      ∀ v r, In v (app_variants s) → In r (app_variant_revisions s) →
        AppVariantRevisionsDB.variant r = AppVariantDB.id v →
        AppVariantRevisionsDB.revision r = AppVariantDB.revision v →
        AppVariantRevisionsDB.config r = AppVariantDB.config v;
    wf_contiguous :
      ∀ v r n, In v (app_variants s) → In r (app_variant_revisions s) →
        AppVariantRevisionsDB.variant r = AppVariantDB.id v →
        AppVariantRevisionsDB.revision r ≤ n ≤ AppVariantDB.revision v →
        ∃ r', In r' (app_variant_revisions s) ∧
              AppVariantRevisionsDB.variant r' = AppVariantDB.id v ∧
              AppVariantRevisionsDB.revision r' = n }.

(** The environment revisions recorded for one environment. *)
Definition records_of (environment : ObjectId) (s : db)
  : list AppEnvironmentRevisionDB.t :=
  List.filter (λ r, N.eqb (AppEnvironmentRevisionDB.environment r) environment)
    (environment_revisions s).

(** The deployment log is in order: every environment's counter is the
    number of environment revisions recorded for it, and the identifiers
    of the environments and in the log are below the counter of the store. *)
Record environment_log_wf (s : db) : Prop :=
  { wf_counter :
      ∀ e, In e (environments s) →
        Z.of_nat (length (records_of (AppEnvironmentDB.id e) s))
        = AppEnvironmentDB.revision e;
    wf_environment_fresh :
      ∀ e, In e (environments s) → (AppEnvironmentDB.id e < next_id s)%N;
    wf_record_fresh :
      ∀ r, In r (environment_revisions s) →
        (AppEnvironmentRevisionDB.id r < next_id s)%N ∧
        (AppEnvironmentRevisionDB.environment r < next_id s)%N }.

(** The identifier counter did not go back. *)
Definition counter_kept (s s' : db) : Prop := (next_id s <= next_id s')%N.

(** The log of environment revisions only grew. *)
Definition deployment_log_kept (s s' : db) : Prop :=
  ∃ extra, environment_revisions s' = environment_revisions s ++ extra.

(** One call of an operation that writes configs or deployments. *)
Inductive operation : Type :=
  | SaveConfig (payload : SaveConfigPayload) (user_id : string)
  | Deploy (environment_name : string) (variant_id : ObjectId) (uod : user_org_data)
  | Revert (deployment_revision_id : ObjectId).

(** The store an operation leaves, whether it succeeds or fails. *)
Definition store_after `{Collaborators} (op : operation) (s : db) : db :=
  match op with
  | SaveConfig payload user_id => fst (save_config payload user_id s)
  | Deploy environment_name variant_id uod =>
      fst (deploy_to_environment environment_name variant_id uod s)
  | Revert deployment_revision_id =>
      fst (revert_deployment_revision deployment_revision_id s)
  end.

(** The store after a sequence of calls, first call first. *)
Definition store_after_all `{Collaborators} (ops : list operation) (s : db) : db :=
  fold_left (λ s op, store_after op s) ops s.

(** The environment [create_environment] writes under a given identifier. *)
Definition fresh_environment (oid : ObjectId) (name : string) (app_db : AppDB.t)
  : AppEnvironmentDB.t :=
  AppEnvironmentDB.Build oid (AppDB.id app_db) name (AppDB.user app_db) 0
    (AppDB.organization app_db) None None None.

(** The deployment is not in cloud mode: [FEATURE_FLAG] is neither "cloud"
    nor "ee". *)
Definition single_tenant `{Collaborators} : Prop :=
  FEATURE_FLAG ≠ "cloud" ∧ FEATURE_FLAG ≠ "ee".

(** The identifiers of the users are below the counter of the store. *)
Definition users_fresh (s : db) : Prop :=
  ∀ u, In u (users s) → (UserDB.id u < next_id s)%N.

(** The deployed variant [app.prod] removed from the store. *)
Definition demo_db8 : db :=
  fst (remove_app_variant_from_db (demo_prod_variant 2 9) demo_db4).

(** Calls that follow a deploy: an overwrite, a second deploy, a revert. *)
Definition demo_operations : list operation :=
  [ SaveConfig (demo_payload 10 true) "u";
    Deploy "production" 12%N demo_uod;
    Revert 15%N ].

(** * Properties *)

Section Monad.
Context {A B : Type}.

Lemma bind_run (m : M A) (k : A → M B) s s' a :
  m s = (s', inr a) → bind m k s = k a s'.
Proof. intros E. unfold bind. now rewrite E. Qed.

Lemma bind_fail (m : M A) (k : A → M B) s s' e :
  m s = (s', inl e) → bind m k s = (s', inl e).
Proof. intros E. unfold bind. now rewrite E. Qed.

Lemma bind_inv (m : M A) (k : A → M B) s s2 r :
  bind m k s = (s2, r) →
  (∃ e, m s = (s2, inl e) ∧ r = inl e) ∨
  (∃ s1 a, m s = (s1, inr a) ∧ k a s1 = (s2, r)).
Proof.
  unfold bind. destruct (m s) as [s1 [e|a]]; intros E.
  - left. exists e. now inversion E.
  - right. now exists s1, a.
Qed.
End Monad.

Section Documents.
Context {A : Type} `{Document A}.

Lemma has_id_spec (oid : ObjectId) (d : A) : has_id oid d = true ↔ doc_id d = oid.
Proof. unfold has_id. apply N.eqb_eq. Qed.

Lemma find_has_id_unique (l : list A) (d : A) :
  NoDup (map doc_id l) → In d l → List.find (has_id (doc_id d)) l = Some d.
Proof.
  induction l as [|x l IH]; simpl; [tauto|].
  intros ND [->|Hin].
  - now rewrite (proj2 (has_id_spec _ _) eq_refl).
  - apply NoDup_cons in ND as [Hx ND].
    destruct (has_id (doc_id d) x) eqn:E; [|auto].
    apply has_id_spec in E. exfalso. apply Hx. rewrite E.
    apply list_elem_of_In, in_map, Hin.
Qed.

Lemma find_replace_doc (l : list A) (d : A) :
  List.find (has_id (doc_id d)) (replace_doc d l) = Some d.
Proof.
  assert (Hd : has_id (doc_id d) d = true) by now apply has_id_spec.
  unfold replace_doc. destruct (existsb _ l) eqn:E.
  - induction l as [|x l IH]; simpl in *; [discriminate|].
    destruct (has_id (doc_id d) x) eqn:Ex; simpl in *.
    + now rewrite Hd.
    + rewrite Ex. auto.
  - induction l as [|x l IH]; simpl in *.
    + now rewrite Hd.
    + apply orb_false_iff in E as [-> E]. auto.
Qed.

Lemma find_replace_doc_ne (l : list A) (d : A) (oid : ObjectId) :
  oid ≠ doc_id d →
  List.find (has_id oid) (replace_doc d l) = List.find (has_id oid) l.
Proof.
  intros Hne.
  assert (Hd : has_id oid d = false).
  { destruct (has_id oid d) eqn:E; [|done]. apply has_id_spec in E. congruence. }
  unfold replace_doc. destruct (existsb _ l).
  - induction l as [|x l IH]; simpl; [done|].
    destruct (has_id (doc_id d) x) eqn:Ex.
    + apply has_id_spec in Ex. rewrite Hd.
      destruct (has_id oid x) eqn:Ex'; [|done].
      apply has_id_spec in Ex'. congruence.
    + destruct (has_id oid x); auto.
  - induction l as [|x l IH]; simpl.
    + now rewrite Hd.
    + destruct (has_id oid x); auto.
Qed.

Lemma find_replace_doc_pred (p : A → bool) (l : list A) (d d' : A) :
  List.find p l = Some d → doc_id d' = doc_id d → p d' = true →
  List.find p (replace_doc d' l) = Some d'.
Proof.
  intros Hf Hid Hp.
  assert (Hex : existsb (has_id (doc_id d')) l = true).
  { apply existsb_exists. exists d. split; [eapply find_some, Hf|].
    now apply has_id_spec. }
  unfold replace_doc. rewrite Hex. clear Hex.
  induction l as [|x l IH]; simpl in *; [discriminate|].
  destruct (p x) eqn:Ex.
  - injection Hf as ->. rewrite (proj2 (has_id_spec _ _) (eq_sym Hid)).
    now rewrite Hp.
  - destruct (has_id (doc_id d') x); [now rewrite Hp|].
    rewrite Ex. auto.
Qed.


End Documents.

Lemma find_filter {A} (p q : A → bool) (l : list A) :
  List.find q (filter (λ x, Is_true (p x)) l) = List.find (λ x, p x && q x) l.
Proof.
  induction l as [|x l IH]; [done|].
  simpl. destruct (p x) eqn:E; simpl.
  - rewrite filter_cons_True by now rewrite E.
    simpl. destruct (q x); auto.
  - rewrite filter_cons_False by now rewrite E.
    auto.
Qed.

Lemma find_app_Some {A} (p : A → bool) (l l' : list A) (x : A) :
  List.find p l = Some x → List.find p (l ++ l') = Some x.
Proof.
  induction l as [|y l IH]; simpl; [discriminate|].
  destruct (p y); auto.
Qed.

Lemma is_empty_dict_spec (parameters : parameters_t) :
  is_empty_dict parameters = true ↔ parameters = ∅.
Proof.
  unfold is_empty_dict. rewrite Nat.eqb_eq. apply map_size_empty_iff.
Qed.

Section Proofs.
Context `{Collaborators}.

Lemma list_variants_for_base_run (base : VariantBaseDB.t) (s : db) :
  list_variants_for_base base s = (s, inr (variants_for_base s base)).
Proof. reflexivity. Qed.

Lemma variant_with_config_name_In s base cn v :
  variant_with_config_name (variants_for_base s base) cn = Some v →
  In v (app_variants s) ∧
  AppVariantDB.base v = VariantBaseDB.id base ∧
  AppVariantDB.config_name v = cn.
Proof.
  intros Hf. apply find_some in Hf as [Hin Hcn].
  apply String.eqb_eq in Hcn.
  apply list_elem_of_In in Hin. unfold variants_for_base in Hin.
  rewrite merge_sort_Permutation in Hin.
  apply list_elem_of_filter in Hin as [Hb Hin].
  apply Is_true_true, N.eqb_eq in Hb.
  now apply list_elem_of_In in Hin.
Qed.

(** [get_user] writes users and organisations only. *)
Lemma get_user_frame (user_uid : string) (s s' : db) r :
  get_user user_uid s = (s', r) → same_documents s s'.
Proof.
  unfold get_user, bind, find_one, create, save, ret, raise. simpl.
  destruct (List.find _ (users s)).
  - intros [= <- _]. now repeat split.
  - destruct (negb _); intros [= <- _]; now repeat split.
Qed.

(** *** Saving a config *)

Lemma update_variant_parameters_run (v : AppVariantDB.t) (p : parameters_t)
    (uod : user_org_data) (s s1 : db) (user : UserDB.t) :
  get_user (uid uod) s = (s1, inr user) →
  update_variant_parameters v p uod s =
    (set_next_id (N.succ (next_id s1))
       (set_collection
          (app_variant_revisions s1 ++
             [AppVariantRevisionsDB.Build (next_id s1) (AppVariantDB.id v)
                (AppVariantDB.revision v + 1) (UserDB.id user)
                (AppVariantDB.base v)
                (ConfigDB.set_parameters p (AppVariantDB.config v))])
          (set_collection
             (replace_doc (updated_variant v p user) (app_variants s1)) s1)),
     inr tt).
Proof.
  intros Hu. unfold update_variant_parameters, try_except.
  rewrite (bind_run _ _ _ _ _ Hu). reflexivity.
Qed.


Lemma save_config_in_place (s s1 : db) (payload : SaveConfigPayload)
    (user_id : string) (uod : user_org_data) (base_db : VariantBaseDB.t)
    (v : AppVariantDB.t) (user : UserDB.t) :
  get_user_and_org_id user_id s = inr uod →
  fetch_base_and_check_access (base_id payload) uod false s = (s, inr base_db) →
  variant_with_config_name (variants_for_base s base_db) (config_name payload)
    = Some v →
  overwrite payload
    || is_empty_dict (ConfigDB.parameters (AppVariantDB.config v)) = true →
  NoDup (map AppVariantDB.id (app_variants s)) →
  get_user (uid uod) s = (s1, inr user) →
  ∃ s' rev,
    save_config payload user_id s = (s', inr tt) ∧
    app_variants s'
      = replace_doc (updated_variant v (parameters payload) user) (app_variants s) ∧
    lookup (AppVariantDB.id v) s'
      = Some (updated_variant v (parameters payload) user) ∧
    app_variant_revisions s' = app_variant_revisions s ++ [rev] ∧
    AppVariantRevisionsDB.variant rev = AppVariantDB.id v ∧
    AppVariantRevisionsDB.revision rev = AppVariantDB.revision v + 1 ∧
    AppVariantRevisionsDB.modified_by rev = UserDB.id user ∧
    AppVariantRevisionsDB.config rev
      = ConfigDB.Build (ConfigDB.config_name (AppVariantDB.config v))
          (parameters payload).
Proof.
  intros Hsel Hbase Hfind Hgate Hnodup Huser.
  destruct (variant_with_config_name_In _ _ _ _ Hfind) as (Hin & _ & _).
  destruct (get_user_frame _ _ _ _ Huser) as (_ & _ & _ & Hv & Hr & _ & _).
  pose proof (find_has_id_unique (app_variants s) v) as Hid.
  specialize (Hid Hnodup Hin).
  eexists _, _. split.
  - unfold save_config, router_errors, try_except.
    rewrite (bind_run (selector user_id) _ s s uod)
      by (unfold selector; now rewrite Hsel).
    rewrite (bind_run _ _ _ _ _ Hbase).
    rewrite (bind_run _ _ _ _ _ (list_variants_for_base_run base_db s)).
    rewrite Hfind, Hgate.
    unfold app_manager.update_variant_parameters.
    rewrite (bind_run (fetch_app_variant_by_id (AppVariantDB.id v)) _ s s (Some v))
      by exact (f_equal (λ o, (s, inr o)) Hid).
    rewrite (update_variant_parameters_run _ _ _ _ _ _ Huser).
    reflexivity.
  - unfold lookup.
    cbn -[replace_doc updated_variant has_id]. rewrite Hv, Hr.
    pose proof (find_replace_doc (app_variants s)
                  (updated_variant v (parameters payload) user)) as Hnew.
    split_and!; try reflexivity. exact Hnew.
Qed.



(** C5: on a variant of the base that carries the requested config name
    and whose current parameters are not empty, [save_config] with
    [overwrite=false] raises the name-conflict error (status 200 with the
    conflict text) and leaves the whole store as it was: no new variant, no
    new revision, the variant's revision number and parameters untouched. *)
Theorem save_config_conflict (s : db) (payload : SaveConfigPayload)
    (user_id : string) (uod : user_org_data) (base_db : VariantBaseDB.t)
    (v : AppVariantDB.t) :
  get_user_and_org_id user_id s = inr uod →
  fetch_base_and_check_access (base_id payload) uod false s = (s, inr base_db) →
  variant_with_config_name (variants_for_base s base_db) (config_name payload)
    = Some v →
  ConfigDB.parameters (AppVariantDB.config v) ≠ ∅ →
  overwrite payload = false →
  save_config payload user_id s = (s, inl (HTTPException 200 conflict_detail)).
Proof.
  intros Hsel Hbase Hfind Hne Hov.
  assert (Hgate : is_empty_dict (ConfigDB.parameters (AppVariantDB.config v)) = false).
  { destruct (is_empty_dict _) eqn:E; [|done]. now apply is_empty_dict_spec in E. }
  unfold save_config, router_errors, try_except.
  rewrite (bind_run (selector user_id) _ s s uod)
    by (unfold selector; now rewrite Hsel).
  rewrite (bind_run _ _ _ _ _ Hbase).
  rewrite (bind_run _ _ _ _ _ (list_variants_for_base_run base_db s)).
  now rewrite Hfind, Hov, Hgate.
Qed.



(** X26: under a base that has no variant at all, [save_config] is refused
    with status 500, "Previous app variant not found", and writes nothing. *)
Lemma save_config_without_previous_variant (s : db) (payload : SaveConfigPayload)
    (user_id : string) (uod : user_org_data) (base_db : VariantBaseDB.t) :
  get_user_and_org_id user_id s = inr uod →
  fetch_base_and_check_access (base_id payload) uod false s = (s, inr base_db) →
  variants_for_base s base_db = [] →
  save_config payload user_id s
    = (s, inl (HTTPException 500 "Previous app variant not found")).
Proof.
  intros Hsel Hbase Hnil.
  assert (Hprev : find_previous_variant_from_base_id (VariantBaseDB.id base_db) s
                  = (s, inr None)).
  { assert (Hf : filter
              (λ v, Is_true (N.eqb (AppVariantDB.base v) (VariantBaseDB.id base_db)))
              (app_variants s) = []).
    { apply Permutation_nil_r. unfold variants_for_base in Hnil.
      rewrite <- Hnil at 1. now rewrite merge_sort_Permutation. }
    unfold find_previous_variant_from_base_id, bind, find. simpl.
    now rewrite Hf. }
  unfold save_config, router_errors, try_except.
  rewrite (bind_run (selector user_id) _ s s uod)
    by (unfold selector; now rewrite Hsel).
  rewrite (bind_run _ _ _ _ _ Hbase).
  rewrite (bind_run _ _ _ _ _ (list_variants_for_base_run base_db s)).
  rewrite Hnil. simpl.
  unfold add_variant_from_base_and_config.
  erewrite bind_fail.
  2: { now rewrite (bind_run _ _ _ _ _ Hprev). }
  reflexivity.
Qed.


(** *** Deploying and reverting *)

Lemma fetch_app_variant_revision_by_variant_inv (vid : ObjectId) (n : Z)
    (s s' : db) (rev : AppVariantRevisionsDB.t) :
  fetch_app_variant_revision_by_variant vid n s = (s', inr rev) →
  s' = s ∧ In rev (app_variant_revisions s) ∧
  AppVariantRevisionsDB.variant rev = vid ∧
  AppVariantRevisionsDB.revision rev = n.
Proof.
  unfold fetch_app_variant_revision_by_variant, bind, find_one. simpl.
  destruct (List.find _ _) as [r|] eqn:E; [|discriminate].
  intros [= <- <-]. apply find_some in E as [Hin Hp].
  apply andb_true_iff in Hp as [Hv Hn].
  apply N.eqb_eq in Hv. apply Z.eqb_eq in Hn. done.
Qed.

Lemma fetched_id_inv (A : Type) `{Document A} (ref : ObjectId) (s s' : db)
    (oid : ObjectId) :
  fetched_id A ref s = (s', inr oid) →
  s' = s ∧ oid = ref ∧ ∃ d : A, lookup ref s = Some d.
Proof.
  unfold fetched_id, bind, get_db, linked_id, fetch_link, lookup.
  destruct (List.find _ _) as [d|] eqn:E; [|discriminate].
  intros [= <- <-]. apply find_some in E as [_ Hid].
  apply has_id_spec in Hid. eauto.
Qed.

Lemma fetched_id_run (A : Type) `{Document A} (ref : ObjectId) (s : db) (d : A) :
  lookup ref s = Some d → fetched_id A ref s = (s, inr ref).
Proof.
  intros Hl. unfold fetched_id, bind, get_db, fetch_link. unfold lookup in Hl.
  rewrite Hl. simpl. apply find_some in Hl as [_ Hl].
  apply has_id_spec in Hl. now rewrite Hl.
Qed.

Lemma deploy_to_environment_inv (s s' : db) (environment_name : string)
    (variant_id : ObjectId) (uod : user_org_data) :
  deploy_to_environment environment_name variant_id uod s = (s', inr tt) →
  ∃ v rev env d s1 user,
    lookup variant_id s = Some v ∧
    fetch_app_variant_revision_by_variant variant_id (AppVariantDB.revision v) s
      = (s, inr rev) ∧
    List.find (λ e, N.eqb (AppEnvironmentDB.app e) (AppVariantDB.app v)
                    && String.eqb (AppEnvironmentDB.name e) environment_name)
      (environments s) = Some env ∧
    get_user (uid uod) s = (s1, inr user) ∧
    s' = set_collection
           (replace_doc (deployed_environment env v rev d) (environments s1))
           (set_next_id (N.succ (next_id s1))
              (set_collection
                 (environment_revisions s1 ++
                    [AppEnvironmentRevisionDB.Build (next_id s1)
                       (AppEnvironmentDB.id env)
                       (AppEnvironmentDB.revision env + 1) (UserDB.id user)
                       (Some (AppVariantRevisionsDB.id rev))
                       (Some (DeploymentDB.id d))])
                 s1)).
Proof.
  intros Hrun. unfold deploy_to_environment in Hrun.
  apply bind_inv in Hrun as [(e & _ & [=]) | (s1 & ov & H1 & Hrun)].
  unfold fetch_app_variant_by_id, find_one in H1. injection H1 as <- <-.
  destruct (List.find _ _) as [v|] eqn:Hv; [|discriminate Hrun].
  apply bind_inv in Hrun as [(e & _ & [=]) | (s1 & rev & Hrev & Hrun)].
  destruct (fetch_app_variant_revision_by_variant_inv _ _ _ _ _ Hrev)
    as (-> & _ & _ & _).
  apply bind_inv in Hrun as [(e & _ & [=]) | (s1 & app_id & Happ & Hrun)].
  apply fetched_id_inv in Happ as (-> & -> & _).
  apply bind_inv in Hrun as [(e & _ & [=]) | (s1 & oe & H1 & Hrun)].
  unfold find_one in H1. injection H1 as <- <-.
  destruct (List.find _ (environments s)) as [env|] eqn:Henv; [|discriminate Hrun].
  apply bind_inv in Hrun as [(e & _ & [=]) | (s1 & od & H1 & Hrun)].
  unfold get_deployment_by_appid, find_one in H1. injection H1 as <- <-.
  destruct (List.find _ (deployments s)) as [d|] eqn:Hd; [|discriminate Hrun].
  apply bind_inv in Hrun as [(e & _ & [=]) | (s1 & user & Huser & Hrun)].
  injection Hrun as <-.
  now exists v, rev, env, d, s1, user.
Qed.

(** C2: a successful deploy finds the variant, its current revision and
    the environment of the variant's app with the given name; afterwards
    that environment's revision counter is one higher, its live pointer
    is the variant's current revision, and exactly one environment
    revision was appended, numbered with the new counter and pointing at
    the same variant revision as the environment now does. *)
Theorem deploy_to_environment_effect (s s' : db) (environment_name : string)
    (variant_id : ObjectId) (uod : user_org_data) :
  deploy_to_environment environment_name variant_id uod s = (s', inr tt) →
  ∃ v rev env env' er,
    lookup variant_id s = Some v ∧
    fetch_app_variant_revision_by_variant variant_id (AppVariantDB.revision v) s
      = (s, inr rev) ∧
    List.find (λ e, N.eqb (AppEnvironmentDB.app e) (AppVariantDB.app v)
                    && String.eqb (AppEnvironmentDB.name e) environment_name)
      (environments s) = Some env ∧
    environments s' = replace_doc env' (environments s) ∧
    lookup (AppEnvironmentDB.id env) s' = Some env' ∧
    AppEnvironmentDB.revision env' = AppEnvironmentDB.revision env + 1 ∧
    AppEnvironmentDB.deployed_app_variant_revision env'
      = Some (AppVariantRevisionsDB.id rev) ∧
    environment_revisions s' = environment_revisions s ++ [er] ∧
    AppEnvironmentRevisionDB.environment er = AppEnvironmentDB.id env ∧
    AppEnvironmentRevisionDB.revision er = AppEnvironmentDB.revision env' ∧
    AppEnvironmentRevisionDB.deployed_app_variant_revision er
      = AppEnvironmentDB.deployed_app_variant_revision env'.
Proof.
  intros Hrun.
  destruct (deploy_to_environment_inv _ _ _ _ _ Hrun)
    as (v & rev & env & d & s1 & user & Hv & Hrev & Henv & Huser & ->).
  destruct (get_user_frame _ _ _ _ Huser) as (_ & _ & _ & _ & _ & He & Her).
  eexists v, rev, env, (deployed_environment env v rev d), _.
  split_and!; try done.
  - cbn -[replace_doc]. now rewrite He.
  - unfold lookup. cbn -[replace_doc has_id]. rewrite He.
    exact (find_replace_doc (environments s) (deployed_environment env v rev d)).
  - cbn. rewrite Her. reflexivity.
  - reflexivity.
  - reflexivity.
  - reflexivity.
Qed.

(** A deploy writes environments and environment revisions only. *)
Lemma deploy_to_environment_frame (s s' : db) (environment_name : string)
    (variant_id : ObjectId) (uod : user_org_data) :
  deploy_to_environment environment_name variant_id uod s = (s', inr tt) →
  apps s' = apps s ∧ bases s' = bases s ∧ app_variants s' = app_variants s ∧
  app_variant_revisions s' = app_variant_revisions s.
Proof.
  intros Hrun.
  destruct (deploy_to_environment_inv _ _ _ _ _ Hrun)
    as (v & rev & env & d & s1 & user & _ & _ & _ & Huser & ->).
  destruct (get_user_frame _ _ _ _ Huser) as (Ha & _ & Hb & Hv & Hr & _ & _).
  now cbn.
Qed.

(** X21: a deploy goes through as soon as the variant, its current
    revision, its app, the environment, the app's deployment and the acting
    user are all there. *)
Lemma deploy_to_environment_succeeds (s s1 : db) (environment_name : string)
    (variant_id : ObjectId) (uod : user_org_data) (v : AppVariantDB.t)
    (rev : AppVariantRevisionsDB.t) (app : AppDB.t) (env : AppEnvironmentDB.t)
    (d : DeploymentDB.t) (user : UserDB.t) :
  lookup variant_id s = Some v →
  fetch_app_variant_revision_by_variant variant_id (AppVariantDB.revision v) s
    = (s, inr rev) →
  lookup (AppVariantDB.app v) s = Some app →
  List.find (λ e, N.eqb (AppEnvironmentDB.app e) (AppVariantDB.app v)
                  && String.eqb (AppEnvironmentDB.name e) environment_name)
    (environments s) = Some env →
  List.find (λ d, N.eqb (DeploymentDB.app d) (AppVariantDB.app v)) (deployments s)
    = Some d →
  get_user (uid uod) s = (s1, inr user) →
  ∃ s', deploy_to_environment environment_name variant_id uod s = (s', inr tt).
Proof.
  intros Hv Hrev Happ Henv Hd Huser. eexists.
  unfold deploy_to_environment.
  rewrite (bind_run (fetch_app_variant_by_id variant_id) _ s s (Some v))
    by exact (f_equal (λ o, (s, inr o)) Hv).
  rewrite (bind_run _ _ _ _ _ Hrev).
  rewrite (bind_run _ _ _ _ _ (fetched_id_run AppDB.t _ _ _ Happ)).
  rewrite (bind_run (find_one _) _ s s (Some env))
    by exact (f_equal (λ o, (s, inr o)) Henv).
  rewrite (bind_run (get_deployment_by_appid _) _ s s (Some d))
    by exact (f_equal (λ o, (s, inr o)) Hd).
  rewrite (bind_run _ _ _ _ _ Huser).
  reflexivity.
Qed.

(** X22: a revert goes through as soon as the environment revision, the
    variant revision it records and its environment are all there. *)
Lemma revert_deployment_revision_succeeds (s : db)
    (deployment_revision_id target : ObjectId) (x : AppEnvironmentRevisionDB.t)
    (rev : AppVariantRevisionsDB.t) (env : AppEnvironmentDB.t) :
  lookup deployment_revision_id s = Some x →
  AppEnvironmentRevisionDB.deployed_app_variant_revision x = Some target →
  lookup target s = Some rev →
  lookup (AppEnvironmentRevisionDB.environment x) s = Some env →
  ∃ s' msg, revert_deployment_revision deployment_revision_id s = (s', inr msg).
Proof.
  intros Hx Ht Hrev Henv. eexists _, _.
  unfold revert_deployment_revision.
  rewrite (bind_run (fetch_app_environment_revision deployment_revision_id)
             _ s s (Some x)) by exact (f_equal (λ o, (s, inr o)) Hx).
  rewrite Ht. unfold bind at 1, get_db.
  unfold fetch_link. unfold lookup in Henv. rewrite Henv.
  erewrite bind_run; [reflexivity|].
  unfold update_app_environment_deployed_variant_revision.
  rewrite (bind_run (find_one _) _ s s (Some rev))
    by exact (f_equal (λ o, (s, inr o)) Hrev).
  reflexivity.
Qed.

(** C3: a successful revert to the environment revision [x] has found
    [x], the variant revision [x] points at and the environment [x]
    belongs to.  The only write is to that environment, and the only
    field that differs is its live pointer, now exactly the pointer
    recorded in [x]: the revision counter and every other field are as
    before, and no environment revision was appended. *)
Theorem revert_deployment_revision_effect (s s' : db)
    (deployment_revision_id : ObjectId) (msg : string) :
  revert_deployment_revision deployment_revision_id s = (s', inr msg) →
  ∃ x target env env',
    lookup deployment_revision_id s = Some x ∧
    AppEnvironmentRevisionDB.deployed_app_variant_revision x = Some target ∧
    lookup (AppEnvironmentRevisionDB.environment x) s = Some env ∧
    env' = AppEnvironmentDB.set_deployed_app_variant_revision (Some target) env ∧
    s' = set_collection (replace_doc env' (environments s)) s ∧
    lookup (AppEnvironmentDB.id env) s' = Some env' ∧
    AppEnvironmentDB.deployed_app_variant_revision env' = Some target ∧
    AppEnvironmentDB.revision env' = AppEnvironmentDB.revision env ∧
    AppEnvironmentDB.deployed_app_variant env'
      = AppEnvironmentDB.deployed_app_variant env ∧
    AppEnvironmentDB.deployment env' = AppEnvironmentDB.deployment env ∧
    AppEnvironmentDB.name env' = AppEnvironmentDB.name env ∧
    AppEnvironmentDB.app env' = AppEnvironmentDB.app env ∧
    environment_revisions s' = environment_revisions s.
Proof.
  intros Hrun. unfold revert_deployment_revision in Hrun.
  apply bind_inv in Hrun as [(e & _ & [=]) | (s1 & ox & H1 & Hrun)].
  unfold fetch_app_environment_revision, find_one in H1. injection H1 as <- <-.
  destruct (List.find _ (environment_revisions s)) as [x|] eqn:Hx;
    [|discriminate Hrun].
  destruct (AppEnvironmentRevisionDB.deployed_app_variant_revision x)
    as [target|] eqn:Ht; [|discriminate Hrun].
  unfold bind at 1, get_db in Hrun.
  apply bind_inv in Hrun as [(e & _ & [=]) | (s1 & [] & Hupd & Hrun)].
  injection Hrun as <- <-.
  unfold update_app_environment_deployed_variant_revision in Hupd.
  apply bind_inv in Hupd as [(e & _ & [=]) | (s2 & orev & H1 & Hupd)].
  unfold find_one in H1. injection H1 as <- <-.
  destruct (List.find _ (app_variant_revisions s)) as [rev|] eqn:Hrev;
    [|discriminate Hupd].
  apply find_some in Hrev as [_ Hid]. apply has_id_spec in Hid.
  unfold fetch_link in Hupd.
  destruct (List.find _ (collection (A:=AppEnvironmentDB.t) s))
    as [env|] eqn:Henv; [|discriminate Hupd].
  simpl in Hid. rewrite Hid in Hupd.
  unfold save in Hupd. injection Hupd as <-.
  exists x, target, env, (AppEnvironmentDB.set_deployed_app_variant_revision
                            (Some target) env).
  split_and!; try done.
  unfold lookup. cbn -[replace_doc has_id].
  exact (find_replace_doc (environments s)
           (AppEnvironmentDB.set_deployed_app_variant_revision (Some target) env)).
Qed.


(** *** Reading the effective config *)

Lemma truthy_Some (x : string) : x ≠ "" → truthy (Some x) = true.
Proof.
  intros Hx. simpl. destruct (String.eqb_spec x ""); [done|reflexivity].
Qed.

Lemma selector_run (user_id : string) (s : db) (uod : user_org_data) :
  get_user_and_org_id user_id s = inr uod → selector user_id s = (s, inr uod).
Proof. intros E. unfold selector. now rewrite E. Qed.

Lemma fetch_base_and_check_access_inv (base_id : ObjectId) (uod : user_org_data)
    (b : bool) (s s' : db) (base_db : VariantBaseDB.t) :
  fetch_base_and_check_access base_id uod b s = (s', inr base_db) →
  s' = s ∧ lookup base_id s = Some base_db ∧ VariantBaseDB.id base_db = base_id.
Proof.
  unfold fetch_base_and_check_access, bind, find_one, lookup. simpl.
  destruct (List.find _ (bases s)) as [base|] eqn:E; [|discriminate].
  unfold fetched_id, bind, get_db, linked_id.
  destruct (fetch_link _ s); [|discriminate].
  simpl. destruct (check_user_org_access _ _ _ _); [|discriminate].
  intros [= <- <-]. split_and!; try done.
  apply find_some in E as [_ E]. now apply N.eqb_eq in E.
Qed.

Lemma list_environments_run (app_id : ObjectId) (s : db) (app : AppDB.t) :
  lookup app_id s = Some app →
  list_environments app_id s
    = (s, inr (filter (λ e, Is_true (N.eqb (AppEnvironmentDB.app e) app_id))
                 (environments s))).
Proof.
  intros Happ. unfold list_environments, fetch_app_by_id.
  erewrite bind_run by (unfold find_one; unfold lookup in Happ; now rewrite Happ).
  reflexivity.
Qed.

(** The environment of the app with the given name, if any: the one both
    [deploy_to_environment] and [get_config] pick. *)
Lemma find_deployed_revision_spec (s : db) (app_id : ObjectId)
    (environment_name : string) :
  find_deployed_revision s
    (filter (λ e, Is_true (N.eqb (AppEnvironmentDB.app e) app_id)) (environments s))
    environment_name
  = match List.find (λ e, N.eqb (AppEnvironmentDB.app e) app_id
                          && String.eqb (AppEnvironmentDB.name e) environment_name)
            (environments s) with
    | Some env =>
        Some (match AppEnvironmentDB.deployed_app_variant_revision env with
              | Some ref => Some (ref, lookup ref s)
              | None => None
              end)
    | None => None
    end.
Proof. unfold find_deployed_revision. now rewrite find_filter. Qed.

(** The steps of [get_config] up to the loop over the environments. *)
Ltac enter_environment_branch Hsel Hbase Hname Happ :=
  unfold get_config, router_errors, try_except;
  rewrite (bind_run _ _ _ _ _ (selector_run _ _ _ Hsel));
  rewrite (bind_run _ _ _ _ _ Hbase);
  rewrite (truthy_Some _ Hname);
  unfold bind at 1;
  rewrite (bind_run _ _ _ _ _ (fetched_id_run AppDB.t _ _ _ Happ));
  rewrite (bind_run _ _ _ _ _ (list_environments_run _ _ _ Happ));
  unfold bind at 1, get_db; cbn [default from_option id];
  rewrite find_deployed_revision_spec.

(** Through an environment whose deployed variant revision belongs to the
    requested base, [get_config] answers with the config stored in that
    variant revision. *)
Lemma get_config_pinned (s : db) (user_id : string) (base_id : ObjectId)
    (cn : option string) (environment_name : string) (uod : user_org_data)
    (base_db : VariantBaseDB.t) (app : AppDB.t) (env : AppEnvironmentDB.t)
    (rev : AppVariantRevisionsDB.t) :
  get_user_and_org_id user_id s = inr uod →
  fetch_base_and_check_access base_id uod false s = (s, inr base_db) →
  environment_name ≠ "" →
  lookup (VariantBaseDB.app base_db) s = Some app →
  List.find (λ e, N.eqb (AppEnvironmentDB.app e) (VariantBaseDB.app base_db)
                  && String.eqb (AppEnvironmentDB.name e) environment_name)
    (environments s) = Some env →
  AppEnvironmentDB.deployed_app_variant_revision env
    = Some (AppVariantRevisionsDB.id rev) →
  lookup (AppVariantRevisionsDB.id rev) s = Some rev →
  AppVariantRevisionsDB.base rev = base_id →
  get_config user_id base_id cn (Some environment_name) s
    = (s, inr {| config_id := "0";
                 response_config_name :=
                   ConfigDB.config_name (AppVariantRevisionsDB.config rev);
                 current_version := "0";
                 response_parameters :=
                   ConfigDB.parameters (AppVariantRevisionsDB.config rev) |}).
Proof.
  intros Hsel Hbase Hname Happ Henv Hdep Hrev Hb.
  destruct (fetch_base_and_check_access_inv _ _ _ _ _ _ Hbase) as (_ & Hlb & _).
  enter_environment_branch Hsel Hbase Hname Happ.
  rewrite Henv, Hdep, Hrev.
  rewrite Hb.
  rewrite (bind_run _ _ _ _ _ (fetched_id_run VariantBaseDB.t _ _ _ Hlb)).
  now rewrite N.eqb_refl.
Qed.

(** X23: through an environment that was never deployed to, [get_config]
    answers with status 400. *)
Lemma get_config_never_deployed (s : db) (user_id : string) (base_id : ObjectId)
    (cn : option string) (environment_name : string) (uod : user_org_data)
    (base_db : VariantBaseDB.t) (app : AppDB.t) (env : AppEnvironmentDB.t) :
  get_user_and_org_id user_id s = inr uod →
  fetch_base_and_check_access base_id uod false s = (s, inr base_db) →
  environment_name ≠ "" →
  lookup (VariantBaseDB.app base_db) s = Some app →
  List.find (λ e, N.eqb (AppEnvironmentDB.app e) (VariantBaseDB.app base_db)
                  && String.eqb (AppEnvironmentDB.name e) environment_name)
    (environments s) = Some env →
  AppEnvironmentDB.deployed_app_variant_revision env = None →
  ∃ detail,
    get_config user_id base_id cn (Some environment_name) s
      = (s, inl (HTTPException 400 detail)).
Proof.
  intros Hsel Hbase Hname Happ Henv Hdep.
  enter_environment_branch Hsel Hbase Hname Happ.
  rewrite Henv, Hdep. eexists. reflexivity.
Qed.

(** X24: through an environment whose deployed variant revision belongs to
    another base than the requested one, [get_config] answers with status
    400. *)
Lemma get_config_other_base (s : db) (user_id : string) (base_id : ObjectId)
    (cn : option string) (environment_name : string) (uod : user_org_data)
    (base_db other : VariantBaseDB.t) (app : AppDB.t) (env : AppEnvironmentDB.t)
    (rev : AppVariantRevisionsDB.t) :
  get_user_and_org_id user_id s = inr uod →
  fetch_base_and_check_access base_id uod false s = (s, inr base_db) →
  environment_name ≠ "" →
  lookup (VariantBaseDB.app base_db) s = Some app →
  List.find (λ e, N.eqb (AppEnvironmentDB.app e) (VariantBaseDB.app base_db)
                  && String.eqb (AppEnvironmentDB.name e) environment_name)
    (environments s) = Some env →
  AppEnvironmentDB.deployed_app_variant_revision env
    = Some (AppVariantRevisionsDB.id rev) →
  lookup (AppVariantRevisionsDB.id rev) s = Some rev →
  lookup (AppVariantRevisionsDB.base rev) s = Some other →
  AppVariantRevisionsDB.base rev ≠ base_id →
  ∃ detail,
    get_config user_id base_id cn (Some environment_name) s
      = (s, inl (HTTPException 400 detail)).
Proof.
  intros Hsel Hbase Hname Happ Henv Hdep Hrev Hother Hne.
  enter_environment_branch Hsel Hbase Hname Happ.
  rewrite Henv, Hdep, Hrev.
  rewrite (bind_run _ _ _ _ _ (fetched_id_run VariantBaseDB.t _ _ _ Hother)).
  apply N.eqb_neq in Hne. rewrite Hne. eexists. reflexivity.
Qed.

(** X25: in every store, for a name that no environment of the base's app
    carries, the local [found_variant_revision] is read unbound, and
    [get_config] reports the resulting exception as status 500. *)
Lemma get_config_unknown_environment (s : db) (user_id : string)
    (base_id : ObjectId) (cn : option string) (environment_name : string)
    (uod : user_org_data) (base_db : VariantBaseDB.t) (app : AppDB.t) :
  get_user_and_org_id user_id s = inr uod →
  fetch_base_and_check_access base_id uod false s = (s, inr base_db) →
  environment_name ≠ "" →
  lookup (VariantBaseDB.app base_db) s = Some app →
  List.find (λ e, N.eqb (AppEnvironmentDB.app e) (VariantBaseDB.app base_db)
                  && String.eqb (AppEnvironmentDB.name e) environment_name)
    (environments s) = None →
  get_config user_id base_id cn (Some environment_name) s
    = (s, inl (HTTPException 500
         "local variable 'found_variant_revision' referenced before assignment")).
Proof.
  intros Hsel Hbase Hname Happ Henv.
  enter_environment_branch Hsel Hbase Hname Happ.
  now rewrite Henv.
Qed.





(** *** Variant revisions are never rewritten *)

#[local] Instance revisions_kept_preorder : PreOrder revisions_kept.
Proof.
  split.
  - intros s. unfold revisions_kept. split_and!; try done.
    exists []. now rewrite app_nil_r.
  - intros s1 s2 s3 (Ha & Hd & Hb & He & Hr & x & Hx)
      (Ha' & Hd' & Hb' & He' & Hr' & y & Hy).
    unfold revisions_kept. split_and!; try congruence.
    exists (x ++ y). rewrite Hy, Hx. now rewrite app_assoc.
Qed.

Section Preserves.
Context (R : db → db → Prop) `{!PreOrder R}.

Lemma preserves_ret {A} (a : A) : preserves R (ret a).
Proof. intros s s' r [= <- _]. reflexivity. Qed.

Lemma preserves_raise {A} (e : exn) : preserves R (raise (A:=A) e).
Proof. intros s s' r [= <- _]. reflexivity. Qed.

Lemma preserves_bind {A B} (m : M A) (k : A → M B) :
  preserves R m → (∀ a, preserves R (k a)) → preserves R (bind m k).
Proof.
  intros Hm Hk s s' r Hrun.
  apply bind_inv in Hrun as [(e & Hrun & _) | (s1 & a & H1 & H2)].
  - eapply Hm, Hrun.
  - etransitivity; [eapply Hm, H1 | eapply Hk, H2].
Qed.

Lemma preserves_try_except {A} (m : M A) (h : exn → M A) :
  preserves R m → (∀ e, preserves R (h e)) → preserves R (try_except m h).
Proof.
  intros Hm Hh s s' r. unfold try_except.
  destruct (m s) as [s1 [e|a]] eqn:E.
  - intros Hrun. etransitivity; [eapply Hm, E | eapply Hh, Hrun].
  - intros [= <- _]. eapply Hm, E.
Qed.

Lemma preserves_read {A} (f : db → exn + A) : preserves R (λ s, (s, f s)).
Proof. intros s s' r [= <- _]. reflexivity. Qed.
End Preserves.

Lemma same_documents_revisions_kept (s s' : db) :
  same_documents s s' → revisions_kept s s'.
Proof.
  intros (Ha & Hd & Hb & Hv & Hr & He & Her). unfold revisions_kept.
  split_and!; try done. exists []. now rewrite app_nil_r.
Qed.

Lemma get_user_keeps (user_uid : string) :
  preserves revisions_kept (get_user user_uid).
Proof.
  intros s s' r Hrun. eapply same_documents_revisions_kept, get_user_frame, Hrun.
Qed.

Lemma create_revision_keeps (rev : AppVariantRevisionsDB.t) :
  preserves revisions_kept (create rev).
Proof.
  intros s s' r [= <- _]. unfold revisions_kept. cbn. split_and!; try done.
  eexists. reflexivity.
Qed.

Lemma create_variant_keeps (v : AppVariantDB.t) :
  preserves revisions_kept (create v).
Proof.
  intros s s' r [= <- _]. unfold revisions_kept. cbn. split_and!; try done.
  exists []. now rewrite app_nil_r.
Qed.

Lemma save_variant_keeps (v : AppVariantDB.t) :
  preserves revisions_kept (save v).
Proof.
  intros s s' r [= <- _]. unfold revisions_kept. cbn. split_and!; try done.
  exists []. now rewrite app_nil_r.
Qed.

Lemma fetch_base_and_check_access_keeps (base_id : ObjectId)
    (uod : user_org_data) (b : bool) :
  preserves revisions_kept (fetch_base_and_check_access base_id uod b).
Proof.
  intros s s' r. unfold fetch_base_and_check_access, bind, find_one. simpl.
  destruct (List.find _ (bases s)).
  - unfold fetched_id, bind, get_db, linked_id.
    destruct (fetch_link _ s); simpl.
    + destruct (check_user_org_access _ _ _ _); intros [= <- _]; reflexivity.
    + intros [= <- _]. reflexivity.
  - intros [= <- _]. reflexivity.
Qed.

Ltac now_kept := first [apply preserves_ret | apply preserves_raise]; apply _.

Lemma update_variant_parameters_keeps (v : AppVariantDB.t) (p : parameters_t)
    (uod : user_org_data) :
  preserves revisions_kept (update_variant_parameters v p uod).
Proof.
  unfold update_variant_parameters.
  apply preserves_try_except; [apply _| |intros; now_kept].
  apply preserves_bind; [apply _|apply get_user_keeps|intros user].
  apply preserves_bind; [apply _|apply save_variant_keeps|intros _].
  apply preserves_bind; [apply _|apply create_revision_keeps|intros _].
  now_kept.
Qed.

Lemma add_variant_from_base_and_config_keeps (base_db : VariantBaseDB.t)
    (cn : string) (p : parameters_t) (uod : user_org_data) :
  preserves revisions_kept (add_variant_from_base_and_config base_db cn p uod).
Proof.
  unfold add_variant_from_base_and_config.
  apply preserves_bind; [apply _| |intros [previous|]].
  - unfold find_previous_variant_from_base_id.
    apply preserves_bind; [apply _|apply (preserves_read _ (λ s, inr _))|].
    intros [|? ?]; now_kept.
  - apply preserves_bind;
      [apply _|apply (preserves_read _ (λ s, inr _))|intros variants].
    destruct (existsb _ variants); [now_kept|].
    apply preserves_bind; [apply _|apply get_user_keeps|intros user].
    apply preserves_bind; [apply _|apply create_variant_keeps|intros nv].
    apply preserves_bind; [apply _|apply create_revision_keeps|intros _].
    now_kept.
  - now_kept.
Qed.

(** Whatever its outcome, [save_config] leaves every variant revision that
    was in the store as it was; it can only append. *)
Lemma save_config_keeps (payload : SaveConfigPayload) (user_id : string) :
  preserves revisions_kept (save_config payload user_id).
Proof.
  unfold save_config, router_errors.
  apply preserves_try_except; [apply _| |].
  2: { intros e. destruct (is_HTTPException e); now_kept. }
  apply preserves_bind; [apply _|apply (preserves_read _ _)|intros uod].
  apply preserves_bind;
    [apply _|apply fetch_base_and_check_access_keeps|intros base_db].
  apply preserves_bind;
    [apply _|apply (preserves_read _ (λ s, inr _))|intros variants].
  destruct (variant_with_config_name variants _) as [v|].
  - destruct (_ || _); [|now_kept].
    unfold app_manager.update_variant_parameters.
    apply preserves_bind;
      [apply _|apply (preserves_read _ (λ s, inr _))|intros [v'|]].
    + apply update_variant_parameters_keeps.
    + now_kept.
  - apply preserves_bind;
      [apply _|apply add_variant_from_base_and_config_keeps|intros _].
    now_kept.
Qed.


(** *** No operation rewrites a variant revision *)

#[local] Instance revision_log_kept_preorder : PreOrder revision_log_kept.
Proof.
  split.
  - intros s. exists []. now rewrite app_nil_r.
  - intros s1 s2 s3 [x Hx] [y Hy]. exists (x ++ y).
    rewrite Hy, Hx. now rewrite app_assoc.
Qed.

Lemma revisions_kept_log (s s' : db) : revisions_kept s s' → revision_log_kept s s'.
Proof. intros (_ & _ & _ & _ & _ & Hr). exact Hr. Qed.

Lemma unchanged_log (s s' : db) :
  app_variant_revisions s' = app_variant_revisions s → revision_log_kept s s'.
Proof. intros E. exists []. now rewrite app_nil_r. Qed.

Ltac log_kept := first [apply preserves_ret | apply preserves_raise]; apply _.

Ltac log_read :=
  first [ apply (preserves_read _ (λ s, inr _)) | apply (preserves_read _ _) ];
  apply _.

Lemma fetched_id_log (A : Type) `{Document A} (ref : ObjectId) :
  preserves revision_log_kept (fetched_id A ref).
Proof.
  unfold fetched_id. apply preserves_bind; [apply _|log_read|intros s0].
  unfold linked_id. destruct (fetch_link ref s0); log_kept.
Qed.

Lemma deploy_to_environment_log (environment_name : string)
    (variant_id : ObjectId) (uod : user_org_data) :
  preserves revision_log_kept
    (deploy_to_environment environment_name variant_id uod).
Proof.
  unfold deploy_to_environment.
  apply preserves_bind; [apply _|log_read|intros [v|]]; [|log_kept].
  apply preserves_bind; [apply _| |intros rev].
  { unfold fetch_app_variant_revision_by_variant.
    apply preserves_bind; [apply _|log_read|intros [r|]]; log_kept. }
  apply preserves_bind; [apply _|apply fetched_id_log|intros app_id].
  apply preserves_bind; [apply _|log_read|intros [env|]]; [|log_kept].
  apply preserves_bind; [apply _|log_read|intros [d|]]; [|log_kept].
  apply preserves_bind; [apply _| |intros user].
  { intros s s' r Hrun. eapply revisions_kept_log, get_user_keeps, Hrun. }
  apply preserves_bind; [apply _| |intros _].
  { unfold create_environment_revision.
    apply preserves_bind; [apply _| |intros _; log_kept].
    intros s s' r [= <- _]. now apply unchanged_log. }
  intros s s' r [= <- _]. now apply unchanged_log.
Qed.

Lemma revert_deployment_revision_log (deployment_revision_id : ObjectId) :
  preserves revision_log_kept (revert_deployment_revision deployment_revision_id).
Proof.
  unfold revert_deployment_revision.
  apply preserves_bind; [apply _|log_read|intros [x|]]; [|log_kept].
  destruct (AppEnvironmentRevisionDB.deployed_app_variant_revision x);
    [|log_kept].
  apply preserves_bind; [apply _|log_read|intros s0].
  apply preserves_bind; [apply _| |intros _; log_kept].
  unfold update_app_environment_deployed_variant_revision.
  apply preserves_bind; [apply _|log_read|intros [rev|]]; [|log_kept].
  destruct (fetch_link _ s0); [|log_kept].
  intros s s' r [= <- _]. now apply unchanged_log.
Qed.

Lemma get_config_log (user_id : string) (base_id : ObjectId)
    (cn en : option string) :
  preserves revision_log_kept (get_config user_id base_id cn en).
Proof.
  unfold get_config, router_errors.
  apply preserves_try_except; [apply _| |].
  2: { intros e. destruct (is_HTTPException e); log_kept. }
  apply preserves_bind; [apply _|log_read|intros uod].
  apply preserves_bind; [apply _| |intros base_db].
  { intros s s' r Hrun.
    eapply revisions_kept_log, fetch_base_and_check_access_keeps, Hrun. }
  apply preserves_bind; [apply _| |intros cfg; log_kept].
  destruct (truthy en).
  - apply preserves_bind; [apply _|apply fetched_id_log|intros app_id].
    apply preserves_bind; [apply _| |intros envs].
    { unfold list_environments.
      apply preserves_bind; [apply _|log_read|intros [a|]]; [log_read|log_kept]. }
    apply preserves_bind; [apply _|log_read|intros s0].
    destruct (find_deployed_revision s0 envs _) as [[[ref [rev|]]|]|];
      try log_kept.
    apply preserves_bind; [apply _|apply fetched_id_log|intros rb].
    destruct (negb _); log_kept.
  - destruct (truthy cn); [|log_kept].
    apply preserves_bind; [apply _|log_read|intros variants].
    destruct (variant_with_config_name variants _); log_kept.
Qed.

(** X20: whatever they are called with and however they end, [save_config],
    [deploy_to_environment], [revert_deployment_revision] and [get_config]
    leave every variant revision that was written in place and unchanged. *)
Lemma variant_revisions_append_only :
  (∀ payload user_id, preserves revision_log_kept (save_config payload user_id)) ∧
  (∀ en vid uod, preserves revision_log_kept (deploy_to_environment en vid uod)) ∧
  (∀ rid, preserves revision_log_kept (revert_deployment_revision rid)) ∧
  (∀ u b cn en, preserves revision_log_kept (get_config u b cn en)).
Proof.
  split_and!.
  - intros payload user_id s s' r Hrun.
    eapply revisions_kept_log, save_config_keeps, Hrun.
  - apply deploy_to_environment_log.
  - apply revert_deployment_revision_log.
  - apply get_config_log.
Qed.

(** C1: deploy a variant's current revision [rev] to an environment, then
    run [save_config] (any payload, in particular one that overwrites the
    deployed variant and so writes the next revision).  Every variant
    revision of the store before the deploy is still there, unchanged,
    and [get_config] through the environment still answers with the
    config [rev] held when it was deployed. *)
Theorem deployed_config_is_pinned (s0 s1 s2 : db) (environment_name : string)
    (variant_id : ObjectId) (uod : user_org_data) (v : AppVariantDB.t)
    (rev : AppVariantRevisionsDB.t) (payload : SaveConfigPayload)
    (saver : string) (saved : exn + unit)
    (reader : string) (reader_uod : user_org_data) (base_id : ObjectId)
    (cn : option string) (base_db : VariantBaseDB.t) (app : AppDB.t) :
  NoDup (map AppVariantRevisionsDB.id (app_variant_revisions s0)) →
  lookup variant_id s0 = Some v →
  fetch_app_variant_revision_by_variant variant_id (AppVariantDB.revision v) s0
    = (s0, inr rev) →
  deploy_to_environment environment_name variant_id uod s0 = (s1, inr tt) →
  save_config payload saver s1 = (s2, saved) →
  environment_name ≠ "" →
  get_user_and_org_id reader s2 = inr reader_uod →
  fetch_base_and_check_access base_id reader_uod false s2 = (s2, inr base_db) →
  lookup (VariantBaseDB.app base_db) s2 = Some app →
  VariantBaseDB.app base_db = AppVariantDB.app v →
  AppVariantRevisionsDB.base rev = base_id →
  (∃ extra, app_variant_revisions s2 = app_variant_revisions s0 ++ extra) ∧
  get_config reader base_id cn (Some environment_name) s2
    = (s2, inr {| config_id := "0";
                  response_config_name :=
                    ConfigDB.config_name (AppVariantRevisionsDB.config rev);
                  current_version := "0";
                  response_parameters :=
                    ConfigDB.parameters (AppVariantRevisionsDB.config rev) |}).
Proof.
  intros Hnodup Hv Hrev Hdeploy Hsave Hname Hsel Hbase Happ Hsame Hb.
  destruct (deploy_to_environment_inv _ _ _ _ _ Hdeploy)
    as (v' & rev' & env & d & s' & user & Hv' & Hrev' & Henv & Huser & Hs1).
  rewrite Hv in Hv'. injection Hv' as <-.
  rewrite Hrev in Hrev'. injection Hrev' as <-.
  destruct (get_user_frame _ _ _ _ Huser) as (_ & _ & _ & _ & _ & He & _).
  assert (Henvs : environments s1
                  = replace_doc (deployed_environment env v rev d) (environments s0)).
  { rewrite Hs1. cbn -[replace_doc]. now rewrite He. }
  destruct (deploy_to_environment_frame _ _ _ _ _ Hdeploy) as (_ & _ & _ & Hr1).
  destruct (save_config_keeps _ _ _ _ _ Hsave)
    as (_ & _ & _ & He2 & _ & extra & Hr2).
  rewrite Hr1 in Hr2.
  split; [now exists extra|].
  destruct (fetch_app_variant_revision_by_variant_inv _ _ _ _ _ Hrev)
    as (_ & Hin & _ & _).
  pose proof (find_has_id_unique (app_variant_revisions s0) rev Hnodup Hin) as Hid.
  apply (get_config_pinned s2 reader base_id cn environment_name reader_uod
           base_db app (deployed_environment env v rev d) rev); try done.
  - rewrite He2, Henvs, Hsame.
    apply (find_replace_doc_pred _ (environments s0) env); [done|done|].
    now apply find_some in Henv.
  - unfold lookup. cbn [collection AppVariantRevisionsDB_Document].
    rewrite Hr2. now apply find_app_Some.
Qed.

End Proofs.

(** ** Evaluator dispatch *)

Section EvaluatorDispatch.
Context `{Evaluators.ScoringBackends}.
Import Evaluators.

Lemma other_module_names_eq :
  other_module_names
  = [ "__name__"; "__package__"; "__loader__"; "__spec__"; "__file__";
      "__cached__"; "__builtins__"; "re"; "json"; "httpx"; "Any"; "Dict";
      "Tuple"; "sandbox"; "Error"; "Result"; "OpenAI"; "LLMChain";
      "PromptTemplate"; "logging"; "logger"; "evaluate" ].
Proof. reflexivity. Qed.

(** A key naming a module-level object that is not a scoring function is
    found by the lookup, called, and the call's failure is re-raised. *)
Lemma evaluate_other_module_name (key : string)
    (inputs : parameters_t) (output correct_answer : string)
    (app_params settings_values lm_providers_keys : parameters_t) :
  key ∈ other_module_names →
  ∃ exc,
    evaluate key inputs output correct_answer app_params settings_values
      lm_providers_keys
    = inl (RuntimeError ("Error occurred while running " +:+ key
                         +:+ " evaluation. Exception: " +:+ exc)).
Proof.
  rewrite other_module_names_eq. intros Hin.
  repeat (apply elem_of_cons in Hin as [->|Hin];
          [eexists; vm_compute; reflexivity|]).
  now apply elem_of_nil in Hin.
Qed.

(** On every other key the lookup in the module's names and the lookup in
    the table of the seven scoring functions agree. *)
Lemma evaluate_as_table (key : string)
    (inputs : parameters_t) (output correct_answer : string)
    (app_params settings_values lm_providers_keys : parameters_t) :
  key ∉ other_module_names →
  evaluate key inputs output correct_answer app_params settings_values
    lm_providers_keys
  = evaluate_by_table key inputs output correct_answer app_params
      settings_values lm_providers_keys.
Proof.
  rewrite other_module_names_eq. intros Hnot.
  unfold evaluate, evaluate_by_table, globals_get, table_lookup,
    module_globals, scoring_table.
  cbn [List.find fst snd].
  repeat match goal with
         | |- context [String.eqb ?name key] =>
             destruct (String.eqb_spec name key) as [<-|?];
             [first [reflexivity | exfalso; apply Hnot; set_solver]|]
         end.
  reflexivity.
Qed.

(** C9 (as amended): [evaluate] resolves the key among the names of its
    module.  The table of the specification holds exactly the seven named
    scoring functions.  A key naming another object of the module is not
    reported as not found: the object is called and the failure of the
    call is raised as a run-time error.  On every other key [evaluate]
    does what the table does: it runs the scoring function when the key
    is one of the seven and raises the not-found error otherwise. *)
Theorem evaluate_dispatch (key : string)
    (inputs : parameters_t) (output correct_answer : string)
    (app_params settings_values lm_providers_keys : parameters_t) :
  map fst scoring_table
    = [ "auto_exact_match"; "auto_similarity_match"; "auto_regex_test";
        "field_match_test"; "auto_webhook_test"; "auto_custom_code_run";
        "auto_ai_critique" ] ∧
  if bool_decide (key ∈ other_module_names)
  then ∃ exc,
         evaluate key inputs output correct_answer app_params settings_values
           lm_providers_keys
         = inl (RuntimeError ("Error occurred while running " +:+ key
                              +:+ " evaluation. Exception: " +:+ exc))
  else evaluate key inputs output correct_answer app_params settings_values
         lm_providers_keys
       = evaluate_by_table key inputs output correct_answer app_params
           settings_values lm_providers_keys.
Proof.
  split; [reflexivity|].
  destruct (bool_decide (key ∈ other_module_names)) eqn:E.
  - apply bool_decide_eq_true in E. now apply evaluate_other_module_name.
  - apply bool_decide_eq_false in E. now apply evaluate_as_table.
Qed.
End EvaluatorDispatch.

(** ** The scenario of the specification, on the concrete store *)

Ltac by_evaluation := vm_compute; reflexivity.

Ltac distinct_ids := refine (bool_decide_unpack _ _); vm_compute; exact I.

Lemma temperature_not_empty (mantissa : Z) : temperature mantissa ≠ ∅.
Proof. unfold temperature. apply map_non_empty_singleton. Defined.

Lemma deployed_config_is_pinned_witness :
  (∃ extra,
     app_variant_revisions demo_db5 = app_variant_revisions demo_db3 ++ extra) ∧
  get_config (H:=demo_collaborators) "u" 5%N None (Some "production") demo_db5
  = (demo_db5,
     inr {| config_id := "0";
            response_config_name :=
              ConfigDB.config_name
                (AppVariantRevisionsDB.config (demo_prod_revision 14%N 2 9));
            current_version := "0";
            response_parameters :=
              ConfigDB.parameters
                (AppVariantRevisionsDB.config (demo_prod_revision 14%N 2 9)) |}).
Proof.
  apply (@deployed_config_is_pinned demo_collaborators demo_db3 demo_db4 demo_db5
           "production" 12%N demo_uod (demo_prod_variant 2 9)
           (demo_prod_revision 14%N 2 9) (demo_payload 10 true) "u" (inr tt)
           "u" demo_uod 5%N None demo_base demo_app).
  - distinct_ids.
  - by_evaluation.
  - by_evaluation.
  - by_evaluation.
  - by_evaluation.
  - discriminate.
  - reflexivity.
  - by_evaluation.
  - by_evaluation.
  - reflexivity.
  - reflexivity.
Defined.

Lemma deploy_to_environment_effect_witness :
  ∃ v rev env env' er,
    lookup 12%N demo_db3 = Some v ∧
    fetch_app_variant_revision_by_variant 12%N (AppVariantDB.revision v) demo_db3
      = (demo_db3, inr rev) ∧
    List.find (λ e, N.eqb (AppEnvironmentDB.app e) (AppVariantDB.app v)
                    && String.eqb (AppEnvironmentDB.name e) "production")
      (environments demo_db3) = Some env ∧
    environments demo_db4 = replace_doc env' (environments demo_db3) ∧
    lookup (AppEnvironmentDB.id env) demo_db4 = Some env' ∧
    AppEnvironmentDB.revision env' = AppEnvironmentDB.revision env + 1 ∧
    AppEnvironmentDB.deployed_app_variant_revision env'
      = Some (AppVariantRevisionsDB.id rev) ∧
    environment_revisions demo_db4 = environment_revisions demo_db3 ++ [er] ∧
    AppEnvironmentRevisionDB.environment er = AppEnvironmentDB.id env ∧
    AppEnvironmentRevisionDB.revision er = AppEnvironmentDB.revision env' ∧
    AppEnvironmentRevisionDB.deployed_app_variant_revision er
      = AppEnvironmentDB.deployed_app_variant_revision env'.
Proof.
  apply (@deploy_to_environment_effect demo_collaborators demo_db3 demo_db4
           "production" 12%N demo_uod).
  by_evaluation.
Defined.

Lemma revert_deployment_revision_effect_witness :
  ∃ x target env env',
    lookup 15%N demo_db6 = Some x ∧
    AppEnvironmentRevisionDB.deployed_app_variant_revision x = Some target ∧
    lookup (AppEnvironmentRevisionDB.environment x) demo_db6 = Some env ∧
    env' = AppEnvironmentDB.set_deployed_app_variant_revision (Some target) env ∧
    demo_db7 = set_collection (replace_doc env' (environments demo_db6)) demo_db6 ∧
    lookup (AppEnvironmentDB.id env) demo_db7 = Some env' ∧
    AppEnvironmentDB.deployed_app_variant_revision env' = Some target ∧
    AppEnvironmentDB.revision env' = AppEnvironmentDB.revision env ∧
    AppEnvironmentDB.deployed_app_variant env'
      = AppEnvironmentDB.deployed_app_variant env ∧
    AppEnvironmentDB.deployment env' = AppEnvironmentDB.deployment env ∧
    AppEnvironmentDB.name env' = AppEnvironmentDB.name env ∧
    AppEnvironmentDB.app env' = AppEnvironmentDB.app env ∧
    environment_revisions demo_db7 = environment_revisions demo_db6.
Proof.
  apply (revert_deployment_revision_effect demo_db6 demo_db7 15%N
           "Environment was reverted to deployment revision successful").
  by_evaluation.
Defined.


Lemma save_config_conflict_witness :
  save_config (H:=demo_collaborators) (demo_payload 5 false) "u" demo_db1
  = (demo_db1, inl (HTTPException 200 conflict_detail)).
Proof.
  apply (@save_config_conflict demo_collaborators demo_db1 (demo_payload 5 false)
           "u" demo_uod demo_base (demo_prod_variant 1 5)).
  - reflexivity.
  - by_evaluation.
  - by_evaluation.
  - apply temperature_not_empty.
  - reflexivity.
Defined.




(** C8: for an environment name that no environment of the base's app
    carries, [get_config] does not answer with status 400: the unbound
    local is reported as status 500. *)
Theorem get_config_missing_environment_is_500 :
  List.find (λ e, String.eqb (AppEnvironmentDB.name e) "qa") (environments demo_db5)
    = None ∧
  get_config (H:=demo_collaborators) "u" 5%N None (Some "qa") demo_db5
  = (demo_db5,
     inl (HTTPException 500
            "local variable 'found_variant_revision' referenced before assignment")).
Proof. split; by_evaluation. Qed.

(** An environment that exists and was never deployed to does give 400. *)
Example get_config_staging_is_400 :
  get_config (H:=demo_collaborators) "u" 5%N None (Some "staging") demo_db5
  = (demo_db5,
     inl (HTTPException 400 "Environment name staging not found for base 5")).
Proof. by_evaluation. Qed.

(** The key ["evaluate"] is none of the seven scoring functions, and it is
    not answered with the not-found error: the module-level lookup finds
    the dispatcher itself. *)
Lemma evaluate_key_evaluate_is_found :
  ("evaluate" ∉ map fst (Evaluators.scoring_table (H:=demo_scorers))) ∧
  Evaluators.evaluate (H:=demo_scorers) "evaluate" ∅ "a" "a" ∅ ∅ ∅
  = inl (RuntimeError
      "Error occurred while running evaluate evaluation. Exception: evaluate() missing 1 required positional argument: 'lm_providers_keys'") ∧
  (Evaluators.evaluate (H:=demo_scorers) "evaluate" ∅ "a" "a" ∅ ∅ ∅)
  ≠ (Evaluators.evaluate_by_table (H:=demo_scorers) "evaluate" ∅ "a" "a" ∅ ∅ ∅).
Proof.
  split_and!.
  - refine (bool_decide_unpack _ _). vm_compute. exact I.
  - by_evaluation.
  - vm_compute. discriminate.
Qed.


(** With both names supplied the answer is the deployed revision 2, while
    the variant itself is at revision 3 already. *)
Example get_config_both_names :
  snd (get_config (H:=demo_collaborators) "u" 5%N (Some "prod") (Some "production")
         demo_db5)
  = inr {| config_id := "0"; response_config_name := "prod";
           current_version := "0"; response_parameters := temperature 9 |} ∧
  snd (get_config (H:=demo_collaborators) "u" 5%N (Some "prod") None demo_db5)
  = inr {| config_id := "0"; response_config_name := "prod";
           current_version := "0"; response_parameters := temperature 10 |}.
Proof. split; by_evaluation. Qed.

(** In cloud mode a request user that is not in the store makes the in-place
    update fail: [get_user] raises, and the router answers with status 500. *)
Example save_config_unknown_user :
  save_config (H:=cloud_collaborators) (demo_payload 9 true) "nobody" demo_db1
  = (demo_db1, inl (HTTPException 500 "Issue updating variant parameters")).
Proof. by_evaluation. Qed.

(** The three environments every app is created with; on a store that has
    them already a second call adds them once more. *)
Example initialize_environments_names :
  AppEnvironmentDB.name
    <$> environments (fst (initialize_environments demo_app bare_base_db))
  = [ "development"; "staging"; "production";
      "development"; "staging"; "production" ].
Proof. by_evaluation. Qed.

(** * Further properties of the data-access layer *)

Section Replace.
Context {A : Type} `{Document A}.

Lemma In_replace_doc (d x : A) (l : list A) :
  In x (replace_doc d l) ↔ x = d ∨ (In x l ∧ doc_id x ≠ doc_id d).
Proof.
  unfold replace_doc. destruct (existsb _ l) eqn:E.
  - rewrite in_map_iff. split.
    + intros (y & Hy & Hin). destruct (has_id (doc_id d) y) eqn:Ey.
      * left. now symmetry.
      * right. subst y. split; [done|]. intros Hid.
        apply has_id_spec in Hid. congruence.
    + intros [->|[Hin Hne]].
      * apply existsb_exists in E as (y & Hin & Hy). exists y. now rewrite Hy.
      * exists x. split; [|done].
        destruct (has_id (doc_id d) x) eqn:Ex; [|done].
        apply has_id_spec in Ex. congruence.
  - rewrite in_app_iff. split.
    + intros [Hin|[<-|[]]]; [right|now left]. split; [done|]. intros Hid.
      assert (existsb (has_id (doc_id d)) l = true); [|congruence].
      apply existsb_exists. exists x. split; [done|]. now apply has_id_spec.
    + intros [->|[Hin _]]; [right; now left|now left].
Qed.

Lemma replace_doc_ids (d : A) (l : list A) :
  existsb (has_id (doc_id d)) l = true →
  map doc_id (replace_doc d l) = map doc_id l.
Proof.
  intros E. unfold replace_doc. rewrite E. rewrite map_map.
  apply map_ext. intros x. destruct (has_id (doc_id d) x) eqn:Ex; [|done].
  now apply has_id_spec in Ex.
Qed.

Lemma find_has_id_fresh (oid : ObjectId) (l : list A) :
  (∀ x, In x l → doc_id x ≠ oid) → List.find (has_id oid) l = None.
Proof.
  intros Hfresh. destruct (List.find _ l) as [x|] eqn:E; [|done].
  apply find_some in E as [Hin Hid]. apply has_id_spec in Hid.
  now apply Hfresh in Hin.
Qed.

Lemma find_app_None (p : A → bool) (l l' : list A) :
  List.find p l = None → List.find p (l ++ l') = List.find p l'.
Proof.
  induction l as [|x l IH]; simpl; [done|]. destruct (p x); [discriminate|auto].
Qed.
End Replace.

Lemma NoDup_snoc_fresh (l : list N) (n : N) :
  NoDup l → (∀ x, In x l → (x < n)%N) → NoDup (l ++ [n]).
Proof.
  intros Hl Hfresh. apply NoDup_app. split_and!; [done| |apply NoDup_singleton].
  intros x Hx Hn. apply list_elem_of_In in Hx. apply Hfresh in Hx.
  apply list_elem_of_singleton in Hn. lia.
Qed.

Section RevisionLog.
Context `{Collaborators}.

Lemma get_user_counter (user_uid : string) (s s' : db) r :
  get_user user_uid s = (s', r) → counter_kept s s'.
Proof.
  unfold get_user, bind, find_one, create, save, ret, raise, counter_kept. simpl.
  destruct (List.find _ (users s)).
  - intros [= <- _]. lia.
  - destruct (negb _); intros [= <- _]; simpl; lia.
Qed.

Lemma revision_log_wf_same (s s' : db) :
  app_variants s' = app_variants s →
  app_variant_revisions s' = app_variant_revisions s →
  counter_kept s s' →
  revision_log_wf s → revision_log_wf s'.
Proof.
  intros Hv Hr Hn [W1 W2 W3 W4 W5 W6 W7 W8]. unfold counter_kept in Hn.
  split; rewrite ?Hv, ?Hr; try done.
  - intros v Hin. apply W2 in Hin. lia.
  - intros r Hin. apply W4 in Hin. lia.
Qed.

(** The store after a variant was updated in place and the revision for its
    new number was appended. *)
Lemma revision_log_wf_update (s s' : db) (v v' : AppVariantDB.t)
    (rev : AppVariantRevisionsDB.t) :
  revision_log_wf s → In v (app_variants s) →
  AppVariantDB.id v' = AppVariantDB.id v →
  AppVariantDB.revision v' = AppVariantDB.revision v + 1 →
  AppVariantRevisionsDB.id rev = next_id s →
  AppVariantRevisionsDB.variant rev = AppVariantDB.id v →
  AppVariantRevisionsDB.revision rev = AppVariantDB.revision v' →
  AppVariantRevisionsDB.config rev = AppVariantDB.config v' →
  app_variants s' = replace_doc v' (app_variants s) →
  app_variant_revisions s' = app_variant_revisions s ++ [rev] →
  next_id s' = N.succ (next_id s) →
  revision_log_wf s'.
Proof.
  intros [W1 W2 W3 W4 W5 W6 W7 W8] Hin Hid Hnum Hrid Hrv Hrn Hrc Hvs Hrs Hnext.
  assert (Hex : existsb (has_id (doc_id v')) (app_variants s) = true).
  { apply existsb_exists. exists v. split; [done|]. apply has_id_spec.
    now symmetry. }
  assert (Hmem : ∀ x, In x (app_variants s') ↔
                   x = v' ∨ (In x (app_variants s) ∧
                             AppVariantDB.id x ≠ AppVariantDB.id v)).
  { intros x. rewrite Hvs, In_replace_doc. simpl. now rewrite Hid. }
  assert (Hrev : ∀ r, In r (app_variant_revisions s') ↔
                   In r (app_variant_revisions s) ∨ r = rev).
  { intros r. rewrite Hrs, in_app_iff. simpl. intuition. }
  split.
  - rewrite Hvs.
    pose proof (replace_doc_ids v' (app_variants s) Hex) as Hids.
    simpl in Hids. now rewrite Hids.
  - intros x Hx. rewrite Hnext. apply Hmem in Hx as [->|[Hx _]].
    + rewrite Hid. apply W2 in Hin. lia.
    + apply W2 in Hx. lia.
  - rewrite Hrs, map_app. simpl. rewrite Hrid.
    apply NoDup_snoc_fresh; [done|]. intros x Hx.
    apply in_map_iff in Hx as (r & <- & Hr). now apply W4 in Hr.
  - intros r Hr. rewrite Hnext. apply Hrev in Hr as [Hr| ->].
    + apply W4 in Hr. lia.
    + rewrite Hrid, Hrv. apply W2 in Hin. lia.
  - intros x r Hx Hr Hvar. apply Hmem in Hx as [->|[Hx Hne]];
      apply Hrev in Hr as [Hr| ->].
    + rewrite Hid in Hvar. pose proof (W5 v r Hin Hr Hvar). lia.
    + lia.
    + now apply W5.
    + congruence.
  - intros x Hx. apply Hmem in Hx as [->|[Hx Hne]].
    + exists rev. rewrite Hrev. split_and!; [now right|congruence|done].
    + destruct (W6 x Hx) as (r & Hr & Hvar & Hn). exists r.
      rewrite Hrev. split_and!; [now left|done|done].
  - intros x r Hx Hr Hvar Hn. apply Hmem in Hx as [->|[Hx Hne]];
      apply Hrev in Hr as [Hr| ->].
    + rewrite Hid in Hvar. pose proof (W5 v r Hin Hr Hvar). lia.
    + done.
    + now apply W7.
    + congruence.
  - intros x r n Hx Hr Hvar Hn. apply Hmem in Hx as [->|[Hx Hne]].
    + destruct (decide (n = AppVariantDB.revision v')) as [->|Hlast].
      * exists rev. rewrite Hrev. split_and!; [now right|congruence|done].
      * apply Hrev in Hr as [Hr| ->]; [|lia].
        rewrite Hid in Hvar.
        destruct (W8 v r n Hin Hr Hvar) as (r' & Hr' & Hv' & Hn'); [lia|].
        exists r'. rewrite Hrev. split_and!; [now left|congruence|done].
    + apply Hrev in Hr as [Hr| ->]; [|congruence].
      destruct (W8 x r n Hx Hr Hvar Hn) as (r' & Hr' & Hv' & Hn').
      exists r'. rewrite Hrev. split_and!; [now left|done|done].
Qed.

(** The store after a new variant and its first revision were appended. *)
Lemma revision_log_wf_new (s s' : db) (nv : AppVariantDB.t)
    (rev : AppVariantRevisionsDB.t) :
  revision_log_wf s →
  AppVariantDB.id nv = next_id s →
  AppVariantRevisionsDB.id rev = N.succ (next_id s) →
  AppVariantRevisionsDB.variant rev = AppVariantDB.id nv →
  AppVariantRevisionsDB.revision rev = AppVariantDB.revision nv →
  AppVariantRevisionsDB.config rev = AppVariantDB.config nv →
  app_variants s' = app_variants s ++ [nv] →
  app_variant_revisions s' = app_variant_revisions s ++ [rev] →
  next_id s' = N.succ (N.succ (next_id s)) →
  revision_log_wf s'.
Proof.
  intros [W1 W2 W3 W4 W5 W6 W7 W8] Hid Hrid Hrv Hrn Hrc Hvs Hrs Hnext.
  assert (Hmem : ∀ x, In x (app_variants s') ↔ In x (app_variants s) ∨ x = nv).
  { intros x. rewrite Hvs, in_app_iff. simpl. intuition. }
  assert (Hrev : ∀ r, In r (app_variant_revisions s') ↔
                   In r (app_variant_revisions s) ∨ r = rev).
  { intros r. rewrite Hrs, in_app_iff. simpl. intuition. }
  assert (Hold : ∀ r, In r (app_variant_revisions s) →
                   AppVariantRevisionsDB.variant r ≠ AppVariantDB.id nv).
  { intros r Hr. apply W4 in Hr. lia. }
  assert (Hnew : ∀ x, In x (app_variants s) →
                   AppVariantDB.id x ≠ AppVariantDB.id nv).
  { intros x Hx. apply W2 in Hx. lia. }
  split.
  - rewrite Hvs, map_app. simpl. rewrite Hid.
    apply NoDup_snoc_fresh; [done|]. intros x Hx.
    apply in_map_iff in Hx as (y & <- & Hy). now apply W2.
  - intros x Hx. rewrite Hnext. apply Hmem in Hx as [Hx| ->].
    + apply W2 in Hx. lia.
    + lia.
  - rewrite Hrs, map_app. simpl. rewrite Hrid.
    apply NoDup_snoc_fresh; [done|]. intros x Hx.
    apply in_map_iff in Hx as (r & <- & Hr). apply W4 in Hr. lia.
  - intros r Hr. rewrite Hnext. apply Hrev in Hr as [Hr| ->].
    + apply W4 in Hr. lia.
    + rewrite Hrid, Hrv, Hid. lia.
  - intros x r Hx Hr Hvar. apply Hmem in Hx as [Hx| ->];
      apply Hrev in Hr as [Hr| ->].
    + now apply W5.
    + rewrite Hrv in Hvar. symmetry in Hvar. now apply Hnew in Hx.
    + now apply Hold in Hr.
    + lia.
  - intros x Hx. apply Hmem in Hx as [Hx| ->].
    + destruct (W6 x Hx) as (r & Hr & Hvar & Hn). exists r.
      rewrite Hrev. split_and!; [now left|done|done].
    + exists rev. rewrite Hrev. split_and!; [now right|done|done].
  - intros x r Hx Hr Hvar Hn. apply Hmem in Hx as [Hx| ->];
      apply Hrev in Hr as [Hr| ->].
    + now apply W7.
    + rewrite Hrv in Hvar. symmetry in Hvar. now apply Hnew in Hx.
    + now apply Hold in Hr.
    + done.
  - intros x r n Hx Hr Hvar Hn. apply Hmem in Hx as [Hx| ->];
      apply Hrev in Hr as [Hr| ->].
    + destruct (W8 x r n Hx Hr Hvar Hn) as (r' & Hr' & Hv' & Hn').
      exists r'. rewrite Hrev. split_and!; [now left|done|done].
    + rewrite Hrv in Hvar. symmetry in Hvar. now apply Hnew in Hx.
    + now apply Hold in Hr.
    + exists rev. rewrite Hrev. split_and!; [now right|done|lia].
Qed.
End RevisionLog.

Section RevisionLogOperations.
Context `{Collaborators}.

Lemma router_errors_state {A} (m : M A) (s s' : db) (r : exn + A) :
  router_errors m s = (s', r) → ∃ r0, m s = (s', r0).
Proof.
  unfold router_errors, try_except. destruct (m s) as [s1 [e|a]].
  - destruct (is_HTTPException e); intros [= <- _]; eauto.
  - intros [= <- _]. eauto.
Qed.

Lemma fetch_base_and_check_access_reads (base_id : ObjectId)
    (uod : user_org_data) (b : bool) (s s' : db) r :
  fetch_base_and_check_access base_id uod b s = (s', r) → s' = s.
Proof.
  unfold fetch_base_and_check_access, bind, find_one. simpl.
  destruct (List.find _ (bases s)).
  - unfold fetched_id, bind, get_db, linked_id.
    destruct (fetch_link _ s); simpl.
    + destruct (check_user_org_access _ _ _ _); now intros [= <- _].
    + now intros [= <- _].
  - now intros [= <- _].
Qed.

Lemma update_variant_parameters_wf (v : AppVariantDB.t) (p : parameters_t)
    (uod : user_org_data) (s s' : db) r :
  revision_log_wf s → In v (app_variants s) →
  update_variant_parameters v p uod s = (s', r) → revision_log_wf s'.
Proof.
  intros Hwf Hin.
  destruct (get_user (uid uod) s) as [s1 [e|user]] eqn:Hu;
    destruct (get_user_frame _ _ _ _ Hu) as (_ & _ & _ & Hv & Hr & _ & _);
    pose proof (get_user_counter _ _ _ _ Hu) as Hn;
    pose proof (revision_log_wf_same s s1 Hv Hr Hn Hwf) as Hwf1.
  - unfold update_variant_parameters, try_except.
    rewrite (bind_fail _ _ _ _ _ Hu). now intros [= <- _].
  - rewrite (update_variant_parameters_run _ _ _ _ _ _ Hu). intros [= <- _].
    eapply (revision_log_wf_update s1 _ v (updated_variant v p user)
              (AppVariantRevisionsDB.Build (next_id s1) (AppVariantDB.id v)
                 (AppVariantDB.revision v + 1) (UserDB.id user)
                 (AppVariantDB.base v)
                 (ConfigDB.set_parameters p (AppVariantDB.config v))));
      try reflexivity; [done|now rewrite Hv].
Qed.

Lemma add_variant_from_base_and_config_wf (base_db : VariantBaseDB.t)
    (cn : string) (p : parameters_t) (uod : user_org_data) (s s' : db) r :
  revision_log_wf s →
  add_variant_from_base_and_config base_db cn p uod s = (s', r) →
  revision_log_wf s'.
Proof.
  intros Hwf. unfold add_variant_from_base_and_config.
  unfold find_previous_variant_from_base_id, list_variants_for_base.
  unfold bind at 1 2. unfold find at 1. 
  destruct (filter _ (collection s)) as [|previous ?]; simpl;
    [now intros [= <- _]|].
  unfold bind at 1 2. unfold find at 1. simpl.
  destruct (existsb _ _); [now intros [= <- _]|].
  intros Hrun.
  apply bind_inv in Hrun as [(e & Hu & _) | (s1 & user & Hu & Hrun)];
    destruct (get_user_frame _ _ _ _ Hu) as (_ & _ & _ & Hv & Hr & _ & _);
    pose proof (get_user_counter _ _ _ _ Hu) as Hn;
    pose proof (revision_log_wf_same _ _ Hv Hr Hn Hwf) as Hwf1; [done|].
  injection Hrun as <- _.
  eapply (revision_log_wf_new s1); try reflexivity.
  all: try reflexivity.
  done.
Qed.

(** X1: whatever it is called with and however it ends, [save_config]
    keeps the revision log in order: unique identifiers, the revisions of
    every variant numbered without a gap up to its current number, and its
    current config equal to the config of its latest revision. *)
Theorem save_config_keeps_revision_log (payload : SaveConfigPayload)
    (user_id : string) (s s' : db) (r : exn + unit) :
  revision_log_wf s →
  save_config payload user_id s = (s', r) →
  revision_log_wf s'.
Proof.
  intros Hwf Hrun. unfold save_config in Hrun.
  apply router_errors_state in Hrun as [r0 Hrun].
  apply bind_inv in Hrun as [(e & Hsel & _) | (s1 & uod & Hsel & Hrun)];
    unfold selector in Hsel; injection Hsel as <- _; [done|].
  apply bind_inv in Hrun as [(e & Hb & _) | (s1 & base_db & Hb & Hrun)];
    apply fetch_base_and_check_access_reads in Hb as ->; [done|].
  rewrite (bind_run _ _ _ _ _ (list_variants_for_base_run base_db s)) in Hrun.
  destruct (variant_with_config_name _ _) as [v|].
  - destruct (_ || _); [|now injection Hrun as <- _].
    unfold app_manager.update_variant_parameters in Hrun.
    unfold bind at 1, fetch_app_variant_by_id, find_one in Hrun.
    destruct (List.find _ (collection s)) as [v0|] eqn:Hv0;
      [|now injection Hrun as <- _].
    apply find_some in Hv0 as [Hin _].
    eapply update_variant_parameters_wf; eauto.
  - apply bind_inv in Hrun as [(e & Hadd & _) | (s1 & nv & Hadd & Hrun)].
    + eapply add_variant_from_base_and_config_wf; eauto.
    + injection Hrun as <- _. eapply add_variant_from_base_and_config_wf; eauto.
Qed.
End RevisionLogOperations.

Section VariantLifecycle.
Context `{Collaborators}.

Lemma find_exists {A} (p : A → bool) (l : list A) (x : A) :
  In x l → p x = true → ∃ y, List.find p l = Some y.
Proof.
  intros Hin Hp. destruct (List.find p l) as [y|] eqn:E; [eauto|].
  rewrite (find_none _ _ E x Hin) in Hp. discriminate.
Qed.

(** X2: in a store whose revision log is in order, the current revision of
    every variant is found, and it holds the variant's current config: the
    lookup [deploy_to_environment] starts with cannot fail on a missing
    revision. *)
Theorem current_revision_is_found (s : db) (v : AppVariantDB.t) :
  revision_log_wf s → In v (app_variants s) →
  ∃ rev,
    fetch_app_variant_revision_by_variant (AppVariantDB.id v)
      (AppVariantDB.revision v) s = (s, inr rev) ∧
    AppVariantRevisionsDB.variant rev = AppVariantDB.id v ∧
    AppVariantRevisionsDB.revision rev = AppVariantDB.revision v ∧
    AppVariantRevisionsDB.config rev = AppVariantDB.config v.
Proof.
  intros Hwf Hin. destruct (wf_current s Hwf v Hin) as (r & Hr & Hvar & Hn).
  destruct (find_exists
              (λ r, N.eqb (AppVariantRevisionsDB.variant r) (AppVariantDB.id v)
                    && Z.eqb (AppVariantRevisionsDB.revision r)
                         (AppVariantDB.revision v))
              (app_variant_revisions s) r Hr) as [rev Hrev].
  { rewrite Hvar, Hn, N.eqb_refl, Z.eqb_refl. reflexivity. }
  exists rev. pose proof Hrev as Hfound.
  apply find_some in Hfound as [Hin' Hp].
  apply andb_true_iff in Hp as [Hv' Hn']. apply N.eqb_eq in Hv'.
  apply Z.eqb_eq in Hn'. split_and!; try done.
  - unfold fetch_app_variant_revision_by_variant, bind, find_one. simpl.
    now rewrite Hrev.
  - now apply (wf_snapshot s Hwf v rev).
Qed.

(** X3: [create_new_app_variant] refuses parameters that are not empty with
    the failed assertion and writes nothing. *)
Theorem create_new_app_variant_refuses_parameters (app : AppDB.t)
    (organization : OrganizationDB.t) (user : UserDB.t) (variant_name : string)
    (image : ObjectId) (base : VariantBaseDB.t) (config : ConfigDB.t)
    (base_name config_name : string) (parameters : parameters_t) (s : db) :
  parameters ≠ ∅ →
  ∃ msg,
    create_new_app_variant app organization user variant_name image base config
      base_name config_name parameters s = (s, inl (AssertionError msg)).
Proof.
  intros Hne. unfold create_new_app_variant.
  destruct (is_empty_dict parameters) eqn:E.
  - now apply is_empty_dict_spec in E.
  - simpl. eexists. reflexivity.
Qed.

(** X4: with empty parameters [create_new_app_variant] appends a variant at
    revision 0 and the revision 0 that holds the config given, and the
    revision log stays in order, so that this revision is the one found as
    the variant's current one. *)
Theorem create_new_app_variant_starts_log (app : AppDB.t)
    (organization : OrganizationDB.t) (user : UserDB.t) (variant_name : string)
    (image : ObjectId) (base : VariantBaseDB.t) (config : ConfigDB.t)
    (base_name config_name : string) (s : db) :
  revision_log_wf s →
  ∃ s' v rev,
    create_new_app_variant app organization user variant_name image base config
      base_name config_name ∅ s = (s', inr v) ∧
    revision_log_wf s' ∧
    app_variants s' = app_variants s ++ [v] ∧
    AppVariantDB.revision v = 0 ∧
    AppVariantDB.config v = config ∧
    app_variant_revisions s' = app_variant_revisions s ++ [rev] ∧
    fetch_app_variant_revision_by_variant (AppVariantDB.id v) 0 s'
      = (s', inr rev) ∧
    AppVariantRevisionsDB.config rev = config.
Proof.
  intros Hwf. eexists _, _, _. split; [reflexivity|].
  match goal with
  | |- revision_log_wf ?s' ∧ _ => assert (Hwf' : revision_log_wf s')
  end.
  { eapply (revision_log_wf_new s); try reflexivity.
    all: try reflexivity. done. }
  split; [exact Hwf'|]. split_and!; try reflexivity.
  unfold fetch_app_variant_revision_by_variant, bind, find_one.
  cbn [collection AppVariantRevisionsDB_Document app_variant_revisions
       set_next_id set_collection AppVariantDB_Document].
  rewrite find_app_None.
  - cbn. now rewrite N.eqb_refl.
  - destruct (List.find _ (app_variant_revisions s)) as [r|] eqn:E; [|done].
    apply find_some in E as [Hin Hp]. apply andb_true_iff in Hp as [Hv _].
    apply N.eqb_eq in Hv. apply (wf_revision_fresh s Hwf) in Hin.
    cbn in Hv. lia.
Qed.
End VariantLifecycle.

Section DeploymentLog.
Context `{Collaborators}.

Lemma fetch_app_variant_revision_by_variant_reads (vid : ObjectId) (n : Z)
    (s s' : db) r :
  fetch_app_variant_revision_by_variant vid n s = (s', r) → s' = s.
Proof.
  unfold fetch_app_variant_revision_by_variant, bind, find_one. simpl.
  destruct (List.find _ _); now intros [= <- _].
Qed.

Lemma fetched_id_reads (A : Type) `{Document A} (ref : ObjectId) (s s' : db) r :
  fetched_id A ref s = (s', r) → s' = s.
Proof.
  unfold fetched_id, bind, get_db, linked_id.
  destruct (fetch_link _ s); now intros [= <- _].
Qed.

(** How a deploy can end: without a write to the documents, or with the
    one write of a successful deploy. *)
Lemma deploy_to_environment_outcome (s s' : db) (environment_name : string)
    (variant_id : ObjectId) (uod : user_org_data) (r : exn + unit) :
  deploy_to_environment environment_name variant_id uod s = (s', r) →
  (same_documents s s' ∧ counter_kept s s') ∨
  (r = inr tt ∧
   ∃ v rev env d s1 user,
     lookup variant_id s = Some v ∧
     fetch_app_variant_revision_by_variant variant_id (AppVariantDB.revision v) s
       = (s, inr rev) ∧
     List.find (λ e, N.eqb (AppEnvironmentDB.app e) (AppVariantDB.app v)
                     && String.eqb (AppEnvironmentDB.name e) environment_name)
       (environments s) = Some env ∧
     get_user (uid uod) s = (s1, inr user) ∧
     s' = set_collection
            (replace_doc (deployed_environment env v rev d) (environments s1))
            (set_next_id (N.succ (next_id s1))
               (set_collection
                  (environment_revisions s1 ++
                     [AppEnvironmentRevisionDB.Build (next_id s1)
                        (AppEnvironmentDB.id env)
                        (AppEnvironmentDB.revision env + 1) (UserDB.id user)
                        (Some (AppVariantRevisionsDB.id rev))
                        (Some (DeploymentDB.id d))])
                  s1))).
Proof.
  assert (Hsame : same_documents s s ∧ counter_kept s s).
  { unfold same_documents, counter_kept. split_and!; first [done|lia]. }
  intros Hrun. unfold deploy_to_environment in Hrun.
  unfold bind at 1, fetch_app_variant_by_id, find_one in Hrun.
  destruct (List.find _ (collection s)) as [v|] eqn:Hv;
    [|injection Hrun as <- _; now left].
  apply bind_inv in Hrun as [(e & Hrev & _) | (s1 & rev & Hrev & Hrun)].
  { apply fetch_app_variant_revision_by_variant_reads in Hrev as ->. now left. }
  destruct (fetch_app_variant_revision_by_variant_inv _ _ _ _ _ Hrev)
    as (-> & _ & _ & _).
  apply bind_inv in Hrun as [(e & Happ & _) | (s1 & app_id & Happ & Hrun)].
  { apply fetched_id_reads in Happ as ->. now left. }
  apply fetched_id_inv in Happ as (-> & -> & _).
  unfold bind at 1, find_one in Hrun.
  destruct (List.find _ (collection (A:=AppEnvironmentDB.t) s))
    as [env|] eqn:Henv; [|injection Hrun as <- _; now left].
  unfold bind at 1, get_deployment_by_appid, find_one in Hrun.
  destruct (List.find _ (collection (A:=DeploymentDB.t) s))
    as [d|] eqn:Hd; [|injection Hrun as <- _; now left].
  apply bind_inv in Hrun as [(e & Hu & _) | (s1 & user & Hu & Hrun)].
  { left. split; [eapply get_user_frame, Hu|eapply get_user_counter, Hu]. }
  right. injection Hrun as <- <-. split; [done|].
  now exists v, rev, env, d, s1, user.
Qed.

Lemma environment_log_wf_same (s s' : db) :
  environments s' = environments s →
  environment_revisions s' = environment_revisions s →
  counter_kept s s' →
  environment_log_wf s → environment_log_wf s'.
Proof.
  intros He Hr Hn [W1 W2 W3]. unfold counter_kept in Hn.
  split; unfold records_of; rewrite ?He, ?Hr.
  - exact W1.
  - intros e Hin. apply W2 in Hin. lia.
  - intros r Hin. apply W3 in Hin. lia.
Qed.

Lemma records_of_snoc (oid : ObjectId) (s s' : db)
    (er : AppEnvironmentRevisionDB.t) :
  environment_revisions s' = environment_revisions s ++ [er] →
  Z.of_nat (length (records_of oid s'))
  = Z.of_nat (length (records_of oid s))
    + (if N.eqb (AppEnvironmentRevisionDB.environment er) oid then 1 else 0).
Proof.
  intros Hr. unfold records_of. rewrite Hr, List.filter_app, length_app. simpl.
  destruct (N.eqb _ oid); simpl; lia.
Qed.

Lemma environment_log_wf_deploy (s s' : db) (env env' : AppEnvironmentDB.t)
    (er : AppEnvironmentRevisionDB.t) :
  environment_log_wf s → In env (environments s) →
  AppEnvironmentDB.id env' = AppEnvironmentDB.id env →
  AppEnvironmentDB.revision env' = AppEnvironmentDB.revision env + 1 →
  AppEnvironmentRevisionDB.id er = next_id s →
  AppEnvironmentRevisionDB.environment er = AppEnvironmentDB.id env →
  environments s' = replace_doc env' (environments s) →
  environment_revisions s' = environment_revisions s ++ [er] →
  next_id s' = N.succ (next_id s) →
  environment_log_wf s'.
Proof.
  intros [W1 W2 W3] Hin Hid Hn Herid Here Hes Hrs Hnext. split.
  - intros e He. rewrite (records_of_snoc _ s s' er Hrs), Here.
    rewrite Hes in He. apply In_replace_doc in He as [->|[He Hne]].
    + rewrite Hid, N.eqb_refl, (W1 env Hin). lia.
    + simpl in Hne. rewrite Hid in Hne.
      destruct (N.eqb_spec (AppEnvironmentDB.id env) (AppEnvironmentDB.id e));
        [congruence|].
      rewrite (W1 e He). lia.
  - intros e He. rewrite Hnext. rewrite Hes in He.
    apply In_replace_doc in He as [->|[He _]].
    + rewrite Hid. apply W2 in Hin. lia.
    + apply W2 in He. lia.
  - intros r Hr. rewrite Hnext. rewrite Hrs in Hr.
    apply in_app_iff in Hr as [Hr|[<-|[]]].
    + apply W3 in Hr. lia.
    + rewrite Herid, Here. apply W2 in Hin. lia.
Qed.

(** X5: however a deploy ends, it keeps both logs in order: every
    environment's counter is still the number of environment revisions
    recorded for it, and the variants and their revisions are untouched. *)
Theorem deploy_to_environment_keeps_logs (s s' : db) (environment_name : string)
    (variant_id : ObjectId) (uod : user_org_data) (r : exn + unit) :
  deploy_to_environment environment_name variant_id uod s = (s', r) →
  (environment_log_wf s → environment_log_wf s') ∧
  (revision_log_wf s → revision_log_wf s').
Proof.
  intros Hrun. apply deploy_to_environment_outcome in Hrun
    as [[(_ & _ & _ & Hv & Hr & He & Her) Hn]
       | (_ & v & rev & env & d & s1 & user & _ & _ & Henv & Hu & ->)].
  - split; intros Hwf.
    + now apply (environment_log_wf_same s s').
    + now apply (revision_log_wf_same s s').
  - destruct (get_user_frame _ _ _ _ Hu) as (_ & _ & _ & Hv & Hr & He & Her).
    pose proof (get_user_counter _ _ _ _ Hu) as Hn.
    split; intros Hwf.
    + pose proof (environment_log_wf_same s s1 He Her Hn Hwf) as Hwf1.
      eapply (environment_log_wf_deploy s1 _ env (deployed_environment env v rev d)
                (AppEnvironmentRevisionDB.Build (next_id s1)
                   (AppEnvironmentDB.id env) (AppEnvironmentDB.revision env + 1)
                   (UserDB.id user) (Some (AppVariantRevisionsDB.id rev))
                   (Some (DeploymentDB.id d))));
        try reflexivity; [done|].
      rewrite He. eapply find_some, Henv.
    + pose proof (revision_log_wf_same s s1 Hv Hr Hn Hwf) as Hwf1.
      apply (revision_log_wf_same s1); try done.
      unfold counter_kept. cbn. lia.
Qed.

(** How a revert can end: without any write, or with the environment of the
    environment revision pointed back. *)
Lemma revert_deployment_revision_outcome (s s' : db)
    (deployment_revision_id : ObjectId) (r : exn + string) :
  revert_deployment_revision deployment_revision_id s = (s', r) →
  s' = s ∨
  ∃ x target env,
    lookup deployment_revision_id s = Some x ∧
    AppEnvironmentRevisionDB.deployed_app_variant_revision x = Some target ∧
    lookup (AppEnvironmentRevisionDB.environment x) s = Some env ∧
    s' = set_collection
           (replace_doc
              (AppEnvironmentDB.set_deployed_app_variant_revision (Some target) env)
              (environments s)) s.
Proof.
  intros Hrun. unfold revert_deployment_revision in Hrun.
  unfold bind at 1, fetch_app_environment_revision, find_one in Hrun.
  destruct (List.find _ (collection (A:=AppEnvironmentRevisionDB.t) s))
    as [x|] eqn:Hx; [|injection Hrun as <- _; now left].
  destruct (AppEnvironmentRevisionDB.deployed_app_variant_revision x)
    as [target|] eqn:Ht; [|injection Hrun as <- _; now left].
  unfold bind at 1, get_db in Hrun.
  unfold update_app_environment_deployed_variant_revision in Hrun.
  unfold bind at 1 2, find_one in Hrun.
  destruct (List.find _ (collection (A:=AppVariantRevisionsDB.t) s))
    as [rev|] eqn:Hrev; [|injection Hrun as <- _; now left].
  apply find_some in Hrev as [_ Hid]. apply has_id_spec in Hid.
  unfold fetch_link in Hrun.
  destruct (List.find _ (collection (A:=AppEnvironmentDB.t) s))
    as [env|] eqn:Henv; [|injection Hrun as <- _; now left].
  simpl in Hid. rewrite Hid in Hrun. injection Hrun as <- _.
  right. now exists x, target, env.
Qed.

(** X6: however a revert ends, the deployment log stays in order: no
    environment revision is written and no counter moves, so every counter
    is still the number of environment revisions of its environment. *)
Theorem revert_deployment_revision_keeps_log (s s' : db)
    (deployment_revision_id : ObjectId) (r : exn + string) :
  environment_log_wf s →
  revert_deployment_revision deployment_revision_id s = (s', r) →
  environment_log_wf s' ∧
  environment_revisions s' = environment_revisions s.
Proof.
  intros Hwf Hrun. apply revert_deployment_revision_outcome in Hrun
    as [->|(x & target & env & _ & _ & Henv & ->)]; [done|].
  apply find_some in Henv as [Hin Hid]. apply has_id_spec in Hid.
  destruct Hwf as [W1 W2 W3]. split; [|reflexivity].
  split; cbn -[replace_doc].
  - intros e He. apply In_replace_doc in He as [->|[He _]].
    + apply (W1 env Hin).
    + now apply W1.
  - intros e He. apply In_replace_doc in He as [->|[He _]].
    + apply (W2 env Hin).
    + now apply W2.
  - exact W3.
Qed.

Lemma records_of_fresh (oid : ObjectId) (s : db) :
  environment_log_wf s → (next_id s <= oid)%N → records_of oid s = [].
Proof.
  intros [_ _ W3] Hge. unfold records_of.
  induction (environment_revisions s) as [|r l IH]; [done|]. simpl.
  destruct (N.eqb_spec (AppEnvironmentRevisionDB.environment r) oid) as [E|_].
  - destruct (W3 r) as [_ Hlt]; [now left|]. lia.
  - apply IH. intros r' Hr'. apply W3. now right.
Qed.

Lemma initialize_environments_run (app_db : AppDB.t) (s : db) :
  let n := next_id s in
  let new :=
    [ fresh_environment n "development" app_db;
      fresh_environment (N.succ n) "staging" app_db;
      fresh_environment (N.succ (N.succ n)) "production" app_db ] in
  initialize_environments app_db s
  = (set_next_id (N.succ (N.succ (N.succ n)))
       (set_collection (environments s ++ new) s), inr new).
Proof.
  unfold initialize_environments, initialize_environments_loop, bind,
    create_environment, create, ret. cbn. rewrite <- !app_assoc. reflexivity.
Qed.

(** X7: [initialize_environments] appends exactly three environments of the
    app, named development, staging and production in this order, each with
    counter 0 and nothing deployed; it writes no environment revision, and
    the deployment log stays in order. *)
Theorem initialize_environments_appends (app_db : AppDB.t) (s : db) :
  environment_log_wf s →
  ∃ s' e1 e2 e3,
    initialize_environments app_db s = (s', inr [e1; e2; e3]) ∧
    environments s' = environments s ++ [e1; e2; e3] ∧
    AppEnvironmentDB.name <$> [e1; e2; e3]
      = ["development"; "staging"; "production"] ∧
    Forall (λ e, AppEnvironmentDB.app e = AppDB.id app_db ∧
                 AppEnvironmentDB.revision e = 0 ∧
                 AppEnvironmentDB.deployed_app_variant e = None ∧
                 AppEnvironmentDB.deployed_app_variant_revision e = None ∧
                 AppEnvironmentDB.deployment e = None) [e1; e2; e3] ∧
    environment_revisions s' = environment_revisions s ∧
    environment_log_wf s'.
Proof.
  intros Hwf. eexists _, _, _, _.
  split; [apply initialize_environments_run|].
  split_and!; try reflexivity.
  - repeat constructor.
  - pose proof Hwf as [W1 W2 W3]. split; cbn.
    + intros e He. unfold records_of. cbn.
      fold (records_of (AppEnvironmentDB.id e) s).
      apply in_app_iff in He as [He|He]; [now apply W1|].
      rewrite records_of_fresh; [|done|].
      * simpl in He. destruct He as [<-|[<-|[<-|[]]]]; reflexivity.
      * simpl in He. destruct He as [<-|[<-|[<-|[]]]]; simpl; lia.
    + intros e He. apply in_app_iff in He as [He|He].
      * apply W2 in He. lia.
      * simpl in He. destruct He as [<-|[<-|[<-|[]]]]; simpl; lia.
    + intros r Hr. apply W3 in Hr. lia.
Qed.

(** X8: in a store whose revision log is in order, a successful deploy pins
    the config the variant has at that moment: read through the environment
    right after the deploy, [get_config] answers with the variant's current
    config. *)
Theorem deploy_pins_current_config (s0 s1 : db) (environment_name : string)
    (variant_id : ObjectId) (uod : user_org_data) (v : AppVariantDB.t)
    (reader : string) (reader_uod : user_org_data) (base_id : ObjectId)
    (cn : option string) (base_db : VariantBaseDB.t) (app : AppDB.t) :
  revision_log_wf s0 →
  lookup variant_id s0 = Some v →
  (∀ rev, In rev (app_variant_revisions s0) →
     AppVariantRevisionsDB.variant rev = variant_id →
     AppVariantRevisionsDB.base rev = base_id) →
  deploy_to_environment environment_name variant_id uod s0 = (s1, inr tt) →
  environment_name ≠ "" →
  get_user_and_org_id reader s1 = inr reader_uod →
  fetch_base_and_check_access base_id reader_uod false s1 = (s1, inr base_db) →
  lookup (VariantBaseDB.app base_db) s1 = Some app →
  VariantBaseDB.app base_db = AppVariantDB.app v →
  get_config reader base_id cn (Some environment_name) s1
    = (s1, inr {| config_id := "0";
                  response_config_name :=
                    ConfigDB.config_name (AppVariantDB.config v);
                  current_version := "0";
                  response_parameters :=
                    ConfigDB.parameters (AppVariantDB.config v) |}).
Proof.
  intros Hwf Hv Hbase_of Hdeploy Hname Hsel Hbase Happ Hsame.
  destruct (deploy_to_environment_inv _ _ _ _ _ Hdeploy)
    as (v' & rev & env & d & s' & user & Hv' & Hrev & Henv & Huser & Hs1).
  rewrite Hv in Hv'. injection Hv' as <-.
  destruct (get_user_frame _ _ _ _ Huser) as (_ & _ & _ & _ & Hr & He & _).
  destruct (fetch_app_variant_revision_by_variant_inv _ _ _ _ _ Hrev)
    as (_ & Hin & Hvar & Hnum).
  pose proof Hv as Hvin. apply find_some in Hvin as [Hvin Hvid].
  apply has_id_spec in Hvid. simpl in Hvid.
  assert (Hcfg : AppVariantRevisionsDB.config rev = AppVariantDB.config v).
  { apply (wf_snapshot s0 Hwf v rev); try done. congruence. }
  rewrite <- Hcfg.
  pose proof (find_has_id_unique (app_variant_revisions s0) rev
                (wf_revision_ids s0 Hwf) Hin) as Hid.
  apply (get_config_pinned s1 reader base_id cn environment_name reader_uod
           base_db app (deployed_environment env v rev d) rev); try done.
  - rewrite Hs1. cbn -[replace_doc]. rewrite He, Hsame.
    apply (find_replace_doc_pred _ (environments s0) env); [done|done|].
    now apply find_some in Henv.
  - rewrite Hs1. unfold lookup. cbn. now rewrite Hr.
  - now apply Hbase_of.
Qed.

(** *** The answer for a deployment revision *)

Lemma deployment_log_kept_trans (s1 s2 s3 : db) :
  deployment_log_kept s1 s2 → deployment_log_kept s2 s3 →
  deployment_log_kept s1 s3.
Proof.
  intros [x Hx] [y Hy]. exists (x ++ y). rewrite Hy, Hx. now rewrite app_assoc.
Qed.

Lemma revision_log_kept_trans (s1 s2 s3 : db) :
  revision_log_kept s1 s2 → revision_log_kept s2 s3 → revision_log_kept s1 s3.
Proof.
  intros [x Hx] [y Hy]. exists (x ++ y). rewrite Hy, Hx. now rewrite app_assoc.
Qed.

Lemma store_after_kept (op : operation) (s : db) :
  revision_log_kept s (store_after op s) ∧
  deployment_log_kept s (store_after op s).
Proof.
  destruct op as [payload user_id|en vid uod|rid]; simpl.
  - destruct (save_config payload user_id s) as [s' r] eqn:Hrun. simpl.
    pose proof (save_config_keeps _ _ _ _ _ Hrun) as Hk. split.
    + now apply revisions_kept_log.
    + destruct Hk as (_ & _ & _ & _ & Her & _). exists []. now rewrite app_nil_r.
  - destruct (deploy_to_environment en vid uod s) as [s' r] eqn:Hrun. simpl.
    split; [eapply deploy_to_environment_log, Hrun|].
    apply deploy_to_environment_outcome in Hrun
      as [[(_ & _ & _ & _ & _ & _ & Her) _]
         | (_ & v & rev & env & d & s1 & user & _ & _ & _ & Hu & ->)].
    + exists []. now rewrite app_nil_r.
    + destruct (get_user_frame _ _ _ _ Hu) as (_ & _ & _ & _ & _ & _ & Her).
      eexists. cbn. rewrite Her. reflexivity.
  - destruct (revert_deployment_revision rid s) as [s' r] eqn:Hrun. simpl.
    split; [eapply revert_deployment_revision_log, Hrun|].
    apply revert_deployment_revision_outcome in Hrun
      as [->|(x & target & env & _ & _ & _ & ->)];
      exists []; now rewrite app_nil_r.
Qed.

Lemma store_after_all_kept (ops : list operation) (s : db) :
  revision_log_kept s (store_after_all ops s) ∧
  deployment_log_kept s (store_after_all ops s).
Proof.
  unfold store_after_all. revert s. induction ops as [|op ops IH]; intros s; simpl.
  - split; exists []; now rewrite app_nil_r.
  - destruct (store_after_kept op s) as [Hr He].
    destruct (IH (store_after op s)) as [Hr' He']. split.
    + eapply revision_log_kept_trans; eauto.
    + eapply deployment_log_kept_trans; eauto.
Qed.

Lemma get_config_deployment_revision_kept (rid : ObjectId) (s s' s0 : db)
    (answer : DeployedConfig) :
  get_config_deployment_revision rid s = (s0, inr answer) →
  revision_log_kept s s' → deployment_log_kept s s' →
  get_config_deployment_revision rid s' = (s', inr answer).
Proof.
  intros Hrun [xr Hr] [xe He]. unfold get_config_deployment_revision in *.
  unfold bind at 1, fetch_app_environment_revision, find_one in Hrun.
  unfold bind at 1, fetch_app_environment_revision, find_one.
  destruct (List.find _ (collection (A:=AppEnvironmentRevisionDB.t) s))
    as [x|] eqn:Hx; [|discriminate].
  cbn [collection AppEnvironmentRevisionDB_Document] in *.
  rewrite He, (find_app_Some _ _ _ _ Hx).
  destruct (AppEnvironmentRevisionDB.deployed_app_variant_revision x)
    as [target|]; [|discriminate].
  unfold bind at 1, fetch_app_variant_revision_by_id, find_one in Hrun.
  unfold bind at 1, fetch_app_variant_revision_by_id, find_one.
  destruct (List.find _ (collection (A:=AppVariantRevisionsDB.t) s))
    as [rev|] eqn:Hrev; [|discriminate].
  cbn [collection AppVariantRevisionsDB_Document] in *.
  rewrite Hr, (find_app_Some _ _ _ _ Hrev).
  injection Hrun as _ <-. reflexivity.
Qed.

(** X9: an answer [get_config_deployment_revision] has given once for a
    deployment revision is the answer it gives after any sequence of
    [save_config], deploy and revert calls, whatever these are called with
    and however each of them ends. *)
Theorem deployment_revision_answer_is_stable (rid : ObjectId) (s s0 : db)
    (answer : DeployedConfig) (ops : list operation) :
  get_config_deployment_revision rid s = (s0, inr answer) →
  get_config_deployment_revision rid (store_after_all ops s)
    = (store_after_all ops s, inr answer).
Proof.
  intros Hrun. destruct (store_after_all_kept ops s) as [Hr He].
  eapply get_config_deployment_revision_kept; eauto.
Qed.

(** X10: in a store whose logs are in order, a successful deploy appends one
    environment revision, and asking for that deployment revision returns
    the config the variant had when it was deployed together with the
    environment's new counter; the same answer comes back after any later
    sequence of [save_config], deploy and revert calls. *)
Theorem deploy_records_current_config (s0 s1 : db) (environment_name : string)
    (variant_id : ObjectId) (uod : user_org_data) (v : AppVariantDB.t)
    (ops : list operation) :
  revision_log_wf s0 → environment_log_wf s0 →
  lookup variant_id s0 = Some v →
  deploy_to_environment environment_name variant_id uod s0 = (s1, inr tt) →
  ∃ er env,
    List.find (λ e, N.eqb (AppEnvironmentDB.app e) (AppVariantDB.app v)
                    && String.eqb (AppEnvironmentDB.name e) environment_name)
      (environments s0) = Some env ∧
    environment_revisions s1 = environment_revisions s0 ++ [er] ∧
    get_config_deployment_revision (AppEnvironmentRevisionDB.id er)
      (store_after_all ops s1)
    = (store_after_all ops s1,
       inr {| deployed_config_name :=
                ConfigDB.config_name (AppVariantDB.config v);
              deployed_parameters :=
                ConfigDB.parameters (AppVariantDB.config v);
              deployed_current_version := AppEnvironmentDB.revision env + 1 |}).
Proof.
  intros Hwf Hewf Hv Hdeploy.
  destruct (deploy_to_environment_inv _ _ _ _ _ Hdeploy)
    as (v' & rev & env & d & s' & user & Hv' & Hrev & Henv & Huser & Hs1).
  rewrite Hv in Hv'. injection Hv' as <-.
  destruct (get_user_frame _ _ _ _ Huser) as (_ & _ & _ & _ & Hr & _ & Her).
  pose proof (get_user_counter _ _ _ _ Huser) as Hn. unfold counter_kept in Hn.
  destruct (fetch_app_variant_revision_by_variant_inv _ _ _ _ _ Hrev)
    as (_ & Hin & Hvar & Hnum).
  pose proof Hv as Hvin. apply find_some in Hvin as [Hvin Hvid].
  apply has_id_spec in Hvid. simpl in Hvid.
  assert (Hcfg : AppVariantRevisionsDB.config rev = AppVariantDB.config v).
  { apply (wf_snapshot s0 Hwf v rev); try done. congruence. }
  pose proof (find_has_id_unique (app_variant_revisions s0) rev
                (wf_revision_ids s0 Hwf) Hin) as Hid.
  eexists _, env. split; [exact Henv|].
  split; [rewrite Hs1; cbn; rewrite Her; reflexivity|].
  destruct (store_after_all_kept ops s1) as [Hkr Hke].
  eapply (get_config_deployment_revision_kept _ s1 _ s1); [|done|done].
  rewrite Hs1. unfold get_config_deployment_revision.
  unfold bind at 1, fetch_app_environment_revision, find_one.
  cbn [collection AppEnvironmentRevisionDB_Document environment_revisions
       set_collection set_next_id AppEnvironmentDB_Document].
  rewrite find_app_None.
  2: { apply find_has_id_fresh. intros x Hx. rewrite Her in Hx.
       apply (wf_record_fresh s0 Hewf) in Hx. simpl. lia. }
  cbn [List.find]. unfold has_id at 1.
  cbn [doc_id AppEnvironmentRevisionDB_Document AppEnvironmentRevisionDB.id].
  rewrite N.eqb_refl.
  cbn [AppEnvironmentRevisionDB.deployed_app_variant_revision
       AppEnvironmentRevisionDB.revision].
  unfold bind at 1, fetch_app_variant_revision_by_id, find_one.
  cbn [collection AppVariantRevisionsDB_Document app_variant_revisions
       set_collection set_next_id AppEnvironmentDB_Document
       AppEnvironmentRevisionDB_Document].
  rewrite Hr. simpl in Hid. rewrite Hid, Hcfg. reflexivity.
Qed.
End DeploymentLog.

Section UsersAndAccess.
Context `{Collaborators}.

Lemma single_tenant_flag :
  single_tenant →
  negb (String.eqb FEATURE_FLAG "cloud" || String.eqb FEATURE_FLAG "ee") = true.
Proof.
  intros [Hc He]. apply String.eqb_neq in Hc, He. now rewrite Hc, He.
Qed.

Lemma replace_last_user (l : list UserDB.t) (u0 u : UserDB.t) :
  UserDB.id u0 = UserDB.id u →
  (∀ x, In x l → UserDB.id x ≠ UserDB.id u) →
  replace_doc u (l ++ [u0]) = l ++ [u].
Proof.
  intros Hid Hfresh. unfold replace_doc.
  assert (Hex : existsb (has_id (doc_id u)) (l ++ [u0]) = true).
  { apply existsb_exists. exists u0. split; [apply in_app_iff; right; now left|].
    now apply has_id_spec. }
  rewrite Hex, map_app. f_equal.
  - rewrite <- (map_id l) at 2. apply map_ext_in. intros x Hx.
    destruct (has_id (doc_id u) x) eqn:E; [|done].
    apply has_id_spec in E. now apply Hfresh in Hx.
  - unfold has_id. simpl. now rewrite Hid, N.eqb_refl.
Qed.

(** What [get_user] does for a user that is not in the store, outside
    cloud mode. *)
Lemma get_user_bootstrap_run (user_uid : string) (s : db) :
  single_tenant → users_fresh s →
  List.find (λ u, String.eqb (UserDB.uid u) user_uid) (users s) = None →
  let user := UserDB.Build (next_id s) "0" [N.succ (next_id s)] in
  let org := OrganizationDB.Build (N.succ (next_id s)) "default"
               (str_ObjectId (next_id s)) in
  get_user user_uid s
  = (Build_db (users s ++ [user]) (organizations s ++ [org]) (apps s)
       (deployments s) (bases s) (app_variants s) (app_variant_revisions s)
       (environments s) (environment_revisions s) (N.succ (N.succ (next_id s))),
     inr user).
Proof.
  intros Hst Hfresh Hnone. unfold get_user, bind, find_one. simpl.
  rewrite Hnone, (single_tenant_flag Hst). unfold save, ret. simpl.
  rewrite replace_last_user; [reflexivity|reflexivity|].
  intros x Hx. apply Hfresh in Hx. simpl. lia.
Qed.

(** X11: outside cloud mode [get_user] does not fail on a user that is not
    in the store: it writes a new user, always with the external identifier
    "0", and a default organisation owned by and listed for that user.
    Asked again for the same identifier it finds the user it wrote only if
    the identifier is "0"; otherwise the second call writes one more user
    "0" and one more organisation. *)
Theorem get_user_bootstrap (user_uid : string) (s : db) :
  single_tenant → users_fresh s →
  List.find (λ u, String.eqb (UserDB.uid u) user_uid) (users s) = None →
  ∃ s' user org,
    get_user user_uid s = (s', inr user) ∧
    UserDB.uid user = "0" ∧
    users s' = users s ++ [user] ∧
    organizations s' = organizations s ++ [org] ∧
    OrganizationDB.type org = "default" ∧
    OrganizationDB.owner org = str_ObjectId (UserDB.id user) ∧
    UserDB.organizations user = [OrganizationDB.id org] ∧
    (user_uid = "0" → get_user user_uid s' = (s', inr user)) ∧
    (user_uid ≠ "0" →
     ∃ s'' user' org',
       get_user user_uid s' = (s'', inr user') ∧
       users s'' = users s ++ [user; user'] ∧
       organizations s'' = organizations s ++ [org; org']).
Proof.
  intros Hst Hfresh Hnone.
  pose proof (get_user_bootstrap_run user_uid s Hst Hfresh Hnone) as Hrun.
  cbv zeta in Hrun. eexists _, _, _. split; [exact Hrun|].
  split_and!; try reflexivity.
  - intros ->. unfold get_user, bind, find_one.
    cbn [collection UserDB_Document users].
    rewrite (find_app_None _ _ _ Hnone). reflexivity.
  - intros Hne.
    match type of Hrun with _ = (?s1, _) =>
      pose proof (get_user_bootstrap_run user_uid s1 Hst) as Hrun2 end.
    cbv zeta in Hrun2. eexists _, _, _. split.
    + apply Hrun2.
      * intros x Hx. cbn in Hx. apply in_app_iff in Hx as [Hx|[<-|[]]].
        -- apply Hfresh in Hx. cbn. lia.
        -- cbn. lia.
      * cbn [users]. rewrite (find_app_None _ _ _ Hnone).
        cbn [List.find UserDB.uid].
        destruct (String.eqb_spec "0" user_uid); [congruence|done].
    + cbn. rewrite <- !app_assoc. split; reflexivity.
Qed.

(** X12: [fetch_app_and_check_access] and [fetch_app_variant_and_check_access]
    do not report a missing document as an HTTP error: raising the bare
    class fails with a type error, which a router's generic handler turns
    into status 500; a missing base, in contrast, is a 404. *)
Theorem missing_document_is_not_404 (oid : ObjectId) (uod : user_org_data)
    (check_owner : bool) (s : db) :
  (lookup (A:=AppDB.t) oid s = None →
   ∃ msg,
     fetch_app_and_check_access oid uod check_owner s = (s, inl (TypeError msg)) ∧
     router_errors (fetch_app_and_check_access oid uod check_owner) s
       = (s, inl (HTTPException 500 msg))) ∧
  (lookup (A:=AppVariantDB.t) oid s = None →
   ∃ msg,
     fetch_app_variant_and_check_access oid uod check_owner s
       = (s, inl (TypeError msg)) ∧
     router_errors (fetch_app_variant_and_check_access oid uod check_owner) s
       = (s, inl (HTTPException 500 msg))) ∧
  (lookup (A:=VariantBaseDB.t) oid s = None →
   router_errors (fetch_base_and_check_access oid uod check_owner) s
     = (s, inl (HTTPException 404 "Base not found"))).
Proof.
  split_and!; intros Hnone; unfold lookup in Hnone.
  - eexists. unfold router_errors, try_except, fetch_app_and_check_access,
      bind, find_one. rewrite Hnone. split; reflexivity.
  - eexists. unfold router_errors, try_except,
      fetch_app_variant_and_check_access, bind, find_one.
    rewrite Hnone. split; reflexivity.
  - unfold router_errors, try_except, fetch_base_and_check_access,
      bind, find_one. now rewrite Hnone.
Qed.
End UsersAndAccess.

(** ** Removing a variant *)

Section Loops.
Context {A : Type} `{Document A}.

Lemma stdpp_filter_eq (p : A → bool) (l : list A) :
  filter (λ x, Is_true (p x)) l = List.filter p l.
Proof.
  induction l as [|x l IH]; [done|]. simpl. destruct (p x) eqn:E.
  - rewrite filter_cons_True by now rewrite E. now rewrite IH.
  - rewrite filter_cons_False by now rewrite E. exact IH.
Qed.

Lemma filter_twice (p q : A → bool) (l : list A) :
  List.filter q (List.filter p l) = List.filter (λ x, p x && q x) l.
Proof.
  induction l as [|x l IH]; [done|]. simpl. destruct (p x); simpl.
  - destruct (q x); now rewrite IH.
  - exact IH.
Qed.

(** Deleting a list of documents one after the other. *)
Lemma delete_all (ds l : list A) :
  fold_left (λ l d, List.filter (λ x, negb (has_id (doc_id d) x)) l) ds l
  = List.filter (λ x, negb (existsb (λ d, has_id (doc_id d) x) ds)) l.
Proof.
  revert l. induction ds as [|d ds IH]; intros l; simpl.
  - symmetry. apply forallb_filter_id. now apply forallb_forall.
  - rewrite IH, filter_twice. apply filter_ext. intros x.
    now rewrite negb_orb.
Qed.

Lemma existsb_same_id (p : A → bool) (l : list A) (x : A) :
  NoDup (map doc_id l) → In x l →
  existsb (λ d, has_id (doc_id d) x) (List.filter p l) = p x.
Proof.
  intros Hnd Hin. destruct (p x) eqn:Ex.
  - apply existsb_exists. exists x. split; [now apply filter_In|].
    now apply has_id_spec.
  - destruct (existsb _ _) eqn:E; [|done].
    apply existsb_exists in E as (d & Hd & Hid).
    apply filter_In in Hd as [Hd Hp]. apply has_id_spec in Hid.
    assert (d = x) as ->; [|congruence].
    pose proof (find_has_id_unique l d Hnd Hd) as H1.
    pose proof (find_has_id_unique l x Hnd Hin) as H2.
    rewrite <- Hid in H1. rewrite H1 in H2. now injection H2.
Qed.

Context (f : A → A) (Hf : ∀ x, doc_id (f x) = doc_id x).

(** Saving the changed copies of a list of stored documents one after the
    other. *)
Lemma save_all (ds l : list A) :
  NoDup (map doc_id l) → NoDup (map doc_id ds) → (∀ d, In d ds → In d l) →
  fold_left (λ l d, replace_doc (f d) l) ds l
  = map (λ x, if existsb (λ d, has_id (doc_id d) x) ds then f x else x) l.
Proof.
  revert l. induction ds as [|d ds IH]; intros l Hl Hds Hin; simpl.
  - symmetry. apply map_id.
  - apply NoDup_cons in Hds as [Hd Hds].
    assert (Hex : existsb (has_id (doc_id (f d))) l = true).
    { apply existsb_exists. exists d. split; [apply Hin; now left|].
      apply has_id_spec. now rewrite Hf. }
    rewrite IH.
    + unfold replace_doc. rewrite Hex, map_map. apply map_ext_in.
      intros x Hx. rewrite Hf. destruct (has_id (doc_id d) x) eqn:Ex.
      * apply has_id_spec in Ex.
        assert (x = d) as ->.
        { pose proof (find_has_id_unique l d Hl (Hin d (or_introl eq_refl))) as H1.
          pose proof (find_has_id_unique l x Hl Hx) as H2.
          rewrite Ex in H2. rewrite H1 in H2. now injection H2. }
        assert (Hnot : existsb (λ d0, has_id (doc_id d0) (f d)) ds = false).
        { destruct (existsb _ ds) eqn:E; [|done]. exfalso. apply Hd.
          apply existsb_exists in E as (d0 & Hd0 & Hid).
          apply has_id_spec in Hid. rewrite Hf in Hid. rewrite Hid.
          apply list_elem_of_In, in_map, Hd0. }
        rewrite Hnot. reflexivity.
      * reflexivity.
    + now rewrite (replace_doc_ids _ _ Hex).
    + exact Hds.
    + intros d0 Hd0. apply In_replace_doc. right. split; [apply Hin; now right|].
      rewrite Hf. intros Hid. apply Hd. rewrite <- Hid.
      apply list_elem_of_In, in_map, Hd0.
Qed.

Lemma NoDup_filter_ids (p : A → bool) (l : list A) :
  NoDup (map doc_id l) → NoDup (map doc_id (List.filter p l)).
Proof.
  induction l as [|x l IH]; simpl; [done|]. intros Hnd.
  apply NoDup_cons in Hnd as [Hx Hnd]. destruct (p x); simpl; [|auto].
  apply NoDup_cons. split; [|auto]. intros Hin. apply Hx.
  apply list_elem_of_In in Hin. apply in_map_iff in Hin as (y & Hy & Hin).
  apply filter_In in Hin as [Hin _]. rewrite <- Hy.
  apply list_elem_of_In, in_map, Hin.
Qed.
End Loops.

Section RemoveVariant.
Context `{Collaborators}.

Lemma for_each_save_environments (f : AppEnvironmentDB.t → AppEnvironmentDB.t)
    (ds : list AppEnvironmentDB.t) (s : db) :
  for_each (λ e, save (f e)) ds s
  = (set_collection
       (fold_left (λ l d, replace_doc (f d) l) ds (environments s)) s, inr tt).
Proof.
  revert s. induction ds as [|d ds IH]; intros s; simpl.
  - now destruct s.
  - unfold bind, save at 1. rewrite IH. reflexivity.
Qed.

Lemma for_each_delete_revisions (ds : list AppVariantRevisionsDB.t) (s : db) :
  for_each delete ds s
  = (set_collection
       (fold_left (λ l d, List.filter (λ x, negb (has_id (doc_id d) x)) l) ds
          (app_variant_revisions s)) s, inr tt).
Proof.
  revert s. induction ds as [|d ds IH]; intros s; simpl.
  - now destruct s.
  - unfold bind, delete at 1. rewrite IH. reflexivity.
Qed.

(** What [remove_app_variant_from_db] leaves in the store. *)
Lemma remove_app_variant_from_db_run (v : AppVariantDB.t) (app : AppDB.t)
    (s : db) :
  lookup (AppVariantDB.app v) s = Some app →
  NoDup (map AppEnvironmentDB.id (environments s)) →
  NoDup (map AppVariantRevisionsDB.id (app_variant_revisions s)) →
  remove_app_variant_from_db v s
  = (Build_db (users s) (organizations s) (apps s) (deployments s) (bases s)
       (List.filter (λ x, negb (N.eqb (AppVariantDB.id x) (AppVariantDB.id v)))
          (app_variants s))
       (List.filter
          (λ r, negb (N.eqb (AppVariantRevisionsDB.variant r) (AppVariantDB.id v)))
          (app_variant_revisions s))
       (map (λ e, if N.eqb (AppEnvironmentDB.app e) (AppVariantDB.app v)
                  then AppEnvironmentDB.set_deployed_app_variant None e else e)
          (environments s))
       (environment_revisions s) (next_id s),
     inr tt).
Proof.
  intros Happ Henv Hrev. unfold remove_app_variant_from_db.
  unfold list_environments_by_variant.
  rewrite (bind_run _ _ s s (filter
             (λ e, Is_true (N.eqb (AppEnvironmentDB.app e) (AppVariantDB.app v)))
             (environments s))).
  2: { now rewrite (bind_run _ _ _ _ _ (fetched_id_run AppDB.t _ _ _ Happ)). }
  rewrite stdpp_filter_eq.
  rewrite (bind_run _ _ _ _ _ (for_each_save_environments _ _ s)).
  unfold list_app_variant_revisions_by_variant.
  unfold bind at 1, find at 1.
  cbn [collection AppVariantRevisionsDB_Document app_variant_revisions
       set_collection AppEnvironmentDB_Document].
  rewrite stdpp_filter_eq.
  rewrite (bind_run _ _ _ _ _ (for_each_delete_revisions _ _)).
  unfold delete.
  cbn [collection AppVariantRevisionsDB_Document AppVariantDB_Document
       app_variant_revisions app_variants environments
       set_collection AppEnvironmentDB_Document users organizations apps
       deployments bases environment_revisions next_id].
  f_equal. f_equal.
  - pose proof (delete_all
                  (List.filter
                     (λ r, N.eqb (AppVariantRevisionsDB.variant r) (AppVariantDB.id v))
                     (app_variant_revisions s))
                  (app_variant_revisions s)) as Hdel.
    simpl in Hdel. simpl. rewrite Hdel. apply filter_ext_in. intros x Hx.
    pose proof (existsb_same_id
                  (λ r, N.eqb (AppVariantRevisionsDB.variant r) (AppVariantDB.id v))
                  (app_variant_revisions s) x Hrev Hx) as Hsame.
    simpl in Hsame. now rewrite Hsame.
  - pose proof (save_all (AppEnvironmentDB.set_deployed_app_variant None)
                  (λ _, eq_refl)
                  (List.filter
                     (λ e, N.eqb (AppEnvironmentDB.app e) (AppVariantDB.app v))
                     (environments s))
                  (environments s) Henv) as Hsave.
    simpl in Hsave. simpl. rewrite Hsave.
    + apply map_ext_in. intros x Hx.
      pose proof (existsb_same_id
                    (λ e, N.eqb (AppEnvironmentDB.app e) (AppVariantDB.app v))
                    (environments s) x Henv Hx) as Hsame.
      simpl in Hsame. now rewrite Hsame.
    + pose proof (NoDup_filter_ids
                    (λ e, N.eqb (AppEnvironmentDB.app e) (AppVariantDB.app v))
                    (environments s) Henv) as Hnd.
      exact Hnd.
    + intros d Hd. now apply filter_In in Hd.
Qed.

(** X13: [remove_app_variant_from_db] removes the variant and every
    revision of it, and nothing else, from these two collections.  On the
    environments it clears [deployed_app_variant] of every environment of
    the variant's app, whichever variant that environment serves, and
    leaves every [deployed_app_variant_revision] pointer as it is; the
    environment revisions are not touched. *)
Theorem remove_app_variant_from_db_effect (v : AppVariantDB.t) (app : AppDB.t)
    (s : db) :
  lookup (AppVariantDB.app v) s = Some app →
  NoDup (map AppEnvironmentDB.id (environments s)) →
  NoDup (map AppVariantRevisionsDB.id (app_variant_revisions s)) →
  ∃ s',
    remove_app_variant_from_db v s = (s', inr tt) ∧
    (∀ x, In x (app_variants s') ↔
          In x (app_variants s) ∧ AppVariantDB.id x ≠ AppVariantDB.id v) ∧
    (∀ r, In r (app_variant_revisions s') ↔
          In r (app_variant_revisions s) ∧
          AppVariantRevisionsDB.variant r ≠ AppVariantDB.id v) ∧
    environments s'
      = map (λ e, if N.eqb (AppEnvironmentDB.app e) (AppVariantDB.app v)
                  then AppEnvironmentDB.set_deployed_app_variant None e else e)
          (environments s) ∧
    AppEnvironmentDB.deployed_app_variant_revision <$> environments s'
      = AppEnvironmentDB.deployed_app_variant_revision <$> environments s ∧
    environment_revisions s' = environment_revisions s.
Proof.
  intros Happ Henv Hrev. eexists.
  split; [now apply (remove_app_variant_from_db_run v app)|].
  cbn [app_variants app_variant_revisions environments environment_revisions].
  split_and!; try reflexivity.
  - intros x. rewrite filter_In, negb_true_iff, N.eqb_neq. reflexivity.
  - intros r. rewrite filter_In, negb_true_iff, N.eqb_neq. reflexivity.
  - rewrite <- list_fmap_compose. apply list_fmap_ext. intros i e _. simpl.
    now destruct (N.eqb _ _).
Qed.

(** The steps of [get_config] up to the loop over the environments. *)
Ltac enter_get_config Hsel Hbase Hname Happ :=
  unfold get_config, router_errors, try_except;
  rewrite (bind_run _ _ _ _ _ (selector_run _ _ _ Hsel));
  rewrite (bind_run _ _ _ _ _ Hbase);
  rewrite (truthy_Some _ Hname);
  unfold bind at 1;
  rewrite (bind_run _ _ _ _ _ (fetched_id_run AppDB.t _ _ _ Happ));
  rewrite (bind_run _ _ _ _ _ (list_environments_run _ _ _ Happ));
  unfold bind at 1, get_db; cbn [default from_option id];
  rewrite find_deployed_revision_spec.

Lemma find_map_same {A} (p : A → bool) (g : A → A) (l : list A) :
  (∀ x, p (g x) = p x) → List.find p (map g l) = g <$> List.find p l.
Proof.
  intros Hp. induction l as [|x l IH]; [done|]. simpl. rewrite Hp.
  now destruct (p x).
Qed.

(** X14: after [remove_app_variant_from_db] an environment that was serving
    a revision of the removed variant still points at that revision, which
    is gone: [get_config] through this environment fails on the link that
    cannot be fetched and answers with status 500. *)
Theorem get_config_after_removal (v : AppVariantDB.t) (app : AppDB.t)
    (s s' : db) (reader : string) (reader_uod : user_org_data)
    (base_id : ObjectId) (cn : option string) (environment_name : string)
    (base_db : VariantBaseDB.t) (reader_app : AppDB.t)
    (env : AppEnvironmentDB.t) (rev : AppVariantRevisionsDB.t) :
  lookup (AppVariantDB.app v) s = Some app →
  NoDup (map AppEnvironmentDB.id (environments s)) →
  NoDup (map AppVariantRevisionsDB.id (app_variant_revisions s)) →
  remove_app_variant_from_db v s = (s', inr tt) →
  List.find (λ e, N.eqb (AppEnvironmentDB.app e) (VariantBaseDB.app base_db)
                  && String.eqb (AppEnvironmentDB.name e) environment_name)
    (environments s) = Some env →
  AppEnvironmentDB.deployed_app_variant_revision env
    = Some (AppVariantRevisionsDB.id rev) →
  In rev (app_variant_revisions s) →
  AppVariantRevisionsDB.variant rev = AppVariantDB.id v →
  environment_name ≠ "" →
  get_user_and_org_id reader s' = inr reader_uod →
  fetch_base_and_check_access base_id reader_uod false s' = (s', inr base_db) →
  lookup (VariantBaseDB.app base_db) s' = Some reader_app →
  get_config reader base_id cn (Some environment_name) s'
    = (s', inl (HTTPException 500 "'Link' object has no attribute 'base'")).
Proof.
  intros Happ Henv Hrev Hrun Hfind Hptr Hin Hvar Hname Hsel Hbase Hrapp.
  rewrite (remove_app_variant_from_db_run v app s Happ Henv Hrev) in Hrun.
  injection Hrun as Hs'.
  assert (Henvs : environments s'
                  = map (λ e, if N.eqb (AppEnvironmentDB.app e) (AppVariantDB.app v)
                              then AppEnvironmentDB.set_deployed_app_variant None e
                              else e) (environments s)).
  { now rewrite <- Hs'. }
  enter_get_config Hsel Hbase Hname Hrapp.
  rewrite Henvs, find_map_same, Hfind.
  2: { intros x. now destruct (N.eqb (AppEnvironmentDB.app x) (AppVariantDB.app v)). }
  cbn [fmap option_fmap option_map].
  assert (Hsame : AppEnvironmentDB.deployed_app_variant_revision
                    (if N.eqb (AppEnvironmentDB.app env) (AppVariantDB.app v)
                     then AppEnvironmentDB.set_deployed_app_variant None env
                     else env)
                  = Some (AppVariantRevisionsDB.id rev)).
  { now destruct (N.eqb _ _). }
  rewrite Hsame.
  assert (Hgone : lookup (A:=AppVariantRevisionsDB.t)
                    (AppVariantRevisionsDB.id rev) s' = None).
  { rewrite <- Hs'. unfold lookup.
    cbn [collection AppVariantRevisionsDB_Document app_variant_revisions].
    destruct (List.find _ (List.filter _ _)) as [r|] eqn:E; [|done].
    apply find_some in E as [Hr Hid]. apply filter_In in Hr as [Hr Hne].
    apply has_id_spec in Hid. simpl in Hid.
    pose proof (find_has_id_unique (app_variant_revisions s) r Hrev Hr) as H1.
    pose proof (find_has_id_unique (app_variant_revisions s) rev Hrev Hin) as H2.
    simpl in H1, H2. rewrite Hid in H1. rewrite H1 in H2. injection H2 as ->.
    rewrite Hvar, N.eqb_refl in Hne. discriminate. }
  rewrite Hgone. reflexivity.
Qed.
End RemoveVariant.

(** * Reading back what was written *)

Section ReadYourWrites.
Context `{Collaborators}.

Lemma In_variants_for_base (s : db) (base : VariantBaseDB.t) (x : AppVariantDB.t) :
  In x (variants_for_base s base) ↔
  In x (app_variants s) ∧ AppVariantDB.base x = VariantBaseDB.id base.
Proof.
  unfold variants_for_base. rewrite <- !list_elem_of_In.
  rewrite merge_sort_Permutation, list_elem_of_filter, Is_true_true, N.eqb_eq.
  tauto.
Qed.

(** When one variant only of the base carries the name, the loop over the
    sorted variants finds it. *)
Lemma variant_with_config_name_unique (s : db) (base : VariantBaseDB.t)
    (cn : string) (x : AppVariantDB.t) :
  In x (app_variants s) →
  AppVariantDB.base x = VariantBaseDB.id base →
  AppVariantDB.config_name x = cn →
  (∀ w, In w (app_variants s) → AppVariantDB.base w = VariantBaseDB.id base →
        AppVariantDB.config_name w = cn → w = x) →
  variant_with_config_name (variants_for_base s base) cn = Some x.
Proof.
  intros Hin Hb Hcn Huniq.
  destruct (variant_with_config_name _ _) as [y|] eqn:E.
  - destruct (variant_with_config_name_In _ _ _ _ E) as (Hy & Hyb & Hyc).
    f_equal. now apply Huniq.
  - unfold variant_with_config_name in E.
    pose proof (find_none _ _ E x) as Hn. simpl in Hn.
    rewrite Hcn, String.eqb_refl in Hn.
    assert (Hx : In x (variants_for_base s base))
      by now apply In_variants_for_base.
    now apply Hn in Hx.
Qed.

(** [get_config] by config name, without an environment name. *)
Lemma get_config_by_name_run (s : db) (user_id : string) (base_id : ObjectId)
    (cn : string) (en : option string) (uod : user_org_data)
    (base_db : VariantBaseDB.t) (x : AppVariantDB.t) :
  get_user_and_org_id user_id s = inr uod →
  fetch_base_and_check_access base_id uod false s = (s, inr base_db) →
  truthy en = false →
  cn ≠ "" →
  variant_with_config_name (variants_for_base s base_db) cn = Some x →
  get_config user_id base_id (Some cn) en s
    = (s, inr {| config_id := "0";
                 response_config_name :=
                   ConfigDB.config_name (AppVariantDB.config x);
                 current_version := "0";
                 response_parameters :=
                   ConfigDB.parameters (AppVariantDB.config x) |}).
Proof.
  intros Hsel Hbase Hen Hcn Hfind.
  unfold get_config, router_errors, try_except.
  rewrite (bind_run _ _ _ _ _ (selector_run _ _ _ Hsel)).
  rewrite (bind_run _ _ _ _ _ Hbase).
  rewrite Hen, (truthy_Some _ Hcn).
  unfold bind at 1.
  rewrite (bind_run _ _ _ _ _ (list_variants_for_base_run base_db s)).
  cbn [default from_option id]. rewrite Hfind. reflexivity.
Qed.

(** The base a reader is given after a [save_config] is the base the
    writer was given. *)
Lemma same_base_after_save (s s' : db) (payload : SaveConfigPayload)
    (user_id : string) (r : exn + unit) (uod ruod : user_org_data)
    (base_db rbase : VariantBaseDB.t) :
  save_config payload user_id s = (s', r) →
  fetch_base_and_check_access (base_id payload) uod false s = (s, inr base_db) →
  fetch_base_and_check_access (base_id payload) ruod false s' = (s', inr rbase) →
  rbase = base_db.
Proof.
  intros Hrun Hbase Hrbase.
  destruct (save_config_keeps _ _ _ _ _ Hrun) as (_ & _ & Hb & _).
  destruct (fetch_base_and_check_access_inv _ _ _ _ _ _ Hbase) as (_ & H1 & _).
  destruct (fetch_base_and_check_access_inv _ _ _ _ _ _ Hrbase) as (_ & H2 & _).
  unfold lookup in H1, H2. simpl in H1, H2. rewrite Hb in H2. congruence.
Qed.

(** After an update in place the variant found under the name is the
    updated one. *)
Lemma save_config_in_place_named (s s1 s' : db) (payload : SaveConfigPayload)
    (user_id : string) (uod : user_org_data) (base_db : VariantBaseDB.t)
    (v : AppVariantDB.t) (user : UserDB.t) :
  get_user_and_org_id user_id s = inr uod →
  fetch_base_and_check_access (base_id payload) uod false s = (s, inr base_db) →
  variant_with_config_name (variants_for_base s base_db) (config_name payload)
    = Some v →
  overwrite payload
    || is_empty_dict (ConfigDB.parameters (AppVariantDB.config v)) = true →
  NoDup (map AppVariantDB.id (app_variants s)) →
  get_user (uid uod) s = (s1, inr user) →
  (∀ w, In w (app_variants s) →
        AppVariantDB.base w = VariantBaseDB.id base_db →
        AppVariantDB.config_name w = config_name payload → w = v) →
  save_config payload user_id s = (s', inr tt) →
  variant_with_config_name (variants_for_base s' base_db) (config_name payload)
    = Some (updated_variant v (parameters payload) user).
Proof.
  intros Hsel Hbase Hfind Hgate Hnodup Huser Huniq Hrun.
  destruct (save_config_in_place _ _ _ _ _ _ _ _ Hsel Hbase Hfind Hgate Hnodup Huser)
    as (s'' & rev & Hrun' & Hvars & _).
  rewrite Hrun in Hrun'. injection Hrun' as <-.
  destruct (variant_with_config_name_In _ _ _ _ Hfind) as (Hin & Hb & Hcn).
  apply variant_with_config_name_unique; try done.
  - rewrite Hvars. apply In_replace_doc. now left.
  - intros w Hw Hwb Hwc. rewrite Hvars in Hw.
    apply In_replace_doc in Hw as [->|[Hw Hne]]; [done|].
    exfalso. apply Hne. now rewrite (Huniq w Hw Hwb Hwc).
Qed.

(** X15: a config written over an existing one is the config read back:
    after [save_config] has updated the variant of the base that carries
    the name, the only one with that name, [get_config] with this config
    name and no environment name answers with the supplied parameters. *)
Theorem save_config_overwrite_then_get_config (s s1 s' : db)
    (payload : SaveConfigPayload) (user_id reader : string)
    (uod ruod : user_org_data) (base_db rbase : VariantBaseDB.t)
    (v : AppVariantDB.t) (user : UserDB.t) (en : option string) :
  get_user_and_org_id user_id s = inr uod →
  fetch_base_and_check_access (base_id payload) uod false s = (s, inr base_db) →
  variant_with_config_name (variants_for_base s base_db) (config_name payload)
    = Some v →
  overwrite payload
    || is_empty_dict (ConfigDB.parameters (AppVariantDB.config v)) = true →
  NoDup (map AppVariantDB.id (app_variants s)) →
  get_user (uid uod) s = (s1, inr user) →
  (∀ w, In w (app_variants s) →
        AppVariantDB.base w = VariantBaseDB.id base_db →
        AppVariantDB.config_name w = config_name payload → w = v) →
  save_config payload user_id s = (s', inr tt) →
  config_name payload ≠ "" →
  truthy en = false →
  get_user_and_org_id reader s' = inr ruod →
  fetch_base_and_check_access (base_id payload) ruod false s' = (s', inr rbase) →
  get_config reader (base_id payload) (Some (config_name payload)) en s'
    = (s', inr {| config_id := "0";
                  response_config_name :=
                    ConfigDB.config_name (AppVariantDB.config v);
                  current_version := "0";
                  response_parameters := parameters payload |}).
Proof.
  intros Hsel Hbase Hfind Hgate Hnodup Huser Huniq Hrun Hcn Hen Hrsel Hrbase.
  pose proof (same_base_after_save _ _ _ _ _ _ _ _ _ Hrun Hbase Hrbase) as ->.
  pose proof (save_config_in_place_named _ _ _ _ _ _ _ _ _
                Hsel Hbase Hfind Hgate Hnodup Huser Huniq Hrun) as Hnamed.
  exact (get_config_by_name_run _ _ _ _ _ _ _ _ Hrsel Hrbase Hen Hcn Hnamed).
Qed.

(** What [save_config] leaves when it creates a variant. *)
Lemma save_config_creates (s s1 s' : db) (payload : SaveConfigPayload)
    (user_id : string) (uod : user_org_data) (base_db : VariantBaseDB.t)
    (previous : AppVariantDB.t) (user : UserDB.t) :
  get_user_and_org_id user_id s = inr uod →
  fetch_base_and_check_access (base_id payload) uod false s = (s, inr base_db) →
  get_user (uid uod) s = (s1, inr user) →
  variant_with_config_name (variants_for_base s base_db) (config_name payload)
    = None →
  find_previous_variant_from_base_id (VariantBaseDB.id base_db) s
    = (s, inr (Some previous)) →
  save_config payload user_id s = (s', inr tt) →
  ∃ nv,
    variant_with_config_name (variants_for_base s' base_db) (config_name payload)
      = Some nv ∧
    AppVariantDB.config nv
      = ConfigDB.Build (config_name payload) (parameters payload).
Proof.
  intros Hsel Hbase Huser Hfind Hprev Hrun.
  destruct (get_user_frame _ _ _ _ Huser) as (_ & _ & _ & Hv & _).
  assert (Hex : existsb
            (λ av, String.eqb (AppVariantDB.config_name av) (config_name payload))
            (variants_for_base s base_db) = false).
  { destruct (existsb _ _) eqn:E; [|done].
    apply existsb_exists in E as (x & Hin & Hx).
    now rewrite (find_none _ _ Hfind x Hin) in Hx. }
  unfold save_config, router_errors, try_except in Hrun.
  rewrite (bind_run _ _ _ _ _ (selector_run _ _ _ Hsel)) in Hrun.
  rewrite (bind_run _ _ _ _ _ Hbase) in Hrun.
  rewrite (bind_run _ _ _ _ _ (list_variants_for_base_run base_db s)) in Hrun.
  rewrite Hfind in Hrun.
  unfold add_variant_from_base_and_config in Hrun.
  unfold bind at 1 in Hrun.
  rewrite (bind_run _ _ _ _ _ Hprev) in Hrun.
  rewrite (bind_run _ _ _ _ _ (list_variants_for_base_run base_db s)) in Hrun.
  rewrite Hex in Hrun.
  rewrite (bind_run _ _ _ _ _ Huser) in Hrun.
  cbn in Hrun. injection Hrun as <-.
  eexists. split.
  { apply variant_with_config_name_unique.
    - cbn. apply in_or_app. right. left. reflexivity.
    - reflexivity.
    - reflexivity.
    - intros w Hw Hwb Hwc. cbn in Hw. rewrite Hv in Hw.
      apply in_app_or in Hw as [Hw|[<-|[]]]; [|reflexivity].
      exfalso. unfold variant_with_config_name in Hfind.
      pose proof (find_none _ _ Hfind w) as Hn. simpl in Hn.
      rewrite Hwc, String.eqb_refl in Hn.
      assert (Hx : In w (variants_for_base s base_db))
        by now apply In_variants_for_base.
      now apply Hn in Hx. }
  reflexivity.
Qed.

(** X16: a config saved under a new name is the config read back: after
    [save_config] has created the variant, [get_config] with this config
    name and no environment name answers with the supplied name and the
    supplied parameters. *)
Theorem save_config_create_then_get_config (s s1 s' : db)
    (payload : SaveConfigPayload) (user_id reader : string)
    (uod ruod : user_org_data) (base_db rbase : VariantBaseDB.t)
    (previous : AppVariantDB.t) (user : UserDB.t) (en : option string) :
  get_user_and_org_id user_id s = inr uod →
  fetch_base_and_check_access (base_id payload) uod false s = (s, inr base_db) →
  get_user (uid uod) s = (s1, inr user) →
  variant_with_config_name (variants_for_base s base_db) (config_name payload)
    = None →
  find_previous_variant_from_base_id (VariantBaseDB.id base_db) s
    = (s, inr (Some previous)) →
  save_config payload user_id s = (s', inr tt) →
  config_name payload ≠ "" →
  truthy en = false →
  get_user_and_org_id reader s' = inr ruod →
  fetch_base_and_check_access (base_id payload) ruod false s' = (s', inr rbase) →
  get_config reader (base_id payload) (Some (config_name payload)) en s'
    = (s', inr {| config_id := "0";
                  response_config_name := config_name payload;
                  current_version := "0";
                  response_parameters := parameters payload |}).
Proof.
  intros Hsel Hbase Huser Hfind Hprev Hrun Hcn Hen Hrsel Hrbase.
  pose proof (same_base_after_save _ _ _ _ _ _ _ _ _ Hrun Hbase Hrbase) as ->.
  destruct (save_config_creates _ _ _ _ _ _ _ _ _
              Hsel Hbase Huser Hfind Hprev Hrun) as (nv & Hnamed & Hconfig).
  rewrite (get_config_by_name_run _ _ _ _ _ _ _ _ Hrsel Hrbase Hen Hcn Hnamed).
  now rewrite Hconfig.
Qed.

(** X17: saving the same new config twice without [overwrite]: once the
    first call has created the variant with parameters that are not empty,
    the second call is refused with the conflict answer, status 200, and
    writes nothing. *)
Theorem save_config_twice_conflicts (s s1 s' : db)
    (payload : SaveConfigPayload) (user_id : string)
    (uod uod' : user_org_data) (base_db base_db' : VariantBaseDB.t)
    (previous : AppVariantDB.t) (user : UserDB.t) :
  get_user_and_org_id user_id s = inr uod →
  fetch_base_and_check_access (base_id payload) uod false s = (s, inr base_db) →
  get_user (uid uod) s = (s1, inr user) →
  variant_with_config_name (variants_for_base s base_db) (config_name payload)
    = None →
  find_previous_variant_from_base_id (VariantBaseDB.id base_db) s
    = (s, inr (Some previous)) →
  save_config payload user_id s = (s', inr tt) →
  overwrite payload = false →
  parameters payload ≠ ∅ →
  get_user_and_org_id user_id s' = inr uod' →
  fetch_base_and_check_access (base_id payload) uod' false s' = (s', inr base_db') →
  save_config payload user_id s' = (s', inl (HTTPException 200 conflict_detail)).
Proof.
  intros Hsel Hbase Huser Hfind Hprev Hrun Hover Hparams Hsel' Hbase'.
  pose proof (same_base_after_save _ _ _ _ _ _ _ _ _ Hrun Hbase Hbase') as ->.
  destruct (save_config_creates _ _ _ _ _ _ _ _ _
              Hsel Hbase Huser Hfind Hprev Hrun) as (nv & Hnamed & Hconfig).
  unfold save_config, router_errors, try_except.
  rewrite (bind_run _ _ _ _ _ (selector_run _ _ _ Hsel')).
  rewrite (bind_run _ _ _ _ _ Hbase').
  rewrite (bind_run _ _ _ _ _ (list_variants_for_base_run base_db s')).
  rewrite Hnamed, Hover, Hconfig. cbn [ConfigDB.parameters orb].
  destruct (is_empty_dict (parameters payload)) eqn:E.
  - now apply is_empty_dict_spec in E.
  - reflexivity.
Qed.

(** What a revert writes when the records it follows are there. *)
Lemma revert_deployment_revision_run (s : db)
    (deployment_revision_id target : ObjectId) (x : AppEnvironmentRevisionDB.t)
    (rev : AppVariantRevisionsDB.t) (env : AppEnvironmentDB.t) :
  lookup deployment_revision_id s = Some x →
  AppEnvironmentRevisionDB.deployed_app_variant_revision x = Some target →
  lookup target s = Some rev →
  lookup (AppEnvironmentRevisionDB.environment x) s = Some env →
  fst (revert_deployment_revision deployment_revision_id s)
    = set_collection
        (replace_doc
           (AppEnvironmentDB.set_deployed_app_variant_revision
              (Some (AppVariantRevisionsDB.id rev)) env)
           (environments s)) s.
Proof.
  intros Hx Ht Hrev Henv.
  unfold revert_deployment_revision.
  rewrite (bind_run (fetch_app_environment_revision deployment_revision_id)
             _ s s (Some x)) by exact (f_equal (λ o, (s, inr o)) Hx).
  rewrite Ht. unfold bind at 1, get_db.
  unfold fetch_link. unfold lookup in Henv. rewrite Henv.
  unfold update_app_environment_deployed_variant_revision.
  unfold bind at 1.
  rewrite (bind_run (find_one _) _ s s (Some rev))
    by exact (f_equal (λ o, (s, inr o)) Hrev).
  reflexivity.
Qed.

(** X18: after a revert the environment serves the config of the variant
    revision the chosen environment revision recorded: [get_config]
    through the environment answers with that config, whatever was
    deployed or saved since the record was written. *)
Theorem revert_then_get_config (s s' : db) (deployment_revision_id target : ObjectId)
    (x : AppEnvironmentRevisionDB.t) (rev : AppVariantRevisionsDB.t)
    (env : AppEnvironmentDB.t) (r : exn + string)
    (reader : string) (ruod : user_org_data) (base_id : ObjectId)
    (base_db : VariantBaseDB.t) (app : AppDB.t) (cn : option string)
    (environment_name : string) :
  lookup deployment_revision_id s = Some x →
  AppEnvironmentRevisionDB.deployed_app_variant_revision x = Some target →
  lookup target s = Some rev →
  lookup (AppEnvironmentRevisionDB.environment x) s = Some env →
  revert_deployment_revision deployment_revision_id s = (s', r) →
  List.find (λ e, N.eqb (AppEnvironmentDB.app e) (VariantBaseDB.app base_db)
                  && String.eqb (AppEnvironmentDB.name e) environment_name)
    (environments s) = Some env →
  AppVariantRevisionsDB.base rev = base_id →
  environment_name ≠ "" →
  get_user_and_org_id reader s' = inr ruod →
  fetch_base_and_check_access base_id ruod false s' = (s', inr base_db) →
  lookup (VariantBaseDB.app base_db) s' = Some app →
  get_config reader base_id cn (Some environment_name) s'
    = (s', inr {| config_id := "0";
                  response_config_name :=
                    ConfigDB.config_name (AppVariantRevisionsDB.config rev);
                  current_version := "0";
                  response_parameters :=
                    ConfigDB.parameters (AppVariantRevisionsDB.config rev) |}).
Proof.
  intros Hx Ht Hrev Henv Hrun Hfind Hb Hname Hsel Hbase Happ.
  pose proof (revert_deployment_revision_run _ _ _ _ _ _ Hx Ht Hrev Henv) as Hs'.
  rewrite Hrun in Hs'. cbn [fst] in Hs'.
  apply (get_config_pinned s' reader base_id cn environment_name ruod base_db app
           (AppEnvironmentDB.set_deployed_app_variant_revision
              (Some (AppVariantRevisionsDB.id rev)) env) rev); try done.
  - rewrite Hs'. cbn -[replace_doc].
    apply (find_replace_doc_pred _ _ env); [done|reflexivity|].
    apply find_some in Hfind as [_ Hp]. exact Hp.
  - assert (Hid : AppVariantRevisionsDB.id rev = target).
    { pose proof Hrev as Hr. apply find_some in Hr as [_ Hr].
      now apply has_id_spec in Hr. }
    rewrite Hs', Hid. exact Hrev.
Qed.
End ReadYourWrites.

(** * Scoring by exact match *)

Section ExactMatch.
Context `{Evaluators.ScoringBackends}.
Import Evaluators.

(** X19: under the key "auto_exact_match" [evaluate] never fails and never
    reports an error result: the result is a boolean, true exactly when
    the output and the correct answer are the same text, whatever the
    inputs, the parameters, the settings and the provider keys are. *)
Theorem evaluate_auto_exact_match
    (inputs : parameters_t) (output correct_answer : string)
    (app_params settings_values lm_providers_keys : parameters_t) :
  ∃ b,
    evaluate "auto_exact_match" inputs output correct_answer app_params
      settings_values lm_providers_keys
    = inr {| type := "bool"; value_of := Some (VBool b); error := None |} ∧
    (b = true ↔ output = correct_answer).
Proof.
  exists (String.eqb output correct_answer). split; [reflexivity|].
  apply String.eqb_eq.
Qed.
End ExactMatch.

(** * The further properties on the concrete store *)

(** The store written out, so that its collections can be gone through. *)
Ltac evaluate_store s :=
  let s' := eval vm_compute in s in
  let E := fresh "E" in
  assert (E : s = s') by (vm_compute; reflexivity); rewrite E; clear E.

Ltac split_in :=
  repeat match goal with
         | H : In _ _ |- _ => progress cbn [In] in H
         | H : _ ∨ _ |- _ => destruct H as [<-|H]
         | H : False |- _ => destruct H
         end.

Ltac pick_with t :=
  eexists; split;
  [cbn [In]; t; reflexivity | split_and!; first [reflexivity | lia]].

Ltac pick_member :=
  first [ pick_with ltac:(left) | pick_with ltac:(right; left)
        | pick_with ltac:(right; right; left)
        | pick_with ltac:(right; right; right; left) ].

Ltac settle := first [exfalso; lia | pick_member].

Ltac check_revision_log :=
  split;
  cbn [app_variants app_variant_revisions next_id];
  [ distinct_ids
  | intros v Hv; split_in; cbn; lia
  | distinct_ids
  | intros r Hr; split_in; cbn; lia
  | intros v r Hv Hr Hvar; split_in; cbn in *; lia
  | intros v Hv; split_in; cbn; pick_member
  | intros v r Hv Hr Hvar Hn; split_in; cbn in *;
    first [lia | congruence | reflexivity]
  | intros v r n Hv Hr Hvar Hn; split_in; cbn in *;
    first
      [ exfalso; lia
      | destruct (Z.eq_dec n 0) as [->|?]; [settle|];
        destruct (Z.eq_dec n 1) as [->|?]; [settle|];
        destruct (Z.eq_dec n 2) as [->|?]; [settle|];
        destruct (Z.eq_dec n 3) as [->|?]; [settle|];
        exfalso; lia ] ].

Ltac check_environment_log :=
  split;
  cbn [environments environment_revisions next_id];
  [ intros e He; split_in; reflexivity
  | intros e He; split_in; cbn; lia
  | intros r Hr; split_in; cbn; lia ].

Lemma save_config_keeps_revision_log_witness : revision_log_wf demo_db1.
Proof.
  apply (@save_config_keeps_revision_log demo_collaborators
           (demo_payload 5 false) "u" demo_db demo_db1 (inr tt)).
  - evaluate_store demo_db. check_revision_log.
  - by_evaluation.
Defined.

Lemma current_revision_is_found_witness :
  ∃ rev,
    fetch_app_variant_revision_by_variant 12%N 1 demo_db1 = (demo_db1, inr rev) ∧
    AppVariantRevisionsDB.variant rev = 12%N ∧
    AppVariantRevisionsDB.revision rev = 1 ∧
    AppVariantRevisionsDB.config rev = ConfigDB.Build "prod" (temperature 5).
Proof.
  apply (current_revision_is_found demo_db1 (demo_prod_variant 1 5)).
  - evaluate_store demo_db1. check_revision_log.
  - vm_compute. right. left. reflexivity.
Defined.

Lemma create_new_app_variant_refuses_parameters_witness :
  ∃ msg,
    create_new_app_variant demo_app demo_organization demo_user "app.extra" 6%N
      demo_base (ConfigDB.Build "extra" (temperature 5)) "app" "extra"
      (temperature 5) demo_db
    = (demo_db, inl (AssertionError msg)).
Proof.
  apply (create_new_app_variant_refuses_parameters demo_app demo_organization
           demo_user "app.extra" 6%N demo_base
           (ConfigDB.Build "extra" (temperature 5)) "app" "extra" (temperature 5)
           demo_db).
  apply temperature_not_empty.
Defined.

Lemma create_new_app_variant_starts_log_witness :
  ∃ s' v rev,
    create_new_app_variant demo_app demo_organization demo_user "app.default" 6%N
      demo_base (ConfigDB.Build "default" ∅) "app" "default" ∅ bare_base_db
    = (s', inr v) ∧
    revision_log_wf s' ∧
    app_variants s' = app_variants bare_base_db ++ [v] ∧
    AppVariantDB.revision v = 0 ∧
    AppVariantDB.config v = ConfigDB.Build "default" ∅ ∧
    app_variant_revisions s' = app_variant_revisions bare_base_db ++ [rev] ∧
    fetch_app_variant_revision_by_variant (AppVariantDB.id v) 0 s'
      = (s', inr rev) ∧
    AppVariantRevisionsDB.config rev = ConfigDB.Build "default" ∅.
Proof.
  apply (create_new_app_variant_starts_log demo_app demo_organization demo_user
           "app.default" 6%N demo_base (ConfigDB.Build "default" ∅) "app"
           "default" bare_base_db).
  evaluate_store bare_base_db. check_revision_log.
Defined.

Lemma deploy_to_environment_keeps_logs_witness :
  (environment_log_wf demo_db3 → environment_log_wf demo_db4) ∧
  (revision_log_wf demo_db3 → revision_log_wf demo_db4).
Proof.
  apply (@deploy_to_environment_keeps_logs demo_collaborators demo_db3 demo_db4
           "production" 12%N demo_uod (inr tt)).
  by_evaluation.
Defined.

Lemma revert_deployment_revision_keeps_log_witness :
  environment_log_wf demo_db7 ∧
  environment_revisions demo_db7 = environment_revisions demo_db6.
Proof.
  apply (revert_deployment_revision_keeps_log demo_db6 demo_db7 15%N
           (inr "Environment was reverted to deployment revision successful")).
  - evaluate_store demo_db6. check_environment_log.
  - by_evaluation.
Defined.

Lemma initialize_environments_appends_witness :
  ∃ s' e1 e2 e3,
    initialize_environments demo_app demo_db = (s', inr [e1; e2; e3]) ∧
    environments s' = environments demo_db ++ [e1; e2; e3] ∧
    AppEnvironmentDB.name <$> [e1; e2; e3]
      = ["development"; "staging"; "production"] ∧
    Forall (λ e, AppEnvironmentDB.app e = AppDB.id demo_app ∧
                 AppEnvironmentDB.revision e = 0 ∧
                 AppEnvironmentDB.deployed_app_variant e = None ∧
                 AppEnvironmentDB.deployed_app_variant_revision e = None ∧
                 AppEnvironmentDB.deployment e = None) [e1; e2; e3] ∧
    environment_revisions s' = environment_revisions demo_db ∧
    environment_log_wf s'.
Proof.
  apply (initialize_environments_appends demo_app demo_db).
  evaluate_store demo_db. check_environment_log.
Defined.

Lemma deploy_pins_current_config_witness :
  get_config (H:=demo_collaborators) "u" 5%N None (Some "production") demo_db2
  = (demo_db2,
     inr {| config_id := "0"; response_config_name := "prod";
            current_version := "0"; response_parameters := temperature 5 |}).
Proof.
  apply (@deploy_pins_current_config demo_collaborators demo_db1 demo_db2
           "production" 12%N demo_uod (demo_prod_variant 1 5) "u" demo_uod 5%N
           None demo_base demo_app).
  - evaluate_store demo_db1. check_revision_log.
  - by_evaluation.
  - intros rev Hin _. vm_compute in Hin. split_in; reflexivity.
  - by_evaluation.
  - discriminate.
  - reflexivity.
  - by_evaluation.
  - by_evaluation.
  - reflexivity.
Defined.

Lemma deployment_revision_answer_is_stable_witness :
  get_config_deployment_revision 15%N
    (store_after_all (H:=demo_collaborators) demo_operations demo_db4)
  = (store_after_all (H:=demo_collaborators) demo_operations demo_db4,
     inr {| deployed_config_name := "prod";
            deployed_parameters := temperature 9;
            deployed_current_version := 1 |}).
Proof.
  apply (@deployment_revision_answer_is_stable demo_collaborators 15%N demo_db4
           demo_db4).
  by_evaluation.
Defined.

Lemma deploy_records_current_config_witness :
  ∃ er env,
    List.find (λ e, N.eqb (AppEnvironmentDB.app e) 3%N
                    && String.eqb (AppEnvironmentDB.name e) "production")
      (environments demo_db1) = Some env ∧
    environment_revisions demo_db2 = environment_revisions demo_db1 ++ [er] ∧
    get_config_deployment_revision (AppEnvironmentRevisionDB.id er)
      (store_after_all (H:=demo_collaborators) demo_operations demo_db2)
    = (store_after_all (H:=demo_collaborators) demo_operations demo_db2,
       inr {| deployed_config_name := "prod";
              deployed_parameters := temperature 5;
              deployed_current_version := AppEnvironmentDB.revision env + 1 |}).
Proof.
  apply (@deploy_records_current_config demo_collaborators demo_db1 demo_db2
           "production" 12%N demo_uod (demo_prod_variant 1 5) demo_operations).
  - evaluate_store demo_db1. check_revision_log.
  - evaluate_store demo_db1. check_environment_log.
  - by_evaluation.
  - by_evaluation.
Defined.

Lemma get_user_bootstrap_witness :
  ∃ s' user org,
    get_user (H:=demo_collaborators) "u" demo_db = (s', inr user) ∧
    UserDB.uid user = "0" ∧
    users s' = users demo_db ++ [user] ∧
    organizations s' = organizations demo_db ++ [org] ∧
    OrganizationDB.type org = "default" ∧
    OrganizationDB.owner org = str_ObjectId (UserDB.id user) ∧
    UserDB.organizations user = [OrganizationDB.id org] ∧
    ("u" = "0" → get_user (H:=demo_collaborators) "u" s' = (s', inr user)) ∧
    ("u" ≠ "0" →
     ∃ s'' user' org',
       get_user (H:=demo_collaborators) "u" s' = (s'', inr user') ∧
       users s'' = users demo_db ++ [user; user'] ∧
       organizations s'' = organizations demo_db ++ [org; org']).
Proof.
  apply (@get_user_bootstrap demo_collaborators "u" demo_db).
  - split; discriminate.
  - intros u Hu. vm_compute in Hu. split_in. by_evaluation.
  - reflexivity.
Defined.

Lemma missing_document_is_not_404_witness :
  (∃ msg,
     fetch_app_and_check_access (H:=demo_collaborators) 99%N demo_uod false demo_db
       = (demo_db, inl (TypeError msg)) ∧
     router_errors
       (fetch_app_and_check_access (H:=demo_collaborators) 99%N demo_uod false)
       demo_db
     = (demo_db, inl (HTTPException 500 msg))) ∧
  (∃ msg,
     fetch_app_variant_and_check_access (H:=demo_collaborators) 99%N demo_uod
       false demo_db
     = (demo_db, inl (TypeError msg)) ∧
     router_errors
       (fetch_app_variant_and_check_access (H:=demo_collaborators) 99%N demo_uod
          false) demo_db
     = (demo_db, inl (HTTPException 500 msg))) ∧
  router_errors
    (fetch_base_and_check_access (H:=demo_collaborators) 99%N demo_uod false)
    demo_db
  = (demo_db, inl (HTTPException 404 "Base not found")).
Proof.
  destruct (@missing_document_is_not_404 demo_collaborators 99%N demo_uod false
              demo_db) as (Happ & Hvariant & Hbase).
  split_and!; [apply Happ|apply Hvariant|apply Hbase]; reflexivity.
Defined.

Lemma remove_app_variant_from_db_effect_witness :
  ∃ s',
    remove_app_variant_from_db (demo_prod_variant 2 9) demo_db4 = (s', inr tt) ∧
    (∀ x, In x (app_variants s') ↔
          In x (app_variants demo_db4) ∧ AppVariantDB.id x ≠ 12%N) ∧
    (∀ r, In r (app_variant_revisions s') ↔
          In r (app_variant_revisions demo_db4) ∧
          AppVariantRevisionsDB.variant r ≠ 12%N) ∧
    environments s'
      = map (λ e, if N.eqb (AppEnvironmentDB.app e) 3%N
                  then AppEnvironmentDB.set_deployed_app_variant None e else e)
          (environments demo_db4) ∧
    AppEnvironmentDB.deployed_app_variant_revision <$> environments s'
      = AppEnvironmentDB.deployed_app_variant_revision <$> environments demo_db4 ∧
    environment_revisions s' = environment_revisions demo_db4.
Proof.
  apply (remove_app_variant_from_db_effect (demo_prod_variant 2 9) demo_app
           demo_db4).
  - by_evaluation.
  - distinct_ids.
  - distinct_ids.
Defined.

Lemma get_config_after_removal_witness :
  get_config (H:=demo_collaborators) "u" 5%N None (Some "production") demo_db8
  = (demo_db8, inl (HTTPException 500 "'Link' object has no attribute 'base'")).
Proof.
  apply (@get_config_after_removal demo_collaborators (demo_prod_variant 2 9)
           demo_app demo_db4 demo_db8 "u" demo_uod 5%N None "production"
           demo_base demo_app (demo_production 1 14%N)
           (demo_prod_revision 14%N 2 9)).
  - by_evaluation.
  - distinct_ids.
  - distinct_ids.
  - by_evaluation.
  - by_evaluation.
  - reflexivity.
  - vm_compute. right. right. left. reflexivity.
  - reflexivity.
  - discriminate.
  - reflexivity.
  - by_evaluation.
  - by_evaluation.
Defined.

Lemma save_config_overwrite_then_get_config_witness :
  get_config (H:=demo_collaborators) "u" 5%N (Some "prod") None demo_db3
  = (demo_db3,
     inr {| config_id := "0"; response_config_name := "prod";
            current_version := "0"; response_parameters := temperature 9 |}).
Proof.
  apply (@save_config_overwrite_then_get_config demo_collaborators demo_db1
           demo_db1 demo_db3 (demo_payload 9 true) "u" "u" demo_uod demo_uod
           demo_base demo_base (demo_prod_variant 1 5) demo_user None).
  - reflexivity.
  - by_evaluation.
  - by_evaluation.
  - by_evaluation.
  - distinct_ids.
  - by_evaluation.
  - intros w Hw Hb Hcn. vm_compute in Hw. split_in.
    + discriminate Hcn.
    + reflexivity.
  - by_evaluation.
  - discriminate.
  - reflexivity.
  - reflexivity.
  - by_evaluation.
Defined.

Lemma save_config_create_then_get_config_witness :
  get_config (H:=demo_collaborators) "u" 5%N (Some "prod") None demo_db1
  = (demo_db1,
     inr {| config_id := "0"; response_config_name := "prod";
            current_version := "0"; response_parameters := temperature 5 |}).
Proof.
  apply (@save_config_create_then_get_config demo_collaborators demo_db demo_db
           demo_db1 (demo_payload 5 false) "u" "u" demo_uod demo_uod demo_base
           demo_base demo_base_variant demo_user None).
  - reflexivity.
  - by_evaluation.
  - by_evaluation.
  - by_evaluation.
  - by_evaluation.
  - by_evaluation.
  - discriminate.
  - reflexivity.
  - reflexivity.
  - by_evaluation.
Defined.

Lemma save_config_twice_conflicts_witness :
  save_config (H:=demo_collaborators) (demo_payload 5 false) "u" demo_db1
  = (demo_db1, inl (HTTPException 200 conflict_detail)).
Proof.
  apply (@save_config_twice_conflicts demo_collaborators demo_db demo_db demo_db1
           (demo_payload 5 false) "u" demo_uod demo_uod demo_base demo_base
           demo_base_variant demo_user).
  - reflexivity.
  - by_evaluation.
  - by_evaluation.
  - by_evaluation.
  - by_evaluation.
  - by_evaluation.
  - reflexivity.
  - apply temperature_not_empty.
  - reflexivity.
  - by_evaluation.
Defined.

Lemma revert_then_get_config_witness :
  get_config (H:=demo_collaborators) "u" 5%N None (Some "production") demo_db7
  = (demo_db7,
     inr {| config_id := "0"; response_config_name := "prod";
            current_version := "0"; response_parameters := temperature 9 |}).
Proof.
  apply (@revert_then_get_config demo_collaborators demo_db6 demo_db7 15%N 14%N
           demo_record (demo_prod_revision 14%N 2 9) (demo_production 2 16%N)
           (inr "Environment was reverted to deployment revision successful")
           "u" demo_uod 5%N demo_base demo_app None "production").
  - by_evaluation.
  - reflexivity.
  - by_evaluation.
  - by_evaluation.
  - by_evaluation.
  - by_evaluation.
  - reflexivity.
  - discriminate.
  - reflexivity.
  - by_evaluation.
  - by_evaluation.
Defined.

Lemma deploy_to_environment_succeeds_witness :
  ∃ s',
    deploy_to_environment (H:=demo_collaborators) "production" 12%N demo_uod
      demo_db3 = (s', inr tt).
Proof.
  apply (@deploy_to_environment_succeeds demo_collaborators demo_db3 demo_db3
           "production" 12%N demo_uod (demo_prod_variant 2 9)
           (demo_prod_revision 14%N 2 9) demo_app
           (demo_environment 11%N "production") (DeploymentDB.Build 4%N 3%N)
           demo_user).
  - by_evaluation.
  - by_evaluation.
  - by_evaluation.
  - by_evaluation.
  - by_evaluation.
  - by_evaluation.
Defined.

Lemma revert_deployment_revision_succeeds_witness :
  ∃ s' msg, revert_deployment_revision 15%N demo_db6 = (s', inr msg).
Proof.
  apply (revert_deployment_revision_succeeds demo_db6 15%N 14%N demo_record
           (demo_prod_revision 14%N 2 9) (demo_production 2 16%N)).
  - by_evaluation.
  - reflexivity.
  - by_evaluation.
  - by_evaluation.
Defined.

Lemma get_config_never_deployed_witness :
  ∃ detail,
    get_config (H:=demo_collaborators) "u" 5%N None (Some "staging") demo_db4
    = (demo_db4, inl (HTTPException 400 detail)).
Proof.
  apply (@get_config_never_deployed demo_collaborators demo_db4 "u" 5%N None
           "staging" demo_uod demo_base demo_app
           (demo_environment 10%N "staging")).
  - reflexivity.
  - by_evaluation.
  - discriminate.
  - by_evaluation.
  - by_evaluation.
  - reflexivity.
Defined.

Lemma get_config_other_base_witness :
  ∃ detail,
    get_config (H:=demo_collaborators) "u" 20%N None (Some "production")
      demo_two_bases
    = (demo_two_bases, inl (HTTPException 400 detail)).
Proof.
  apply (@get_config_other_base demo_collaborators demo_two_bases "u" 20%N None
           "production" demo_uod demo_other_base demo_base demo_app
           (demo_production 1 14%N) (demo_prod_revision 14%N 2 9)).
  - reflexivity.
  - by_evaluation.
  - discriminate.
  - by_evaluation.
  - by_evaluation.
  - reflexivity.
  - by_evaluation.
  - by_evaluation.
  - discriminate.
Defined.

Lemma get_config_unknown_environment_witness :
  get_config (H:=demo_collaborators) "u" 5%N None (Some "qa") demo_db
  = (demo_db,
     inl (HTTPException 500
            "local variable 'found_variant_revision' referenced before assignment")).
Proof.
  apply (@get_config_unknown_environment demo_collaborators demo_db "u" 5%N None
           "qa" demo_uod demo_base demo_app).
  - reflexivity.
  - by_evaluation.
  - discriminate.
  - by_evaluation.
  - by_evaluation.
Defined.

Lemma save_config_without_previous_variant_witness :
  save_config (H:=demo_collaborators) (demo_payload 5 false) "u" bare_base_db
  = (bare_base_db, inl (HTTPException 500 "Previous app variant not found")).
Proof.
  apply (@save_config_without_previous_variant demo_collaborators bare_base_db
           (demo_payload 5 false) "u" demo_uod demo_base).
  - reflexivity.
  - by_evaluation.
  - by_evaluation.
Defined.
